(** * LPL-SNN: local-plasticity spiking network, checked against its sources

    Shallow embedding of
      - [model/src/settings.py]  (module [SettingsPy]),
      - [model/src/network.py]   (module [NetworkPy]),
      - [model/src/model.py]     (module [ModelPy]),
      - [datasets/src/image_detection/dataset.py]  (module [ImageDatasetPy]),
      - [datasets/src/zenke_2a/datagen.py] and [dataset.py]  (module [ZenkePy]).

    model.py is the earlier, self-contained form of the network: it holds
    [Layer] with [forward] and the plasticity rule [train_forward], and its
    own [Net].  network.py is the later driver; the [Layer] it imports
    (model/src/layer.py) and the helpers model.py imports
    (model/src/util.py) are not among the sources and enter as interfaces.
    Module [UtilModel] gives the helpers a reference implementation so that
    the code can be run; the theorems about model.py hold for every
    implementation of the interface.

    Conventions.
      - Python [int] is [Z]; a size that the code only ever uses as a
        length or a loop bound is [nat].
      - Python / torch [float] is idealised as an exact rational [Q]:
        rounding, infinities and NaN are outside the model (in [Q] a
        division by zero yields [0]).
      - A torch tensor of rank 1, 2 or 3 is a [list Q], a list of rows,
        or a list of matrices, outermost axis first.
      - A Python call that may raise returns an [Outcome]. *)

From Stdlib Require Import QArith Qabs Qminmax ZArith List Bool Lia Lqa String.
From stdpp Require Import base list.
Import ListNotations.

(** ** Exceptions and outcomes *)

(** The Python exceptions the modelled code can raise.  [DanglingReference]
    is not one of them: it is what the embedding answers when a layer index
    points outside the store of layer objects, which no Python object
    reference can do. *)
Inductive Exn : Type :=
| AssertionError
| AttributeError
| IndexError
| RuntimeError
| DanglingReference.

Inductive Outcome (A : Type) : Type :=
| Returned (a : A)
| Raised (e : Exn).
Arguments Returned {A} a.
Arguments Raised {A} e.

#[global] Instance Outcome_ret : MRet Outcome := fun A a => Returned a.
#[global] Instance Outcome_bind : MBind Outcome := fun A B f m =>
  match m with
  | Returned a => f a
  | Raised e => Raised e
  end.

(** ** Effects

    A method acts on a world [W] (the objects it can reach).  It returns or
    raises, and in both cases leaves a world behind: what was mutated before
    an exception stays mutated. *)
Definition Eff (W A : Type) : Type := W -> Outcome A * W.

#[global] Instance Eff_ret {W} : MRet (Eff W) := fun A a w => (Returned a, w).
#[global] Instance Eff_bind {W} : MBind (Eff W) := fun A B f m w =>
  match m w with
  | (Returned a, w') => f a w'
  | (Raised e, w') => (Raised e, w')
  end.

Definition lift {W A} (o : Outcome A) : Eff W A := fun w => (o, w).

(** ** Tensors *)

Abbreviation Tensor1 := (list Q).
Abbreviation Tensor2 := (list (list Q)).
Abbreviation Tensor3 := (list (list (list Q))).

(** Entry [o][i] of a matrix and entry [n][o][i] of a rank-3 tensor, and
    what it means for such an index to lie inside the tensor. *)
Definition entry2 (t : Tensor2) (o i : nat) : Q := nth i (nth o t []) 0%Q.
Definition entry3 (t : Tensor3) (n o i : nat) : Q := entry2 (nth n t []) o i.
Definition in2 (t : Tensor2) (o i : nat) : Prop :=
  (o < length t)%nat /\ (i < length (nth o t []))%nat.
Definition in3 (t : Tensor3) (n o i : nat) : Prop :=
  (n < length t)%nat /\ in2 (nth n t []) o i.

(** [f 0 + f 1 + ... + f (n - 1)] *)
Definition sum_upto (f : nat -> Q) (n : nat) : Q :=
  foldl (fun acc k => acc + f k)%Q 0%Q (seq 0 n).

(** [torch.device]: only carried around, never inspected. *)
Inductive Device : Type :=
| cpu
| cuda (index : nat).

(** [Tensor.to(device)] moves storage and leaves every value as it is. *)
Definition to_device {T : Type} (x : T) (d : Device) : T := x.

(** [batch.permute(1, 0, 2)]: entry [t][b] of the result is entry [b][t]
    of the argument.  The number of timesteps is read off the first batch
    element (a data loader never yields an empty batch). *)
Definition permute_1_0_2 (batch : Tensor3) : Tensor3 :=
  map (fun t => map (fun sample => nth t sample []) batch)
      (seq 0 (length (hd [] batch))).

(** ** Loops *)

(** A [for] loop whose body cannot leave the function. *)
Fixpoint for_each {W A} (xs : list A) (body : A -> Eff W unit) : Eff W unit :=
  match xs with
  | [] => mret tt
  | x :: xs' => _ ← body x; for_each xs' body
  end.

(** A [for] loop whose body may execute [return]. *)
Inductive Flow : Type :=
| Fallthrough
| Return.

Fixpoint for_each_flow {W A} (xs : list A) (body : A -> Eff W Flow) : Eff W Flow :=
  match xs with
  | [] => mret Fallthrough
  | x :: xs' =>
      fl ← body x;
      match fl with
      | Return => mret Return
      | Fallthrough => for_each_flow xs' body
      end
  end.

(** ** model/src/settings.py *)

Module SettingsPy.

Record Settings : Type := mkSettings {
  layer_sizes : list Z;
  data_size : Z;
  batch_size : Z;
  learning_rate : Q;
  epochs : Z;
  encode_spike_trains : bool;
  dt : Q;
  percentage_inhibitory : Q;
  exc_to_inhib_conn_c : Q;
  exc_to_inhib_conn_sigma_squared : Q;
  layer_sparsity : Q;
  device : Device
}.

(** [Settings.__init__]: twelve plain attribute assignments; there is
    no [raise] and no [assert] in the body. *)
Definition Settings__init__
    (layer_sizes : list Z) (data_size batch_size : Z) (learning_rate : Q)
    (epochs : Z) (encode_spike_trains : bool) (dt percentage_inhibitory
    exc_to_inhib_conn_c exc_to_inhib_conn_sigma_squared layer_sparsity : Q)
    (device : Device) : Outcome Settings :=
  Returned {|
    layer_sizes := layer_sizes;
    data_size := data_size;
    batch_size := batch_size;
    learning_rate := learning_rate;
    epochs := epochs;
    encode_spike_trains := encode_spike_trains;
    dt := dt;
    percentage_inhibitory := percentage_inhibitory;
    exc_to_inhib_conn_c := exc_to_inhib_conn_c;
    exc_to_inhib_conn_sigma_squared := exc_to_inhib_conn_sigma_squared;
    layer_sparsity := layer_sparsity;
    device := device
  |}.

Record LayerSettings : Type := mkLayerSettings {
  l_layer_id : Z;
  l_prev_size : Z;
  l_size : Z;
  l_next_size : Z;
  l_batch_size : Z;
  l_learning_rate : Q;
  l_data_size : Z;
  l_dt : Q;
  l_percentage_inhibitory : Q;
  l_exc_to_inhib_conn_c : Q;
  l_exc_to_inhib_conn_sigma_squared : Q;
  l_layer_sparsity : Q;
  l_device : Device
}.

(** [LayerSettings.__init__]: thirteen plain attribute assignments. *)
Definition LayerSettings__init__
    (layer_id prev_size size next_size batch_size : Z) (learning_rate : Q)
    (data_size : Z) (dt percentage_inhibitory exc_to_inhib_conn_c
    exc_to_inhib_conn_sigma_squared layer_sparsity : Q) (device : Device)
    : Outcome LayerSettings :=
  Returned {|
    l_layer_id := layer_id;
    l_prev_size := prev_size;
    l_size := size;
    l_next_size := next_size;
    l_batch_size := batch_size;
    l_learning_rate := learning_rate;
    l_data_size := data_size;
    l_dt := dt;
    l_percentage_inhibitory := percentage_inhibitory;
    l_exc_to_inhib_conn_c := exc_to_inhib_conn_c;
    l_exc_to_inhib_conn_sigma_squared := exc_to_inhib_conn_sigma_squared;
    l_layer_sparsity := layer_sparsity;
    l_device := device
  |}.

(** The validity condition the specification asks the constructors to
    enforce on the two fields they do have. *)
Definition valid_percentage (p : Q) : Prop := (0 <= p /\ p <= 100)%Q.
Definition valid_learning_rate (lr : Q) : Prop := (0 < lr)%Q.

End SettingsPy.

(** ** model/src/network.py *)

Module NetworkPy.
Import SettingsPy.

(** [(batch > 0.5).float()] *)
Definition gt_half (v : Q) : Q := if Qle_bool v (1 # 2) then 0%Q else 1%Q.
Definition threshold_half (batch : Tensor3) : Tensor3 :=
  map (map (map gt_half)) batch.

(** The two methods of [model.src.layer.Layer] that network.py calls.
    layer.py is not part of the sources, so the methods are an interface:
    [forward i data] is [self.layers[i].forward(data)] ([None] when the call
    passes no argument) and returns the spike; [train_synapses i spk data] is
    [self.layers[i].train_synapses(spk, data)].  [W] holds the state of all
    layer objects (they alias each other through prev/next references). *)
Class LayerAPI (W Spk : Type) : Type := {
  forward : nat -> option Tensor2 -> Eff W Spk;
  train_synapses : nat -> Spk -> Tensor2 -> Eff W unit
}.

(** [Net]: the settings and the [ModuleList] of layers, which the methods
    below only enumerate. *)
Record Net : Type := mkNet {
  settings : Settings;
  num_layers : nat
}.

Section Methods.
Context {W Spk : Type} `{LayerAPI W Spk}.

(** [Net.process_data_single_timestep], lines 72-81. *)
Definition process_data_single_timestep (self : Net) (data : Tensor2) : Eff W unit :=
  let data := to_device data (device (settings self)) in
  for_each (seq 0 (num_layers self)) (fun i =>
    spk ← (if Nat.eqb i 0 then forward i (Some data) else forward i None);
    train_synapses i spk data).

(** The body of the loop over mini-batches in [Net.process_data_online],
    lines 87-108; it ends in [return]. *)
Definition online_batch_body (self : Net) (batch : Tensor3) : Eff W Flow :=
  let batch := to_device batch (device (settings self)) in
  let batch := permute_1_0_2 batch in
  let batch := if encode_spike_trains (settings self)
               then threshold_half batch else batch in
  _ ← for_each (seq 0 (length batch)) (fun timestep =>
        for_each (seq 0 (num_layers self)) (fun i =>
          spk ← (if Nat.eqb i 0 then forward i (Some (nth timestep batch []))
                 else forward i None);
          train_synapses i spk (nth timestep batch [])));
  mret Return.

(** [Net.process_data_online], lines 84-108. *)
Definition process_data_online (self : Net) (train_loader : list Tensor3) : Eff W unit :=
  _ ← for_each_flow (seq 0 (Z.to_nat (epochs (settings self)))) (fun epoch =>
        for_each_flow train_loader (fun batch => online_batch_body self batch));
  mret tt.

End Methods.

(** *** A recording layer

    An implementation of the layer interface that does nothing but append
    each call it receives to a log.  The spike [forward] returns is the
    position of that very call in the log, so the log also shows which
    [forward] call a spike handed to [train_synapses] came from. *)
Inductive Call : Type :=
| CallForward (layer : nat) (data : option Tensor2)
| CallTrainSynapses (layer : nat) (spk : nat) (data : Tensor2).

#[global] Instance Recorder : LayerAPI (list Call) nat := {
  forward i data := fun log => (Returned (length log), log ++ [CallForward i data]);
  train_synapses i spk data := fun log => (Returned tt, log ++ [CallTrainSynapses i spk data])
}.

(** What one layer contributes to the log within one timestep that starts
    at log position [p]. *)
Definition layer_calls (p : nat) (data : Tensor2) (i : nat) : list Call :=
  [CallForward i (if Nat.eqb i 0 then Some data else None);
   CallTrainSynapses i (p + 2 * i) data].

(** Layer by layer: forward, then train, then on to the next layer. *)
Definition interleaved_calls (p n : nat) (data : Tensor2) : list Call :=
  flat_map (layer_calls p data) (seq 0 n).

(** The order the specification describes: all forward passes first, all
    plasticity updates after them. *)
Definition phased_calls (p n : nat) (data : Tensor2) : list Call :=
  map (fun i => CallForward i (if Nat.eqb i 0 then Some data else None)) (seq 0 n)
  ++ map (fun i => CallTrainSynapses i (p + i) data) (seq 0 n).

(** The log of a run over consecutive timesteps. *)
Fixpoint timesteps_calls (p n : nat) (inputs : list Tensor2) : list Call :=
  match inputs with
  | [] => []
  | x :: inputs' => interleaved_calls p n x ++ timesteps_calls (p + 2 * n) n inputs'
  end.

(** The input tensors [process_data_online] hands to the layers for one
    mini-batch of the loader. *)
Definition prepared (self : Net) (batch : Tensor3) : list Tensor2 :=
  if encode_spike_trains (settings self)
  then threshold_half (permute_1_0_2 batch)
  else permute_1_0_2 batch.

(** The schedule the specification asks for: every mini-batch of the
    loader, once per epoch, in order. *)
Definition full_schedule (self : Net) (train_loader : list Tensor3) : list Tensor2 :=
  concat (repeat (flat_map (prepared self) train_loader)
                 (Z.to_nat (epochs (settings self)))).

(** The log of a run started on the empty log. *)
Definition calls_of {A} (run : Eff (list Call) A) : list Call := snd (run []).

End NetworkPy.

(** ** model/src/model.py *)

Module ModelPy.

Definition THETA_REST : Q := 0.
Definition BETA : Q := 1.
Definition LAMBDA_HEBBIAN : Q := 1.
Definition XI : Q := 1 # 1000.
Definition DELTA : Q := 1 # 100000.
Definition TAU_RISE_ALPHA : Q := 2.
Definition TAU_FALL_ALPHA : Q := 10.
Definition TAU_RISE_EPSILON : Q := 5.
Definition TAU_FALL_EPSILON : Q := 20.
Definition MAX_RETAINED_MEMS : nat := 2.
Definition DATA_MEM_ASSUMPTION : Q := 1 # 2.

(** *** Python containers *)

(** [d.append(x)] on a [deque] created with [maxlen]: the element goes to
    the right end, and if that makes the deque longer than [maxlen] the
    leftmost element is dropped. *)
Definition deque_append {A} (maxlen : nat) (d : list A) (x : A) : list A :=
  let d' := d ++ [x] in
  if Nat.ltb maxlen (length d') then tail d' else d'.

(** [d[-k]] for [k >= 1]: the [k]-th element from the right end, or
    [IndexError]. *)
Definition neg_index {A} (d : list A) (k : nat) : Outcome A :=
  if Nat.leb k (length d) && Nat.leb 1 k
  then match d !! (length d - k) with
       | Some x => Returned x
       | None => Raised IndexError
       end
  else Raised IndexError.

(** *** torch operations

    Binary elementwise operations demand equal shapes and raise
    [RuntimeError] otherwise.  (torch would also stretch an axis of length
    one; the code asks for that only through [unsqueeze] and [expand], which
    are written out where they occur.) *)
Fixpoint zip_strict {A B C} (f : A -> B -> Outcome C) (xs : list A) (ys : list B)
    : Outcome (list C) :=
  match xs, ys with
  | [], [] => Returned []
  | x :: xs', y :: ys' =>
      z ← f x y; zs ← zip_strict f xs' ys'; mret (z :: zs)
  | _, _ => Raised RuntimeError
  end.

Definition t1_op (op : Q -> Q -> Q) : Tensor1 -> Tensor1 -> Outcome Tensor1 :=
  zip_strict (fun a b => Returned (op a b)).
Definition t2_op (op : Q -> Q -> Q) : Tensor2 -> Tensor2 -> Outcome Tensor2 :=
  zip_strict (t1_op op).
Definition t3_op (op : Q -> Q -> Q) : Tensor3 -> Tensor3 -> Outcome Tensor3 :=
  zip_strict (t2_op op).

Definition t2_map (f : Q -> Q) : Tensor2 -> Tensor2 := map (map f).
Definition t3_map (f : Q -> Q) : Tensor3 -> Tensor3 := map (map (map f)).

Definition torch_zeros (rows cols : nat) : Tensor2 := repeat (repeat 0%Q cols) rows.
Definition torch_ones (rows cols : nat) : Tensor2 := repeat (repeat 1%Q cols) rows.

(** [x.sum(0)] of a rank-3 tensor.  For an empty outermost axis torch
    returns zeros and the division by [shape[0] = 0] that follows in the
    code yields NaN; NaN is outside the model, so that case raises. *)
Definition sum0 (x : Tensor3) : Outcome Tensor2 :=
  match x with
  | [] => Raised RuntimeError
  | m :: ms => foldl (fun acc m' => a ← acc; t2_op Qplus a m') (Returned m) ms
  end.

(** [a.unsqueeze(2) * b.unsqueeze(1)] for [a] of shape (B, S) and [b] of
    shape (B, P): entry [n][o][i] of the result is [a[n][o] * b[n][i]]. *)
Definition outer (a b : Tensor1) : Outcome Tensor2 :=
  Returned (map (fun ao => map (fun bi => (ao * bi)%Q) b) a).
Definition unsqueeze2_mul_unsqueeze1 (a b : Tensor2) : Outcome Tensor3 :=
  zip_strict outer a b.

(** [x.unsqueeze(1).expand(-1, n, -1)]: every row repeated [n] times along
    a new middle axis. *)
Definition unsqueeze1_expand (n : nat) (x : Tensor2) : Tensor3 :=
  map (fun row => repeat row n) x.

(** [x.unsqueeze(2).expand(-1, -1, n)]: every entry repeated [n] times along
    a new last axis. *)
Definition unsqueeze2_expand (n : nat) (x : Tensor2) : Tensor3 :=
  map (map (fun v => repeat v n)) x.

(** [torch.nn.Linear(in_features, out_features)]: a weight of shape
    (out_features, in_features) and a bias of length out_features. *)
Record Linear : Type := mkLinear {
  weight : Tensor2;
  bias : Tensor1
}.

(** torch draws the initial entries from its global random generator; here
    they are read off an explicit source [rng], starting at position [cur].
    Returns the module and the next unread position. *)
Definition nn_Linear (in_features out_features : nat) (rng : nat -> Q) (cur : nat)
    : Linear * nat :=
  ({| weight := map (fun o => map (fun i => rng (cur + o * in_features + i)%nat)
                                  (seq 0 in_features))
                    (seq 0 out_features);
      bias := map (fun o => rng (cur + out_features * in_features + o)%nat)
                  (seq 0 out_features) |},
   (cur + out_features * in_features + out_features)%nat).

Definition dot (w x : Tensor1) : Outcome Q :=
  p ← t1_op Qmult w x; mret (foldl Qplus 0%Q p).

(** [lin(x)]: for every sample [x[n]], entry [o] is
    [dot(weight[o], x[n]) + bias[o]]. *)
Definition Linear__call__ (lin : Linear) (x : Tensor2) : Outcome Tensor2 :=
  mapM (fun sample =>
          zip_strict (fun w_o b_o => d ← dot w_o sample; mret (d + b_o)%Q)
                     (weight lin) (bias lin)) x.

(** [x.detach()] cuts the autograd graph and keeps the values. *)
Definition detach {T} (x : T) : T := x.

(** *** model/src/util.py

    [MovingAverageLIF], [SpikeMovingAverage], [VarianceMovingAverage] and
    [TemporalFilter] are imported from [model.src.util], which is not among
    the sources.  They enter as an interface: a state type per class, the
    constructor, and each method and attribute model.py uses.  A method gets
    the object and returns its result (or raises) together with the object
    as the call leaves it. *)
Class Util : Type := {
  MovingAverageLIF : Type;
  SpikeMovingAverage : Type;
  VarianceMovingAverage : Type;
  TemporalFilter : Type;
  MovingAverageLIF__init__ :
    forall (batch_size layer_size : nat) (beta : Q) (learn_beta : bool), MovingAverageLIF;
  init_leaky : MovingAverageLIF -> Tensor2;
  MovingAverageLIF__call__ :
    MovingAverageLIF -> forall (current mem : Tensor2),
    Outcome (Tensor2 * Tensor2) * MovingAverageLIF;
  spike_moving_average : MovingAverageLIF -> SpikeMovingAverage;
  lif_variance_moving_average : MovingAverageLIF -> VarianceMovingAverage;
  SpikeMovingAverage__init__ : forall (batch_size data_size : nat), SpikeMovingAverage;
  SpikeMovingAverage_apply :
    SpikeMovingAverage -> forall (spike : Tensor2), Outcome Tensor2 * SpikeMovingAverage;
  spike_rec : SpikeMovingAverage -> list Tensor2;
  SpikeMovingAverage_tracked_value : SpikeMovingAverage -> Tensor2;
  VarianceMovingAverage__init__ : VarianceMovingAverage;
  VarianceMovingAverage_apply :
    VarianceMovingAverage -> forall (spike spike_moving_average : Tensor2),
    Outcome Tensor2 * VarianceMovingAverage;
  VarianceMovingAverage_tracked_value : VarianceMovingAverage -> Tensor2;
  TemporalFilter__init__ : forall (tau_rise tau_fall : Q), TemporalFilter;
  TemporalFilter_apply2 : TemporalFilter -> Tensor2 -> Outcome Tensor2 * TemporalFilter;
  TemporalFilter_apply3 : TemporalFilter -> Tensor3 -> Outcome Tensor3 * TemporalFilter
}.

(** *** Settings, LayerSettings *)

Record Settings : Type := mkSettings {
  s_layer_sizes : list nat;
  s_beta : Q;
  s_learn_beta : bool;
  s_num_steps : nat;
  s_data_size : nat;
  s_batch_size : nat;
  s_learning_rate : Q;
  s_epochs : nat
}.

Record LayerSettings : Type := mkLayerSettings {
  prev_size : nat;
  size : nat;
  next_size : nat;
  beta : Q;
  learn_beta : bool;
  batch_size : nat;
  learning_rate : Q;
  data_size : nat
}.

Section Layers.
Context `{U : Util}.

(** *** Layer

    [prev_layer] and [next_layer] are references to other [Layer] objects:
    positions in the store that holds every layer of the run. *)
Record Layer : Type := mkLayer {
  layer_settings : LayerSettings;
  forward_weights : Linear;
  forward_lif : MovingAverageLIF;
  mem_rec : list Tensor2;
  prev_layer : option nat;
  next_layer : option nat;
  mem : Tensor2;
  alpha_filter_first_term : TemporalFilter;
  epsilon_filter_second_term : TemporalFilter;
  alpha_filter_second_term : TemporalFilter;
  data_spike_moving_average : SpikeMovingAverage;
  variance_moving_average : VarianceMovingAverage
}.

(** Attribute assignment [self.<field> = v], one function per attribute the
    code assigns after construction. *)
Definition with_forward_weights (v : Linear) (l : Layer) : Layer :=
  {| layer_settings := layer_settings l;
     forward_weights := v;
     forward_lif := forward_lif l;
     mem_rec := mem_rec l;
     prev_layer := prev_layer l;
     next_layer := next_layer l;
     mem := mem l;
     alpha_filter_first_term := alpha_filter_first_term l;
     epsilon_filter_second_term := epsilon_filter_second_term l;
     alpha_filter_second_term := alpha_filter_second_term l;
     data_spike_moving_average := data_spike_moving_average l;
     variance_moving_average := variance_moving_average l |}.
Definition with_forward_lif (v : MovingAverageLIF) (l : Layer) : Layer :=
  {| layer_settings := layer_settings l;
     forward_weights := forward_weights l;
     forward_lif := v;
     mem_rec := mem_rec l;
     prev_layer := prev_layer l;
     next_layer := next_layer l;
     mem := mem l;
     alpha_filter_first_term := alpha_filter_first_term l;
     epsilon_filter_second_term := epsilon_filter_second_term l;
     alpha_filter_second_term := alpha_filter_second_term l;
     data_spike_moving_average := data_spike_moving_average l;
     variance_moving_average := variance_moving_average l |}.
Definition with_mem_rec (v : list Tensor2) (l : Layer) : Layer :=
  {| layer_settings := layer_settings l;
     forward_weights := forward_weights l;
     forward_lif := forward_lif l;
     mem_rec := v;
     prev_layer := prev_layer l;
     next_layer := next_layer l;
     mem := mem l;
     alpha_filter_first_term := alpha_filter_first_term l;
     epsilon_filter_second_term := epsilon_filter_second_term l;
     alpha_filter_second_term := alpha_filter_second_term l;
     data_spike_moving_average := data_spike_moving_average l;
     variance_moving_average := variance_moving_average l |}.
Definition with_prev_layer (v : option nat) (l : Layer) : Layer :=
  {| layer_settings := layer_settings l;
     forward_weights := forward_weights l;
     forward_lif := forward_lif l;
     mem_rec := mem_rec l;
     prev_layer := v;
     next_layer := next_layer l;
     mem := mem l;
     alpha_filter_first_term := alpha_filter_first_term l;
     epsilon_filter_second_term := epsilon_filter_second_term l;
     alpha_filter_second_term := alpha_filter_second_term l;
     data_spike_moving_average := data_spike_moving_average l;
     variance_moving_average := variance_moving_average l |}.
Definition with_next_layer (v : option nat) (l : Layer) : Layer :=
  {| layer_settings := layer_settings l;
     forward_weights := forward_weights l;
     forward_lif := forward_lif l;
     mem_rec := mem_rec l;
     prev_layer := prev_layer l;
     next_layer := v;
     mem := mem l;
     alpha_filter_first_term := alpha_filter_first_term l;
     epsilon_filter_second_term := epsilon_filter_second_term l;
     alpha_filter_second_term := alpha_filter_second_term l;
     data_spike_moving_average := data_spike_moving_average l;
     variance_moving_average := variance_moving_average l |}.
Definition with_mem (v : Tensor2) (l : Layer) : Layer :=
  {| layer_settings := layer_settings l;
     forward_weights := forward_weights l;
     forward_lif := forward_lif l;
     mem_rec := mem_rec l;
     prev_layer := prev_layer l;
     next_layer := next_layer l;
     mem := v;
     alpha_filter_first_term := alpha_filter_first_term l;
     epsilon_filter_second_term := epsilon_filter_second_term l;
     alpha_filter_second_term := alpha_filter_second_term l;
     data_spike_moving_average := data_spike_moving_average l;
     variance_moving_average := variance_moving_average l |}.
Definition with_alpha_filter_first_term (v : TemporalFilter) (l : Layer) : Layer :=
  {| layer_settings := layer_settings l;
     forward_weights := forward_weights l;
     forward_lif := forward_lif l;
     mem_rec := mem_rec l;
     prev_layer := prev_layer l;
     next_layer := next_layer l;
     mem := mem l;
     alpha_filter_first_term := v;
     epsilon_filter_second_term := epsilon_filter_second_term l;
     alpha_filter_second_term := alpha_filter_second_term l;
     data_spike_moving_average := data_spike_moving_average l;
     variance_moving_average := variance_moving_average l |}.
Definition with_epsilon_filter_second_term (v : TemporalFilter) (l : Layer) : Layer :=
  {| layer_settings := layer_settings l;
     forward_weights := forward_weights l;
     forward_lif := forward_lif l;
     mem_rec := mem_rec l;
     prev_layer := prev_layer l;
     next_layer := next_layer l;
     mem := mem l;
     alpha_filter_first_term := alpha_filter_first_term l;
     epsilon_filter_second_term := v;
     alpha_filter_second_term := alpha_filter_second_term l;
     data_spike_moving_average := data_spike_moving_average l;
     variance_moving_average := variance_moving_average l |}.
Definition with_alpha_filter_second_term (v : TemporalFilter) (l : Layer) : Layer :=
  {| layer_settings := layer_settings l;
     forward_weights := forward_weights l;
     forward_lif := forward_lif l;
     mem_rec := mem_rec l;
     prev_layer := prev_layer l;
     next_layer := next_layer l;
     mem := mem l;
     alpha_filter_first_term := alpha_filter_first_term l;
     epsilon_filter_second_term := epsilon_filter_second_term l;
     alpha_filter_second_term := v;
     data_spike_moving_average := data_spike_moving_average l;
     variance_moving_average := variance_moving_average l |}.
Definition with_data_spike_moving_average (v : SpikeMovingAverage) (l : Layer) : Layer :=
  {| layer_settings := layer_settings l;
     forward_weights := forward_weights l;
     forward_lif := forward_lif l;
     mem_rec := mem_rec l;
     prev_layer := prev_layer l;
     next_layer := next_layer l;
     mem := mem l;
     alpha_filter_first_term := alpha_filter_first_term l;
     epsilon_filter_second_term := epsilon_filter_second_term l;
     alpha_filter_second_term := alpha_filter_second_term l;
     data_spike_moving_average := v;
     variance_moving_average := variance_moving_average l |}.
Definition with_variance_moving_average (v : VarianceMovingAverage) (l : Layer) : Layer :=
  {| layer_settings := layer_settings l;
     forward_weights := forward_weights l;
     forward_lif := forward_lif l;
     mem_rec := mem_rec l;
     prev_layer := prev_layer l;
     next_layer := next_layer l;
     mem := mem l;
     alpha_filter_first_term := alpha_filter_first_term l;
     epsilon_filter_second_term := epsilon_filter_second_term l;
     alpha_filter_second_term := alpha_filter_second_term l;
     data_spike_moving_average := data_spike_moving_average l;
     variance_moving_average := v |}.

(** The store: every [Layer] object of the run, by position. *)
Abbreviation Store := (list Layer).

(** [self.<field>] *)
Definition read {A} (self : nat) (field : Layer -> A) : Eff Store A :=
  fun layers =>
    match layers !! self with
    | Some me => (Returned (field me), layers)
    | None => (Raised DanglingReference, layers)
    end.

(** [self.<field>.<method>(...)] for a method that mutates the object held
    in the field: the object is replaced by what the call leaves behind,
    whether the call returns or raises. *)
Definition on_field {X A} (self : nat) (field : Layer -> X) (set : X -> Layer -> Layer)
    (method : X -> Outcome A * X) : Eff Store A :=
  fun layers =>
    match layers !! self with
    | Some me =>
        let '(r, x') := method (field me) in
        (r, <[self := set x' me]> layers)
    | None => (Raised DanglingReference, layers)
    end.

(** [Layer.__init__], lines 78-108. *)
Definition Layer__init__ (ls : LayerSettings) (rng : nat -> Q) (cur : nat) : Layer * nat :=
  let '(forward_weights, cur') := nn_Linear (prev_size ls) (size ls) rng cur in
  let forward_lif :=
    MovingAverageLIF__init__ (batch_size ls) (size ls) (beta ls) (learn_beta ls) in
  let mem_rec :=
    foldl (fun d _ => deque_append MAX_RETAINED_MEMS d
                        (torch_zeros (batch_size ls) (size ls)))
          [] (seq 0 2) in
  ({| layer_settings := ls;
      forward_weights := forward_weights;
      forward_lif := forward_lif;
      mem_rec := mem_rec;
      prev_layer := None;
      next_layer := None;
      mem := init_leaky forward_lif;
      alpha_filter_first_term := TemporalFilter__init__ TAU_RISE_ALPHA TAU_FALL_ALPHA;
      epsilon_filter_second_term := TemporalFilter__init__ TAU_RISE_EPSILON TAU_FALL_EPSILON;
      alpha_filter_second_term := TemporalFilter__init__ TAU_RISE_ALPHA TAU_FALL_ALPHA;
      data_spike_moving_average := SpikeMovingAverage__init__ (batch_size ls) (data_size ls);
      variance_moving_average := VarianceMovingAverage__init__ |},
   cur').

(** [Layer.with_next_layer], [Layer.with_prev_layer], lines 110-114. *)
Definition set_next_layer (self : nat) (next : nat) : Eff Store unit :=
  on_field self next_layer with_next_layer (fun _ => (Returned tt, Some next)).
Definition set_prev_layer (self : nat) (prev : nat) : Eff Store unit :=
  on_field self prev_layer with_prev_layer (fun _ => (Returned tt, Some prev)).

(** [Layer.forward], lines 116-129.  With [data is None] and a previous
    layer set, line 120 reads [self.prev_layer.spk_rec]; [Layer] has an
    attribute [mem_rec] but none called [spk_rec], so the read raises. *)
Definition forward (self : nat) (data : option Tensor2) : Eff Store (Tensor2 * Tensor2) :=
  current ← match data with
            | None =>
                prev ← read self prev_layer;
                match prev with
                | None => lift (Raised AssertionError)
                | Some _ => lift (Raised AttributeError)
                end
            | Some data =>
                let data := detach data in
                lin ← read self forward_weights;
                lift (Linear__call__ lin data)
            end;
  self_mem ← read self mem;
  '(spk, mem') ← on_field self forward_lif with_forward_lif
                   (fun lif => MovingAverageLIF__call__ lif current self_mem);
  _ ← on_field self mem with_mem (fun _ => (Returned tt, mem'));
  _ ← on_field self mem_rec with_mem_rec
        (fun d => (Returned tt, deque_append MAX_RETAINED_MEMS d mem'));
  mret (spk, mem').

(** [Layer.train_forward], lines 158-164: the trackers of the input, then
    the forward step. *)
Definition track_input (self : nat) (data : option Tensor2) : Eff Store unit :=
  match data with
  | Some data =>
      data_mean ← on_field self data_spike_moving_average with_data_spike_moving_average
                    (fun t => SpikeMovingAverage_apply t data);
      _variance ← on_field self variance_moving_average with_variance_moving_average
                    (fun t => VarianceMovingAverage_apply t data data_mean);
      mret tt
  | None => mret tt
  end.

(** Lines 166-185, [# first term]. *)
Definition first_term (self : nat) : Eff Store Tensor3 :=
  ls ← read self layer_settings;
  let beta := beta ls in
  prev ← read self prev_layer;
  prev_layer_mem ← match prev with
                   | None =>
                       mret (t2_map (fun one => one * DATA_MEM_ASSUMPTION)%Q
                                    (torch_ones (batch_size ls) (data_size ls)))
                   | Some p =>
                       prev_mem_rec ← read p mem_rec;
                       lift (neg_index prev_mem_rec 1)
                   end;
  let f_prime_u_i :=
    t2_map (fun u => beta * Qpower (1 + beta * Qabs (u - THETA_REST)) (-2))%Q
           prev_layer_mem in
  lif ← read self forward_lif;
  most_recent_spike ← lift (neg_index (spike_rec (spike_moving_average lif)) 1);
  first_term_no_filter ← lift (unsqueeze2_mul_unsqueeze1 most_recent_spike f_prime_u_i);
  first_term_epsilon ← on_field self epsilon_filter_second_term
                         with_epsilon_filter_second_term
                         (fun f => TemporalFilter_apply3 f first_term_no_filter);
  first_term_alpha ← on_field self alpha_filter_first_term with_alpha_filter_first_term
                       (fun f => TemporalFilter_apply3 f first_term_epsilon);
  mret (t3_map (fun x => learning_rate ls * x * learning_rate ls)%Q first_term_alpha).

(** The four presynaptic quantities of lines 188-195: the two retained
    spike samples, the spike moving average and the variance moving average,
    of the input trackers for a first layer and of the previous layer's
    neuron otherwise. *)
Definition presynaptic (self : nat) : Eff Store (Tensor2 * Tensor2 * Tensor2 * Tensor2) :=
  prev ← read self prev_layer;
  match prev with
  | None =>
      sma ← read self data_spike_moving_average;
      vma ← read self variance_moving_average;
      prev_layer_most_recent_spike ← lift (neg_index (spike_rec sma) 1);
      prev_layer_two_spikes_ago ← lift (neg_index (spike_rec sma) 2);
      mret (prev_layer_most_recent_spike, prev_layer_two_spikes_ago,
            SpikeMovingAverage_tracked_value sma,
            VarianceMovingAverage_tracked_value vma)
  | Some p =>
      lif ← read p forward_lif;
      prev_layer_most_recent_spike ←
        lift (neg_index (spike_rec (spike_moving_average lif)) 1);
      prev_layer_two_spikes_ago ←
        lift (neg_index (spike_rec (spike_moving_average lif)) 2);
      mret (prev_layer_most_recent_spike, prev_layer_two_spikes_ago,
            SpikeMovingAverage_tracked_value (spike_moving_average lif),
            VarianceMovingAverage_tracked_value (lif_variance_moving_average lif))
  end.

(** Lines 197-201: the expression, operator by operator in Python's
    precedence: [(-1 * (a - b)) + ((LAMBDA_HEBBIAN / (v + XI)) * (a - m))]. *)
Definition second_term_no_filter_of
    (prev_layer_most_recent_spike prev_layer_two_spikes_ago
     prev_layer_spike_moving_average prev_layer_variance_moving_average : Tensor2)
    : Outcome Tensor2 :=
  difference ← t2_op Qminus prev_layer_most_recent_spike prev_layer_two_spikes_ago;
  let negated := t2_map (fun d => (-1) * d)%Q difference in
  let gain := t2_map (fun v => LAMBDA_HEBBIAN / (v + XI))%Q
                     prev_layer_variance_moving_average in
  deviation ← t2_op Qminus prev_layer_most_recent_spike prev_layer_spike_moving_average;
  hebbian ← t2_op Qmult gain deviation;
  t2_op Qplus negated hebbian.

(** Lines 187-205, [# second term]. *)
Definition second_term (self : nat) : Eff Store Tensor3 :=
  '(prev_layer_most_recent_spike, prev_layer_two_spikes_ago,
    prev_layer_spike_moving_average, prev_layer_variance_moving_average)
      ← presynaptic self;
  second_term_no_filter ←
    lift (second_term_no_filter_of
            prev_layer_most_recent_spike prev_layer_two_spikes_ago
            prev_layer_spike_moving_average prev_layer_variance_moving_average);
  second_term_alpha ← on_field self alpha_filter_second_term with_alpha_filter_second_term
                        (fun f => TemporalFilter_apply2 f second_term_no_filter);
  ls ← read self layer_settings;
  mret (unsqueeze1_expand (size ls) second_term_alpha).

(** Lines 207-213, [# third term]. *)
Definition third_term (self : nat) : Eff Store Tensor3 :=
  ls ← read self layer_settings;
  lif ← read self forward_lif;
  most_recent_spike ← lift (neg_index (spike_rec (spike_moving_average lif)) 1);
  let third_term := t2_map (fun s => learning_rate ls * DELTA * s)%Q most_recent_spike in
  prev ← read self prev_layer;
  prev_layer_size ← match prev with
                    | None => mret (data_size ls)
                    | Some p => prev_ls ← read p layer_settings; mret (size prev_ls)
                    end;
  mret (unsqueeze2_expand prev_layer_size third_term).

(** [dw_dt.sum(0) / dw_dt.shape[0]] *)
Definition batch_mean (dw_dt : Tensor3) : Outcome Tensor2 :=
  summed ← sum0 dw_dt;
  mret (t2_map (fun x => x / inject_Z (Z.of_nat (length dw_dt)))%Q summed).

(** Lines 215-218, [# update weights]. *)
Definition update_weights (self : nat) (first_term second_term_alpha third_term : Tensor3)
    : Eff Store unit :=
  product ← lift (t3_op Qmult first_term second_term_alpha);
  dw_dt ← lift (t3_op Qplus product third_term);
  dw_dt ← lift (batch_mean dw_dt);
  on_field self forward_weights with_forward_weights
    (fun lin => match t2_op Qplus (weight lin) dw_dt with
                | Returned w => (Returned tt, {| weight := w; bias := bias lin |})
                | Raised e => (Raised e, lin)
                end).

(** [Layer.train_forward], lines 131-218. *)
Definition train_forward (self : nat) (data : option Tensor2) : Eff Store unit :=
  _ ← track_input self data;
  '(spk, _mem) ← forward self data;
  first_term ← first_term self;
  second_term_alpha ← second_term self;
  third_term ← third_term self;
  update_weights self first_term second_term_alpha third_term.

(** *** Net *)

(** [Net.__init__], lines 227-236: the settings of layer [i]. *)
Definition network_layer_settings (settings : Settings) : list LayerSettings :=
  imap (fun i size =>
          {| prev_size := if Nat.eqb i 0 then s_data_size settings
                          else nth (i - 1) (s_layer_sizes settings) 0%nat;
             size := size;
             next_size := if Nat.ltb i (length (s_layer_sizes settings) - 1)
                          then nth (i + 1) (s_layer_sizes settings) 0%nat else 0%nat;
             beta := s_beta settings;
             learn_beta := s_learn_beta settings;
             batch_size := s_batch_size settings;
             learning_rate := s_learning_rate settings;
             data_size := s_data_size settings |})
       (s_layer_sizes settings).

(** Lines 238-242: one [Layer] per entry, each drawing its initial weights
    where the one before stopped. *)
Fixpoint make_layers (specs : list LayerSettings) (rng : nat -> Q) (cur : nat) : Store :=
  match specs with
  | [] => []
  | layer_spec :: specs' =>
      let '(layer, cur') := Layer__init__ layer_spec rng cur in
      layer :: make_layers specs' rng cur'
  end.

(** Lines 244-249: wiring. *)
Definition connect_layers (n : nat) : Eff Store unit :=
  for_each (seq 0 n) (fun i =>
    _ ← (if Nat.ltb 0 i then set_prev_layer i (i - 1) else mret tt);
    if Nat.ltb i (n - 1) then set_next_layer i (i + 1) else mret tt).

(** [Net.__init__]: the layers of the new network. *)
Definition Net__init__ (settings : Settings) (rng : nat -> Q) : Store :=
  let specs := network_layer_settings settings in
  snd (connect_layers (length specs) (make_layers specs rng 0)).

(** One pass of the loop over layers, lines 265-269. *)
Definition train_timestep (data : Tensor2) : Eff Store unit :=
  fun layers =>
    for_each (seq 0 (length layers)) (fun i =>
      if Nat.eqb i 0 then train_forward i (Some data) else train_forward i None) layers.

(** [Net.process_data_online], lines 252-269.  [spikegen_rate epoch i batch]
    is what snntorch's random rate encoder returns for mini-batch [i] of
    [epoch]. *)
Definition process_data_online (settings : Settings)
    (spikegen_rate : nat -> nat -> Tensor3 -> Tensor3)
    (train_loader test_loader : list Tensor3) : Eff Store unit :=
  for_each (seq 0 (s_epochs settings)) (fun epoch =>
    for_each (imap (fun i batch => (i, batch)) train_loader) (fun '(i, batch) =>
      let batch := permute_1_0_2 batch in
      let spike_trains := spikegen_rate epoch i batch in
      for_each (seq 0 (length spike_trains)) (fun timestep =>
        train_timestep (nth timestep spike_trains [])))).

End Layers.

Abbreviation Store := (list Layer).

End ModelPy.

(** ** The data sets

    The exceptions of the data-set code, and the result of a call that may
    raise one. *)

Inductive DataExn : Type :=
| KeyError
| ZeroDivisionError
| ValueError
| IndexOutOfRange
| FileNotFoundError.

Inductive Result (A : Type) : Type :=
| Done (a : A)
| Thrown (e : DataExn).
Arguments Done {A} a.
Arguments Thrown {A} e.

#[global] Instance Result_ret : MRet Result := fun A a => Done a.
#[global] Instance Result_bind : MBind Result := fun A B f m =>
  match m with
  | Done a => f a
  | Thrown e => Thrown e
  end.

(** ** datasets/src/image_detection/dataset.py *)

Module ImageDatasetPy.

(** Python's [random.randint(a, b)]: [randint k a b] is the [k]-th draw
    from the module's generator.  The library raises [ValueError] for
    [a > b] and otherwise promises a value between [a] and [b] inclusive. *)
Class PyRandom : Type := {
  randint : forall (k : nat) (a b : Z), Z
}.

Definition randint_in_range `{PyRandom} : Prop :=
  forall k a b, (a <= b)%Z -> (a <= randint k a b <= b)%Z.

Definition random_randint `{PyRandom} (k : nat) (a b : Z) : Result Z :=
  if (b <? a)%Z then Thrown ValueError else Done (randint k a b).

Record ImageDataset : Type := mkImageDataset {
  num_classes : nat;
  num_timesteps_each_image : Z;
  num_switches : Z;
  images : list Z;
  len : Z;
  device : Device
}.

(** [ImageDataset.__init__], lines 10-20; [max_samples] defaults to
    [1024 * 2]. *)
Definition ImageDataset__init__ (num_timesteps_each_image num_switches : Z)
    (device : Device) (max_samples : option Z) : ImageDataset :=
  let num_classes := 10%nat in
  {| num_classes := num_classes;
     num_timesteps_each_image := num_timesteps_each_image;
     num_switches := num_switches;
     images := map Z.of_nat (seq 0 num_classes);
     len := default (1024 * 2)%Z max_samples;
     device := device |}.

(** [ImageDataset.__len__], lines 22-26. *)
Definition ImageDataset__len__ (self : ImageDataset) : Z := len self.

(** Lines 34-37: the loop over the switches, from draw [cur] of the random
    generator on.  Returns [out] and [out_labels], or raises, and the next
    draw of the generator. *)
Fixpoint draw_switches `{PyRandom} (self : ImageDataset) (switches : nat) (cur : nat)
    : Result (list Z * list Z) * nat :=
  match switches with
  | O => (Done ([], []), cur)
  | S switches' =>
      match random_randint cur 0 (Z.of_nat (length (images self)) - 1) with
      | Thrown e => (Thrown e, cur)
      | Done image_index =>
          let '(rest, cur') := draw_switches self switches' (S cur) in
          ('(out, out_labels) ← rest;
           mret (repeat image_index (Z.to_nat (num_timesteps_each_image self)) ++ out,
                 image_index :: out_labels),
           cur')
      end
  end.

(** One row of [out_one_hot[torch.arange(len(out)), out] = 1] on a zero
    row of [n] entries: column [c] is set to 1, a negative [c] counts from
    the end, and a [c] outside [-n, n) raises [IndexError]. *)
Definition one_hot_row (n : nat) (c : Z) : Result (list Q) :=
  if ((0 <=? c) && (c <? Z.of_nat n))%Z
  then Done (<[Z.to_nat c := 1%Q]> (repeat 0%Q n))
  else if ((- Z.of_nat n <=? c) && (c <? 0))%Z
       then Done (<[Z.to_nat (c + Z.of_nat n) := 1%Q]> (repeat 0%Q n))
       else Thrown IndexOutOfRange.

(** [ImageDataset.__getitem__], lines 28-54: the pair of tensors it
    returns, or the exception, and the next draw of the random generator.
    [idx] is not used. *)
Definition ImageDataset__getitem__ `{PyRandom} (self : ImageDataset) (idx : Z) (cur : nat)
    : Result (Tensor2 * list Z) * nat :=
  let '(drawn, cur') := draw_switches self (Z.to_nat (num_switches self)) cur in
  ('(out, out_labels) ← drawn;
   out_one_hot ← mapM (one_hot_row (num_classes self)) out;
   mret (out_one_hot, out_labels),
   cur').

End ImageDatasetPy.

(** ** datasets/src/zenke_2a/datagen.py and dataset.py *)

Module ZenkePy.

(** A data frame with the columns [sample], [x], [y]: its rows in order. *)
Record Row : Type := mkRow {
  sample : Z;
  x : Q;
  y : Q
}.

Abbreviation DataFrame := (list Row).

Definition NUM_TIMESTEPS : Z := 100.
Definition PLANNED_BATCH_SIZE : Z := 1.

(** numpy's global random generator: what its [k]-th draw returns when the
    draw is [randint(low, high)], [rand()], [normal(loc, scale)] or
    [random()].  [randint] raises [ValueError] unless [low < high] and then
    promises [low <= value < high]. *)
Class NumpyRandom : Type := {
  np_randint : forall (k : nat) (low high : Z), Z;
  np_rand : forall (k : nat), Q;
  np_normal : forall (k : nat) (loc scale : Q), Q;
  np_random : forall (k : nat), Q
}.

Definition np_randint_in_range `{NumpyRandom} : Prop :=
  forall k low high, (low < high)%Z -> (low <= np_randint k low high < high)%Z.

Definition numpy_randint `{NumpyRandom} (k : nat) (low high : Z) : Result Z :=
  if (high <=? low)%Z then Thrown ValueError else Done (np_randint k low high).

Definition Qlt_bool (a b : Q) : bool := negb (Qle_bool b a).

(** *** datagen.py *)

(** Lines 37-48: the datapoints of one sample, from draw [cur] on; three
    draws each. *)
Fixpoint datapoints `{NumpyRandom} (sample num_clusters : Z) (cluster_switch_prob : Q)
    (num_datapoints : nat) (current_cluster : Z) (cur : nat) : list Row * nat :=
  match num_datapoints with
  | O => ([], cur)
  | S num_datapoints' =>
      let current_cluster :=
        if Qlt_bool (np_rand cur) cluster_switch_prob
        then ((current_cluster + 1) mod num_clusters)%Z
        else current_cluster in
      let center_x := (inject_Z current_cluster * 2)%Q in
      let data_point := {| sample := sample;
                           x := np_normal (cur + 1) center_x (1 # 10);
                           y := np_random (cur + 2) |} in
      let '(data, cur') := datapoints sample num_clusters cluster_switch_prob
                             num_datapoints' current_cluster (cur + 3) in
      (data_point :: data, cur')
  end.

(** Lines 35-48: the loop over the samples. *)
Fixpoint generate_samples `{NumpyRandom} (samples : list Z) (num_datapoints : nat)
    (num_clusters : Z) (cluster_switch_prob : Q) (cur : nat) : Result (list Row) * nat :=
  match samples with
  | [] => (Done [], cur)
  | sample :: samples' =>
      match numpy_randint cur 0 num_clusters with
      | Thrown e => (Thrown e, cur)
      | Done current_cluster =>
          let '(data, cur1) := datapoints sample num_clusters cluster_switch_prob
                                 num_datapoints current_cluster (S cur) in
          let '(rest, cur2) := generate_samples samples' num_datapoints num_clusters
                                 cluster_switch_prob cur1 in
          (more ← rest; mret (data ++ more), cur2)
      end
  end.

(** The minimum and the maximum of a column (of an empty column pandas
    gives NaN, which nothing then uses). *)
Definition column_min (vs : list Q) : Q :=
  match vs with
  | [] => 0%Q
  | v :: vs' => foldl Qmin v vs'
  end.
Definition column_max (vs : list Q) : Q :=
  match vs with
  | [] => 0%Q
  | v :: vs' => foldl Qmax v vs'
  end.

(** Lines 54-55: every column scaled by its own minimum and maximum. *)
Definition normalize (df : DataFrame) : DataFrame :=
  let xs := map x df in
  let ys := map y df in
  map (fun r => {| sample := sample r;
                   x := (x r - column_min xs) / (column_max xs - column_min xs);
                   y := (y r - column_min ys) / (column_max ys - column_min ys) |}) df.

(** [generate_sequential_dataset], lines 13-57.  [cluster_spread] is
    accepted and not used. *)
Definition generate_sequential_dataset `{NumpyRandom}
    (num_samples num_datapoints num_clusters : Z)
    (cluster_switch_prob cluster_spread : Q) (cur : nat) : Result DataFrame * nat :=
  let '(data, cur') :=
    generate_samples (map Z.of_nat (seq 0 (Z.to_nat num_samples)))
      (Z.to_nat num_datapoints) num_clusters cluster_switch_prob cur in
  (df ← data; mret (normalize df), cur').

(** *** dataset.py *)

Inductive DatasetType : Type :=
| TRAIN
| TEST.

(** [df.groupby('sample').get_group(k)]: the rows of sample [k] in their
    order, [KeyError] if there is none. *)
Definition get_group (df : DataFrame) (k : Z) : Result DataFrame :=
  match filter (fun r => sample r = k) df with
  | [] => Thrown KeyError
  | group => Done group
  end.

(** [sample_data[['x', 'y']]] as a tensor. *)
Definition xy_tensor (rows : DataFrame) : Tensor2 := map (fun r => [x r; y r]) rows.

(** [t[0:stop]]: a negative [stop] counts from the end. *)
Definition slice_to {A} (stop : Z) (t : list A) : list A :=
  if (0 <=? stop)%Z then take (Z.to_nat stop) t
  else take (Z.to_nat (Z.of_nat (length t) + stop)) t.

(** The files the data sets are kept in, by path.  A frame is read back as
    it was written: the text form of a number is taken as exact. *)
Definition Files : Type := string -> option DataFrame.

Definition to_csv (path : string) (df : DataFrame) (files : Files) : Files :=
  fun p => if String.eqb p path then Some df else files p.

Definition read_csv (path : string) (files : Files) : Result DataFrame :=
  match files path with
  | Some df => Done df
  | None => Thrown FileNotFoundError
  end.

Record SequentialDataset : Type := mkSequentialDataset {
  dataframe : DataFrame;
  num_timesteps : Z
}.

Section Dataset.
Context `{NumpyRandom}.

(** The two paths of [datasets/src/zenke_2a/constants.py], which is not
    among the sources. *)
Variables TRAIN_DATA_PATH TEST_DATA_PATH : string.

(** [SequentialDataset.__init__], lines 26-55: the data set, or the
    exception, with the files and the next draw of the random generator as
    the call leaves them. *)
Definition SequentialDataset__init__ (dataset_type : DatasetType) (dataframe_tmp : DataFrame)
    (num_timesteps planned_batch_size : Z) (files : Files) (cur : nat)
    : Result SequentialDataset * Files * nat :=
  match get_group dataframe_tmp 0 with
  | Thrown e => (Thrown e, files, cur)
  | Done sample_data =>
      if (planned_batch_size =? 0)%Z then (Thrown ZeroDivisionError, files, cur)
      else if negb (Z.of_nat (length dataframe_tmp) mod planned_batch_size =? 0)%Z
              || negb (Z.of_nat (length (xy_tensor sample_data)) =? num_timesteps)%Z
      then
        match generate_sequential_dataset planned_batch_size num_timesteps 2
                (2 # 100) (1 # 2) cur with
        | (Thrown e, cur') => (Thrown e, files, cur')
        | (Done dataframe_tmp, cur') =>
            let path := match dataset_type with
                        | TRAIN => TRAIN_DATA_PATH
                        | TEST => TEST_DATA_PATH
                        end in
            let files := to_csv path dataframe_tmp files in
            (dataframe ← read_csv path files;
             mret {| dataframe := dataframe; num_timesteps := num_timesteps |},
             files, cur')
        end
      else (Done {| dataframe := dataframe_tmp; num_timesteps := num_timesteps |},
            files, cur)
  end.

End Dataset.

(** [SequentialDataset.__len__], lines 57-61: the number of groups. *)
Definition SequentialDataset__len__ (self : SequentialDataset) : Z :=
  Z.of_nat (length (remove_dups (map sample (dataframe self)))).

(** [SequentialDataset.__getitem__], lines 63-80, for an integer index. *)
Definition SequentialDataset__getitem__ (self : SequentialDataset) (idx : Z) : Result Tensor2 :=
  sample_data ← get_group (dataframe self) idx;
  mret (slice_to (num_timesteps self) (xy_tensor sample_data)).

End ZenkePy.

(** ** A reference implementation of model/src/util.py

    Used to run the code above on concrete inputs. *)

Module UtilModel.
Import ModelPy.

(** Modelled from the spec: the time constants of the moving averages, which
    model.py does not pass to the trackers; any positive value serves. *)
Definition TAU_MEAN : Q := 100.
Definition TAU_VAR : Q := 100.

(** One step of a first-order low-pass with time constant [tau]:
    [y <- y + (x - y) / tau]. *)
Definition lowpass (tau : Q) (y x : Q) : Q := (y + (x - y) / tau)%Q.

(** Modelled from the spec: [TemporalFilter] (section 4.1), missing with
    util.py.  Two cascaded first-order low-pass stages with time constants
    [tau_rise] and [tau_fall]; the state arrays start at zero, take their
    shape from the first input, and [apply] returns the second stage. *)
Record TemporalFilterState : Type := mkFilter {
  tau_rise : Q;
  tau_fall : Q;
  stages2 : option (Tensor2 * Tensor2);
  stages3 : option (Tensor3 * Tensor3)
}.

Definition filter_apply2 (f : TemporalFilterState) (x : Tensor2)
    : Outcome Tensor2 * TemporalFilterState :=
  let '(s1, s2) := default (t2_map (fun _ => 0%Q) x, t2_map (fun _ => 0%Q) x) (stages2 f) in
  match t2_op (lowpass (tau_rise f)) s1 x with
  | Raised e => (Raised e, f)
  | Returned s1' =>
      match t2_op (lowpass (tau_fall f)) s2 s1' with
      | Raised e => (Raised e, f)
      | Returned s2' =>
          (Returned s2',
           {| tau_rise := tau_rise f; tau_fall := tau_fall f;
              stages2 := Some (s1', s2'); stages3 := stages3 f |})
      end
  end.

Definition filter_apply3 (f : TemporalFilterState) (x : Tensor3)
    : Outcome Tensor3 * TemporalFilterState :=
  let '(s1, s2) := default (t3_map (fun _ => 0%Q) x, t3_map (fun _ => 0%Q) x) (stages3 f) in
  match t3_op (lowpass (tau_rise f)) s1 x with
  | Raised e => (Raised e, f)
  | Returned s1' =>
      match t3_op (lowpass (tau_fall f)) s2 s1' with
      | Raised e => (Raised e, f)
      | Returned s2' =>
          (Returned s2',
           {| tau_rise := tau_rise f; tau_fall := tau_fall f;
              stages2 := stages2 f; stages3 := Some (s1', s2') |})
      end
  end.

(** Modelled from the spec: [SpikeMovingAverage] (section 4.2), missing with
    util.py.  Keeps the two most recent spike arrays in [sma_spike_rec]
    (zero arrays to begin with) and the average
    [avg <- avg + (x - avg) / tau_mean]; [apply] returns the average. *)
Record SpikeMovingAverageState : Type := mkSMA {
  sma_spike_rec : list Tensor2;
  sma_avg : Tensor2
}.

Definition sma_init (batch_size data_size : nat) : SpikeMovingAverageState :=
  {| sma_spike_rec := [torch_zeros batch_size data_size; torch_zeros batch_size data_size];
     sma_avg := torch_zeros batch_size data_size |}.

Definition sma_apply (t : SpikeMovingAverageState) (spike : Tensor2)
    : Outcome Tensor2 * SpikeMovingAverageState :=
  let rec := deque_append 2 (sma_spike_rec t) spike in
  match t2_op (lowpass TAU_MEAN) (sma_avg t) spike with
  | Raised e => (Raised e, {| sma_spike_rec := rec; sma_avg := sma_avg t |})
  | Returned avg => (Returned avg, {| sma_spike_rec := rec; sma_avg := avg |})
  end.

(** Modelled from the spec: [VarianceMovingAverage] (section 4.2), missing
    with util.py.  [var <- var + ((x - mean)^2 - var) / tau_var], from a zero
    state that takes its shape from the first input. *)
Definition vma_apply (t : option Tensor2) (spike spike_moving_average : Tensor2)
    : Outcome Tensor2 * option Tensor2 :=
  match t2_op (fun x m => (x - m) * (x - m))%Q spike spike_moving_average with
  | Raised e => (Raised e, t)
  | Returned sq =>
      match t2_op (lowpass TAU_VAR) (default (t2_map (fun _ => 0%Q) sq) t) sq with
      | Raised e => (Raised e, t)
      | Returned var => (Returned var, Some var)
      end
  end.

(** Modelled from the spec: [MovingAverageLIF] (section 4.4), missing with
    util.py.  A leaky integrate-and-fire step with threshold 1 and reset by
    subtraction, [mem' = beta * mem + current - reset], a spike where [mem']
    exceeds the threshold; the neuron feeds every spike it emits to its own
    spike and variance trackers. *)
Record LIFState : Type := mkLIF {
  lif_batch_size : nat;
  lif_layer_size : nat;
  lif_beta : Q;
  lif_sma : SpikeMovingAverageState;
  lif_vma : option Tensor2
}.

Definition heaviside (v : Q) : Q := if Qle_bool v 1 then 0%Q else 1%Q.

Definition lif_call (lif : LIFState) (current mem : Tensor2)
    : Outcome (Tensor2 * Tensor2) * LIFState :=
  match t2_op (fun m c => lif_beta lif * m + c - heaviside m)%Q mem current with
  | Raised e => (Raised e, lif)
  | Returned mem' =>
      let spk := t2_map heaviside mem' in
      let '(mean, sma) := sma_apply (lif_sma lif) spk in
      match mean with
      | Raised e =>
          (Raised e, {| lif_batch_size := lif_batch_size lif;
                        lif_layer_size := lif_layer_size lif;
                        lif_beta := lif_beta lif; lif_sma := sma; lif_vma := lif_vma lif |})
      | Returned mean =>
          let '(var, vma) := vma_apply (lif_vma lif) spk mean in
          let lif' := {| lif_batch_size := lif_batch_size lif;
                         lif_layer_size := lif_layer_size lif;
                         lif_beta := lif_beta lif; lif_sma := sma; lif_vma := vma |} in
          match var with
          | Raised e => (Raised e, lif')
          | Returned _ => (Returned (spk, mem'), lif')
          end
      end
  end.

#[global] Instance reference_util : Util := {
  MovingAverageLIF := LIFState;
  SpikeMovingAverage := SpikeMovingAverageState;
  VarianceMovingAverage := option Tensor2;
  TemporalFilter := TemporalFilterState;
  MovingAverageLIF__init__ batch_size layer_size beta _ :=
    {| lif_batch_size := batch_size; lif_layer_size := layer_size; lif_beta := beta;
       lif_sma := sma_init batch_size layer_size; lif_vma := None |};
  init_leaky lif := torch_zeros (lif_batch_size lif) (lif_layer_size lif);
  MovingAverageLIF__call__ := lif_call;
  spike_moving_average := lif_sma;
  lif_variance_moving_average := lif_vma;
  SpikeMovingAverage__init__ := sma_init;
  SpikeMovingAverage_apply := sma_apply;
  spike_rec := sma_spike_rec;
  SpikeMovingAverage_tracked_value := sma_avg;
  VarianceMovingAverage__init__ := None;
  VarianceMovingAverage_apply := vma_apply;
  VarianceMovingAverage_tracked_value t := default [] t;
  TemporalFilter__init__ tau_rise tau_fall :=
    {| tau_rise := tau_rise; tau_fall := tau_fall; stages2 := None; stages3 := None |};
  TemporalFilter_apply2 := filter_apply2;
  TemporalFilter_apply3 := filter_apply3
}.

(** The run of model.py's [__main__]: one layer of one neuron on
    two-dimensional data, batch size 1, learning rate 0.01; initial weights
    [1/2] and [1/4], bias [0]. *)
Definition main_settings : Settings :=
  {| s_layer_sizes := [1%nat]; s_beta := BETA; s_learn_beta := false; s_num_steps := 25;
     s_data_size := 2; s_batch_size := 1; s_learning_rate := 1 # 100; s_epochs := 10 |}.

Definition main_rng (k : nat) : Q :=
  match k with
  | O => 1 # 2
  | S O => 1 # 4
  | _ => 0
  end.

Definition main_net : Store := Net__init__ main_settings main_rng.

(** The same with a second layer of one neuron. *)
Definition two_layer_settings : Settings :=
  {| s_layer_sizes := [1%nat; 1%nat]; s_beta := BETA; s_learn_beta := false;
     s_num_steps := 25; s_data_size := 2; s_batch_size := 1;
     s_learning_rate := 1 # 100; s_epochs := 10 |}.

Definition two_layer_net : Store := Net__init__ two_layer_settings main_rng.

(** The first input of the runs below: one sample, the first of the two
    input units active. *)
Definition main_input : option Tensor2 := Some [[1%Q; 0%Q]].

(** An input strong enough to make the neuron of [main_net] spike. *)
Definition spiking_input : option Tensor2 := Some [[3%Q; 0%Q]].

(** The same network on batches of two samples, and a batch whose first
    sample makes the neuron spike and whose second does not. *)
Definition batch_settings : Settings :=
  {| s_layer_sizes := [1%nat]; s_beta := BETA; s_learn_beta := false; s_num_steps := 25;
     s_data_size := 2; s_batch_size := 2; s_learning_rate := 1 # 100; s_epochs := 10 |}.

Definition batch_net : Store := Net__init__ batch_settings main_rng.

Definition batch_input : option Tensor2 := Some [[3%Q; 0%Q]; [0%Q; 1%Q]].

End UtilModel.

(** * Vocabulary of the statements *)

(** A relation between the world before and the world after that every
    step of a computation respects. *)
Definition respects {W A} (R : W -> W -> Prop) (m : Eff W A) : Prop :=
  forall w, R w (snd (m w)).

Section Vocabulary.
Import ModelPy.
Context `{U : Util}.

(** [s'] has the layers of [s], each related to its predecessor by [T]. *)
Definition storewise (T : nat -> Layer -> Layer -> Prop) (s s' : Store) : Prop :=
  length s' = length s /\
  forall j l l', s !! j = Some l -> s' !! j = Some l' -> T j l l'.

(** Only layer [i] may change. *)
Definition only (i j : nat) (l l' : Layer) : Prop := j <> i -> l' = l.

(** What [forward] on layer [self] may change of layer [j]: nothing if [j]
    is another layer, and of [self] only [forward_lif], [mem], [mem_rec]. *)
Definition forward_frame (self j : nat) (l l' : Layer) : Prop :=
  layer_settings l' = layer_settings l
  /\ forward_weights l' = forward_weights l
  /\ prev_layer l' = prev_layer l
  /\ next_layer l' = next_layer l
  /\ alpha_filter_first_term l' = alpha_filter_first_term l
  /\ epsilon_filter_second_term l' = epsilon_filter_second_term l
  /\ alpha_filter_second_term l' = alpha_filter_second_term l
  /\ data_spike_moving_average l' = data_spike_moving_average l
  /\ variance_moving_average l' = variance_moving_average l
  /\ (j <> self -> l' = l).

(** The membrane history stays within its bound, and stays full once it is
    full. *)
Definition history_kept (j : nat) (l l' : Layer) : Prop :=
  (length (mem_rec l) <= MAX_RETAINED_MEMS -> length (mem_rec l') <= MAX_RETAINED_MEMS)
  /\ (length (mem_rec l) = MAX_RETAINED_MEMS -> length (mem_rec l') = MAX_RETAINED_MEMS).

(** A membrane history as the constructor leaves it: two zero tensors of
    shape batch_size x size. *)
Definition fresh_history (l : Layer) : Prop :=
  mem_rec l = [torch_zeros (batch_size (layer_settings l)) (size (layer_settings l));
               torch_zeros (batch_size (layer_settings l)) (size (layer_settings l))].

(** The weights (matrix and bias) of a layer are what they were. *)
Definition weights_kept (j : nat) (l l' : Layer) : Prop :=
  forward_weights l' = forward_weights l.

(** The neuron of a layer, its membrane potential and its membrane history
    are what they were. *)
Definition neuron_kept (j : nat) (l l' : Layer) : Prop :=
  forward_lif l' = forward_lif l /\ mem l' = mem l /\ mem_rec l' = mem_rec l.

(** Where the four presynaptic quantities come from. *)
Definition presynaptic_source (s : Store) (me : Layer) (a b m v : Tensor2) : Prop :=
  match prev_layer me with
  | None =>
      neg_index (spike_rec (data_spike_moving_average me)) 1 = Returned a
      /\ neg_index (spike_rec (data_spike_moving_average me)) 2 = Returned b
      /\ m = SpikeMovingAverage_tracked_value (data_spike_moving_average me)
      /\ v = VarianceMovingAverage_tracked_value (variance_moving_average me)
  | Some p =>
      exists pl,
        s !! p = Some pl
        /\ neg_index (spike_rec (spike_moving_average (forward_lif pl))) 1 = Returned a
        /\ neg_index (spike_rec (spike_moving_average (forward_lif pl))) 2 = Returned b
        /\ m = SpikeMovingAverage_tracked_value (spike_moving_average (forward_lif pl))
        /\ v = VarianceMovingAverage_tracked_value
                 (lif_variance_moving_average (forward_lif pl))
  end.

(** The contract of the missing [MovingAverageLIF] under which the spike the
    plasticity rule reads back from the neuron's tracker is the spike the
    neuron has just returned: a call records the spike it emits as the newest
    entry of [spike_moving_average.spike_rec]. *)
Definition lif_records_spike : Prop :=
  forall lif current mem0 spk mem' lif',
    MovingAverageLIF__call__ lif current mem0 = (Returned (spk, mem'), lif') ->
    neg_index (spike_rec (spike_moving_average lif')) 1 = Returned spk.

(** The update of a returning [train_forward], stage by stage. *)
Definition update_stages self (s1 sb sc sd s' : Store) (t1 t2 t3 : Tensor3) : Prop :=
  first_term self s1 = (Returned t1, sb)
  /\ second_term self sb = (Returned t2, sc)
  /\ third_term self sc = (Returned t3, sd)
  /\ update_weights self t1 t2 t3 sd = (Returned tt, s').

(** What the wiring loop does to layer [i] of [n]. *)
Definition wire (n i : nat) (l : Layer) : Layer :=
  let l1 := if Nat.ltb 0 i then with_prev_layer (Some (i - 1)) l else l in
  if Nat.ltb i (n - 1) then with_next_layer (Some (i + 1)) l1 else l1.

(** The body of the wiring loop of [connect_layers], for layer [i] of [n]. *)
Definition connect_body (n i : nat) : Eff Store unit :=
  _ ← (if Nat.ltb 0 i then set_prev_layer i (i - 1) else mret tt);
  if Nat.ltb i (n - 1) then set_next_layer i (i + 1) else mret tt.

End Vocabulary.

(** * Vocabulary of further statements *)

Section VocabularyModel.
Import ModelPy.
Context `{U : Util}.

(** What no training step changes of a layer: its settings, its wiring and
    the bias of its weights; and of a layer other than [self], anything. *)
Definition training_frame (self j : nat) (l l' : Layer) : Prop :=
  layer_settings l' = layer_settings l
  /\ prev_layer l' = prev_layer l
  /\ next_layer l' = next_layer l
  /\ bias (forward_weights l') = bias (forward_weights l)
  /\ (j <> self -> l' = l).

(** The settings, the wiring and the bias of a layer are what they were. *)
Definition wiring_kept (j : nat) (l l' : Layer) : Prop :=
  layer_settings l' = layer_settings l
  /\ prev_layer l' = prev_layer l
  /\ next_layer l' = next_layer l
  /\ bias (forward_weights l') = bias (forward_weights l).

(** The weight matrix has the rows it had, each of the length it had. *)
Definition shape_kept (j : nat) (l l' : Layer) : Prop :=
  map length (weight (forward_weights l')) = map length (weight (forward_weights l)).

(** The inputs of the timesteps of model.py's [process_data_online], in the
    order the three nested loops visit them: epoch by epoch, mini-batch by
    mini-batch, timestep by timestep. *)
Definition timestep_schedule (settings : Settings)
    (spikegen_rate : nat -> nat -> Tensor3 -> Tensor3) (train_loader : list Tensor3)
    : list Tensor2 :=
  flat_map (fun epoch =>
              flat_map (fun '(i, batch) => spikegen_rate epoch i (permute_1_0_2 batch))
                       (imap (fun i batch => (i, batch)) train_loader))
           (seq 0 (s_epochs settings)).

End VocabularyModel.

Section VocabularyNetwork.
Import SettingsPy NetworkPy.

(** What one timestep of network.py does with layer [i]: the body of the
    loop over the layers. *)
Definition layer_step {W Spk} `{LayerAPI W Spk} (data : Tensor2) (i : nat) : Eff W unit :=
  spk ← (if Nat.eqb i 0 then forward i (Some data) else forward i None);
  train_synapses i spk data.

(** A recording layer whose [forward] raises on layer [k], after the call
    has been logged. *)
Definition failing_recorder (k : nat) : LayerAPI (list Call) nat := {|
  forward i data := fun log =>
    (if Nat.eqb i k then Raised RuntimeError else Returned (length log),
     log ++ [CallForward i data]);
  train_synapses i spk data := fun log => (Returned tt, log ++ [CallTrainSynapses i spk data])
|}.

(** Every entry is 0 or 1. *)
Definition binary (t : Tensor3) : Prop :=
  Forall (Forall (Forall (fun v => v = 0%Q \/ v = 1%Q))) t.

End VocabularyNetwork.

(** A tensor of [rows] rows of [cols] entries, every entry zero. *)
Definition zeros_of_shape (rows cols : nat) (t : Tensor2) : Prop :=
  length t = rows
  /\ forall r, r < rows ->
       length (nth r t []) = cols
       /\ forall c, c < cols -> entry2 t r c = 0%Q.

Section VocabularyDatasets.
Import ImageDatasetPy ZenkePy.

(** A generator for [random.randint] that walks through the range. *)
Definition cycling_random : PyRandom :=
  {| randint := fun k a b => (a + Z.of_nat k mod (b - a + 1))%Z |}.

(** A generator for numpy's draws that walks through the ranges. *)
Definition cycling_numpy : NumpyRandom :=
  {| np_randint := fun k low high => (low + Z.of_nat k mod (high - low))%Z;
     np_rand := fun k => (1 # Pos.of_nat (Datatypes.S k))%Q;
     np_normal := fun k loc scale =>
       (loc + scale * inject_Z (Z.of_nat k mod 3 - 1))%Q;
     np_random := fun k => (Z.of_nat k mod 7 # 7)%Q |}.

(** The [sample] column of a frame of [samples] samples numbered from 0
    with [datapoints] consecutive rows each. *)
Definition sample_blocks (samples datapoints : nat) : list Z :=
  flat_map (fun k => repeat k datapoints) (map Z.of_nat (seq 0 samples)).

(** The rows of sample [k] in a frame, in their order. *)
Definition rows_of (df : DataFrame) (k : Z) : DataFrame :=
  filter (fun r => sample r = k) df.

End VocabularyDatasets.

(** * Theorems *)

(** ** The code on small inputs *)

Section Examples.
Import ModelPy UtilModel.

Example deque_append_fills :
  deque_append MAX_RETAINED_MEMS [1%nat] 2%nat = [1%nat; 2%nat].
Proof. reflexivity. Qed.

Example deque_append_evicts :
  deque_append MAX_RETAINED_MEMS [1%nat; 2%nat] 3%nat = [2%nat; 3%nat].
Proof. reflexivity. Qed.

Example neg_index_last : neg_index [1%nat; 2%nat; 3%nat] 1 = Returned 3%nat.
Proof. reflexivity. Qed.

Example neg_index_out_of_range : neg_index [1%nat] 2 = Raised IndexError.
Proof. reflexivity. Qed.

Example permute_swaps_batch_and_time :
  permute_1_0_2 [[[1%Q]; [2%Q]; [3%Q]]; [[4%Q]; [5%Q]; [6%Q]]]
  = [[[1%Q]; [4%Q]]; [[2%Q]; [5%Q]]; [[3%Q]; [6%Q]]].
Proof. reflexivity. Qed.

Example threshold_at_one_half :
  NetworkPy.threshold_half [[[1 # 2; 51 # 100; 0%Q; 1%Q]]] = [[[0%Q; 1%Q; 0%Q; 1%Q]]].
Proof. reflexivity. Qed.

Example shapes_must_agree :
  t2_op Qplus [[1%Q; 2%Q]] [[1%Q]] = Raised RuntimeError.
Proof. reflexivity. Qed.

Example linear_layer_output :
  Linear__call__ {| weight := [[1 # 2; 1 # 4]]; bias := [1%Q] |} [[2%Q; 4%Q]]
  = Returned [[0 + (1 # 2) * 2 + (1 # 4) * 4 + 1]]%Q.
Proof. reflexivity. Qed.

Example batch_mean_of_two :
  batch_mean [[[1%Q; 2%Q]]; [[3%Q; 6%Q]]]
  = Returned [[(1 + 3) / 2; (2 + 6) / 2]]%Q.
Proof. reflexivity. Qed.

Example expand_over_postsynaptic_units :
  unsqueeze1_expand 2 [[1%Q; 2%Q]] = [[[1%Q; 2%Q]; [1%Q; 2%Q]]].
Proof. reflexivity. Qed.

Example expand_over_presynaptic_units :
  unsqueeze2_expand 2 [[1%Q; 2%Q]] = [[[1%Q; 1%Q]; [2%Q; 2%Q]]].
Proof. reflexivity. Qed.

(** The network of [__main__] as constructed, and wired with a second
    layer. *)
Example main_net_weights :
  map forward_weights main_net = [{| weight := [[1 # 2; 1 # 4]]; bias := [0%Q] |}].
Proof. reflexivity. Qed.

Example two_layer_net_wiring :
  map prev_layer two_layer_net = [None; Some 0]
  /\ map next_layer two_layer_net = [Some 1; None].
Proof. split; reflexivity. Qed.

(** A training step of the first layer returns; the membrane integrates the
    input current [1/2 * 1 + 1/4 * 0 + 0]. *)
Example main_net_first_step :
  fst (train_forward 0 main_input main_net) = Returned tt
  /\ map mem_rec (snd (train_forward 0 main_input main_net))
     = [[[[0%Q]]; [[0 + (1 # 2) * 1 + (1 # 4) * 0 + 0]]]]%Q.
Proof. split; vm_compute; reflexivity. Qed.

(** A layer with a predecessor is called without data; line 120 then reads
    the attribute [spk_rec], which [Layer] does not have. *)
Example hidden_layer_forward_raises :
  fst (forward 1 None two_layer_net) = Raised AttributeError
  /\ fst (train_timestep [[1%Q; 0%Q]] two_layer_net) = Raised AttributeError.
Proof. split; vm_compute; reflexivity. Qed.

Example first_layer_needs_data :
  fst (forward 0 None main_net) = Raised AssertionError.
Proof. reflexivity. Qed.

End Examples.

(** ** The effect monad *)

Section EffFacts.
Context {W : Type}.

Lemma eff_bind_unfold {A B} (m : Eff W A) (f : A -> Eff W B) (w : W) :
  (m ≫= f) w = match m w with
               | (Returned a, w') => f a w'
               | (Raised e, w') => (Raised e, w')
               end.
Proof. reflexivity. Qed.

Lemma eff_bind_returned {A B} (m : Eff W A) (f : A -> Eff W B) w b w' :
  (m ≫= f) w = (Returned b, w') ->
  exists a w1, m w = (Returned a, w1) /\ f a w1 = (Returned b, w').
Proof.
  rewrite eff_bind_unfold. destruct (m w) as [[a|e] w1]; intros E.
  - exists a, w1. split; [reflexivity | exact E].
  - discriminate E.
Qed.

Lemma eff_bind_raised_l {A B} (m : Eff W A) (f : A -> Eff W B) w e w' :
  m w = (Raised e, w') -> (m ≫= f) w = (Raised e, w').
Proof. intros E. rewrite eff_bind_unfold, E. reflexivity. Qed.

Lemma eff_bind_step {A B} (m : Eff W A) (f : A -> Eff W B) w a w1 :
  m w = (Returned a, w1) -> (m ≫= f) w = f a w1.
Proof. intros E. rewrite eff_bind_unfold, E. reflexivity. Qed.

Lemma eff_bind_raised {A B} (m : Eff W A) (f : A -> Eff W B) w e w' :
  (m ≫= f) w = (Raised e, w') ->
  m w = (Raised e, w') \/ exists a w1, m w = (Returned a, w1) /\ f a w1 = (Raised e, w').
Proof.
  rewrite eff_bind_unfold. destruct (m w) as [[a|e1] w1]; intros E.
  - right. exists a, w1. split; [reflexivity | exact E].
  - left. injection E as -> ->. reflexivity.
Qed.

Section Respects.
Context (R : W -> W -> Prop) `{!PreOrder R}.

Lemma respects_ret {A} (a : A) : respects R (mret a).
Proof. intros w. simpl. reflexivity. Qed.

Lemma respects_lift {A} (o : Outcome A) : respects R (lift o).
Proof. intros w. simpl. reflexivity. Qed.

Lemma respects_bind {A B} (m : Eff W A) (f : A -> Eff W B) :
  respects R m -> (forall a, respects R (f a)) -> respects R (m ≫= f).
Proof.
  intros Hm Hf w. rewrite eff_bind_unfold.
  specialize (Hm w). destruct (m w) as [[a|e] w1]; simpl in *.
  - etransitivity; [exact Hm | apply Hf].
  - exact Hm.
Qed.

Lemma respects_for_each {A} (xs : list A) (body : A -> Eff W unit) :
  (forall x, respects R (body x)) -> respects R (for_each xs body).
Proof.
  intros Hb. induction xs as [|x xs IH]; simpl.
  - apply respects_ret.
  - apply respects_bind; [apply Hb | intros _; exact IH].
Qed.

End Respects.
End EffFacts.

(** ** settings.py *)

Section SettingsFacts.
Import SettingsPy.

(** C4 (counterexample).  A configuration with [percentage_inhibitory = 150]
    and [learning_rate = -1] is invalid on both counts, yet [Settings] and
    [LayerSettings] are constructed and hold the two values. *)
Lemma settings_accept_invalid_values :
  ~ valid_percentage 150 /\ ~ valid_learning_rate (-1) /\
  (exists s, Settings__init__ [2%Z] 2 5 (-1) 10 true 1 150 1 1 (1 # 2) cpu = Returned s
             /\ percentage_inhibitory s = 150%Q /\ learning_rate s = (-1)%Q) /\
  (exists l, LayerSettings__init__ 0 2 2 0 5 (-1) 2 1 150 1 1 (1 # 2) cpu = Returned l
             /\ l_percentage_inhibitory l = 150%Q /\ l_learning_rate l = (-1)%Q).
Proof.
  split; [|split; [|split]].
  - intros [_ H]. revert H. unfold Qle. simpl. lia.
  - unfold valid_learning_rate, Qlt. simpl. lia.
  - eexists. split; [reflexivity|]. split; reflexivity.
  - eexists. split; [reflexivity|]. split; reflexivity.
Qed.

(** C4 (amended).  [Settings.__init__] and [LayerSettings.__init__] validate
    nothing: for all arguments, whatever the percentage of inhibitory units
    and the learning rate, construction returns, and every attribute holds
    the argument of the same name unchanged. *)
Theorem settings_constructors_validate_nothing :
  (forall layer_sizes data_size batch_size learning_rate epochs encode_spike_trains
          dt percentage_inhibitory c sigma_squared layer_sparsity device,
     exists s,
       Settings__init__ layer_sizes data_size batch_size learning_rate epochs
         encode_spike_trains dt percentage_inhibitory c sigma_squared layer_sparsity device
       = Returned s
       /\ SettingsPy.layer_sizes s = layer_sizes
       /\ SettingsPy.data_size s = data_size
       /\ SettingsPy.batch_size s = batch_size
       /\ SettingsPy.learning_rate s = learning_rate
       /\ SettingsPy.epochs s = epochs
       /\ SettingsPy.encode_spike_trains s = encode_spike_trains
       /\ SettingsPy.dt s = dt
       /\ SettingsPy.percentage_inhibitory s = percentage_inhibitory
       /\ exc_to_inhib_conn_c s = c
       /\ exc_to_inhib_conn_sigma_squared s = sigma_squared
       /\ SettingsPy.layer_sparsity s = layer_sparsity
       /\ SettingsPy.device s = device) /\
  (forall layer_id prev_size size next_size batch_size learning_rate data_size
          dt percentage_inhibitory c sigma_squared layer_sparsity device,
     exists l,
       LayerSettings__init__ layer_id prev_size size next_size batch_size learning_rate
         data_size dt percentage_inhibitory c sigma_squared layer_sparsity device
       = Returned l
       /\ l_layer_id l = layer_id
       /\ l_prev_size l = prev_size
       /\ l_size l = size
       /\ l_next_size l = next_size
       /\ l_batch_size l = batch_size
       /\ l_learning_rate l = learning_rate
       /\ l_data_size l = data_size
       /\ l_dt l = dt
       /\ l_percentage_inhibitory l = percentage_inhibitory
       /\ l_exc_to_inhib_conn_c l = c
       /\ l_exc_to_inhib_conn_sigma_squared l = sigma_squared
       /\ l_layer_sparsity l = layer_sparsity
       /\ l_device l = device).
Proof.
  split; intros; eexists; (split; [reflexivity|]); cbn; repeat split.
Qed.

End SettingsFacts.

(** ** network.py *)

Section NetworkFacts.
Import SettingsPy NetworkPy.

Lemma map_nth_seq_all {A} (xs : list A) (d : A) :
  map (fun t => nth t xs d) (seq 0 (length xs)) = xs.
Proof.
  induction xs as [|x xs IH]; simpl; [reflexivity|].
  f_equal. rewrite <- seq_shift, map_map. exact IH.
Qed.

Lemma interleaved_calls_length p n data : length (interleaved_calls p n data) = 2 * n.
Proof.
  unfold interleaved_calls. generalize 0 at 1. induction n as [|n IH]; intros k; simpl.
  - reflexivity.
  - rewrite IH. lia.
Qed.

(** The loop over layers, run against the recording layer from layer [k]
    on, in a timestep whose first call sits at log position [p]. *)
Lemma recorded_layer_loop (data : Tensor2) (p : nat) :
  forall n k (log : list Call),
    length log = p + 2 * k ->
    for_each (seq k n) (fun i =>
      spk ← (if Nat.eqb i 0 then forward i (Some data) else forward i None);
      train_synapses i spk data) log
    = (Returned tt, log ++ flat_map (layer_calls p data) (seq k n)).
Proof.
  induction n as [|n IH]; intros k log Hlen; cbn [seq for_each flat_map].
  - rewrite app_nil_r. reflexivity.
  - rewrite eff_bind_unfold.
    assert (Hstep :
      (spk ← (if Nat.eqb k 0 then forward k (Some data) else forward k None);
       train_synapses k spk data) log
      = (Returned tt, log ++ layer_calls p data k)).
    { unfold layer_calls. rewrite eff_bind_unfold.
      destruct (Nat.eqb k 0); simpl; rewrite Hlen, <- app_assoc; reflexivity. }
    rewrite Hstep. rewrite IH.
    + rewrite <- app_assoc. reflexivity.
    + rewrite length_app. unfold layer_calls. simpl. lia.
Qed.

Lemma recorded_timestep (n : nat) (data : Tensor2) (log : list Call) :
  for_each (seq 0 n) (fun i =>
    spk ← (if Nat.eqb i 0 then forward i (Some data) else forward i None);
    train_synapses i spk data) log
  = (Returned tt, log ++ interleaved_calls (length log) n data).
Proof. apply recorded_layer_loop. lia. Qed.

Lemma recorded_timesteps (n : nat) (input : nat -> Tensor2) :
  forall m k (log : list Call),
    for_each (seq k m) (fun timestep =>
      for_each (seq 0 n) (fun i =>
        spk ← (if Nat.eqb i 0 then forward i (Some (input timestep)) else forward i None);
        train_synapses i spk (input timestep))) log
    = (Returned tt, log ++ timesteps_calls (length log) n (map input (seq k m))).
Proof.
  induction m as [|m IH]; intros k log; cbn [seq for_each map timesteps_calls].
  - rewrite app_nil_r. reflexivity.
  - rewrite eff_bind_unfold, recorded_timestep, IH.
    rewrite length_app, interleaved_calls_length, <- app_assoc. reflexivity.
Qed.

Lemma recorded_batch_body (self : Net) (batch : Tensor3) (log : list Call) :
  online_batch_body self batch log
  = (Returned Return,
     log ++ timesteps_calls (length log) (num_layers self) (prepared self batch)).
Proof.
  unfold online_batch_body, prepared, to_device.
  set (b := if encode_spike_trains (settings self) then _ else _).
  rewrite eff_bind_unfold.
  rewrite (recorded_timesteps (num_layers self) (fun t => nth t b [])).
  rewrite map_nth_seq_all. reflexivity.
Qed.

(** With at least one epoch and a non-empty loader, [process_data_online]
    runs the timesteps of the first mini-batch and returns. *)
Lemma online_first_batch_only (self : Net) (batch : Tensor3) (rest : list Tensor3)
    (log : list Call) :
  (0 < epochs (settings self))%Z ->
  process_data_online self (batch :: rest) log
  = (Returned tt,
     log ++ timesteps_calls (length log) (num_layers self) (prepared self batch)).
Proof.
  intros He. unfold process_data_online.
  destruct (Z.to_nat (epochs (settings self))) as [|e] eqn:E; [lia|].
  rewrite eff_bind_unfold. simpl seq. simpl for_each_flow.
  rewrite eff_bind_unfold. rewrite eff_bind_unfold.
  rewrite recorded_batch_body. reflexivity.
Qed.

(** C2 (counterexample).  On a network of two layers the log of one
    single-timestep step is forward 0, train 0, forward 1, train 1: layer
    0 is trained before layer 1 has run forward, so the step is not "all
    forward passes, then all updates". *)
Lemma single_timestep_trains_before_next_forward :
  let self := {| settings := mkSettings [2%Z; 2%Z] 1 1 (1 # 100) 1 false 1 20 1 1 (1 # 2) cpu;
                 num_layers := 2 |} in
  let data : Tensor2 := [[1%Q]] in
  calls_of (process_data_single_timestep self data)
  = [CallForward 0 (Some data); CallTrainSynapses 0 0 data;
     CallForward 1 None; CallTrainSynapses 1 2 data]
  /\ calls_of (process_data_single_timestep self data) <> phased_calls 0 2 data.
Proof. split; [reflexivity | discriminate]. Qed.

(** C2 (amended).  For every number of layers, a single-timestep step
    visits the layers in index order and, for each layer in turn, runs
    forward (layer 0 on the external input, layer k>0 without argument) and
    immediately afterwards that layer's plasticity update, on the spike this
    very forward call returned and on the external input; the loop body of
    [process_data_online] does the same at every timestep of a mini-batch. *)
Theorem timestep_interleaves_forward_and_update (self : Net) (log : list Call) :
  (forall data,
     process_data_single_timestep self data log
     = (Returned tt, log ++ interleaved_calls (length log) (num_layers self) data)) /\
  (forall batch,
     online_batch_body self batch log
     = (Returned Return,
        log ++ timesteps_calls (length log) (num_layers self) (prepared self batch))).
Proof.
  split.
  - intros data. unfold process_data_single_timestep, to_device. apply recorded_timestep.
  - intros batch. apply recorded_batch_body.
Qed.

(** C3 (the code at the failing input).  Two epochs over a loader of two
    mini-batches of one timestep each, on one layer: the full schedule has
    four timesteps, the run executes the first one and returns. *)
Theorem online_returns_after_first_batch :
  let self := {| settings := mkSettings [1%Z] 1 1 (1 # 100) 2 false 1 20 1 1 (1 # 2) cpu;
                 num_layers := 1 |} in
  let train_loader : list Tensor3 := [[[[1%Q]]]; [[[0%Q]]]] in
  full_schedule self train_loader = [[[1%Q]]; [[0%Q]]; [[1%Q]]; [[0%Q]]]
  /\ calls_of (process_data_online self train_loader)
     = timesteps_calls 0 1 [[[1%Q]]]
  /\ calls_of (process_data_online self train_loader)
     <> timesteps_calls 0 1 (full_schedule self train_loader).
Proof.
  intros self train_loader. split; [reflexivity|]. split.
  - unfold calls_of, train_loader. rewrite online_first_batch_only; [reflexivity|].
    simpl. lia.
  - unfold calls_of, train_loader. rewrite online_first_batch_only; [|simpl; lia].
    discriminate.
Qed.

Lemma gt_half_spec (v : Q) :
  ((1 # 2 < v)%Q -> gt_half v = 1%Q) /\ ((v <= 1 # 2)%Q -> gt_half v = 0%Q).
Proof.
  unfold gt_half. destruct (Qle_bool v (1 # 2)) eqn:E.
  - apply Qle_bool_iff in E. split; [|reflexivity].
    intros H. exfalso. apply (Qlt_not_le _ _ H E).
  - split; [reflexivity|]. intros H. apply Qle_bool_iff in H. congruence.
Qed.

(** C5 (counterexample).  With [encode_spike_trains] set, an input of 0.3
    reaches the layers as 0.0: the network thresholds the batch itself. *)
Lemma online_thresholds_its_input :
  let self := {| settings := mkSettings [1%Z] 1 1 (1 # 100) 1 true 1 20 1 1 (1 # 2) cpu;
                 num_layers := 1 |} in
  let batch : Tensor3 := [[[3 # 10]]] in
  nth 0 (permute_1_0_2 batch) [] = [[3 # 10]]
  /\ calls_of (process_data_online self [batch])
     = [CallForward 0 (Some [[0%Q]]); CallTrainSynapses 0 0 [[0%Q]]]
  /\ [[0%Q]] <> nth 0 (permute_1_0_2 batch) [].
Proof. split; [reflexivity|]. split; [reflexivity | discriminate]. Qed.

(** C5 (amended).  [process_data_online] hands the layers, timestep by
    timestep, the caller's mini-batch with its first two axes exchanged:
    unchanged when [settings.encode_spike_trains] is off, and with every
    entry replaced by 1.0 where it exceeds 0.5 and by 0.0 elsewhere when it
    is on; that thresholding is done by the network itself.
    [process_data_single_timestep] always hands on its input unchanged. *)
Theorem online_thresholds_exactly_when_flag_set (self : Net) (batch : Tensor3)
    (rest : list Tensor3) (log : list Call) :
  (0 < epochs (settings self))%Z ->
  process_data_online self (batch :: rest) log
  = (Returned tt,
     log ++ timesteps_calls (length log) (num_layers self)
              (if encode_spike_trains (settings self)
               then map (map (map gt_half)) (permute_1_0_2 batch)
               else permute_1_0_2 batch))
  /\ (forall v, ((1 # 2 < v)%Q -> gt_half v = 1%Q) /\ ((v <= 1 # 2)%Q -> gt_half v = 0%Q))
  /\ (forall data,
        process_data_single_timestep self data log
        = (Returned tt, log ++ interleaved_calls (length log) (num_layers self) data)).
Proof.
  intros He. split; [|split].
  - rewrite online_first_batch_only by exact He. reflexivity.
  - apply gt_half_spec.
  - intros data. unfold process_data_single_timestep, to_device. apply recorded_timestep.
Qed.

Lemma online_thresholds_exactly_when_flag_set_witness :
  let self := {| settings := mkSettings [1%Z] 1 2 (1 # 100) 1 true 1 20 1 1 (1 # 2) cpu;
                 num_layers := 1 |} in
  let batch : Tensor3 := [[[3 # 10]; [7 # 10]]; [[1 # 2]; [1%Q]]] in
  process_data_online self [batch] []
  = (Returned tt,
     [CallForward 0 (Some [[0%Q]; [0%Q]]); CallTrainSynapses 0 0 [[0%Q]; [0%Q]];
      CallForward 0 (Some [[1%Q]; [1%Q]]); CallTrainSynapses 0 2 [[1%Q]; [1%Q]]]).
Proof.
  intros self batch.
  exact (proj1 (online_thresholds_exactly_when_flag_set self batch [] []
                  ltac:(simpl; lia))).
Defined.

End NetworkFacts.

(** ** model.py: the store of layers *)

Import ModelPy.

Section StoreFacts.
Context `{U : Util}.

#[global] Instance storewise_preorder (T : nat -> Layer -> Layer -> Prop) :
  (forall j, PreOrder (T j)) -> PreOrder (storewise T).
Proof.
  intros HT. split.
  - intros s. split; [reflexivity|]. intros j l l' E1 E2.
    rewrite E1 in E2. injection E2 as ->. reflexivity.
  - intros s1 s2 s3 [L12 H12] [L23 H23]. split; [congruence|].
    intros j l l'' E1 E3.
    destruct (lookup_lt_is_Some_2 s2 j) as [l' E2].
    { rewrite L12. eapply lookup_lt_Some, E1. }
    etransitivity; [eapply H12 | eapply H23]; eassumption.
Qed.

Lemma read_spec {A} (self : nat) (g : Layer -> A) (s : Store) :
  read self g s = match s !! self with
                  | Some me => (Returned (g me), s)
                  | None => (Raised DanglingReference, s)
                  end.
Proof. reflexivity. Qed.

Lemma read_returned {A} (self : nat) (g : Layer -> A) (s s' : Store) (a : A) :
  read self g s = (Returned a, s') ->
  s' = s /\ exists me, s !! self = Some me /\ a = g me.
Proof.
  rewrite read_spec. destruct (s !! self) as [me|]; intros E; [|discriminate].
  injection E as <- <-. eauto.
Qed.

Lemma on_field_returned {X A} self (g : Layer -> X) set (method : X -> Outcome A * X)
    (s s' : Store) (a : A) :
  on_field self g set method s = (Returned a, s') ->
  exists me x', s !! self = Some me /\ method (g me) = (Returned a, x')
                /\ s' = <[self := set x' me]> s.
Proof.
  unfold on_field. destruct (s !! self) as [me|]; [|discriminate].
  destruct (method (g me)) as [r x'] eqn:E. intros E'. injection E' as -> <-.
  exists me, x'. auto.
Qed.

Section Storewise.
Context (T : nat -> Layer -> Layer -> Prop) `{HT : forall j, PreOrder (T j)}.

Lemma respects_read {A} (self : nat) (g : Layer -> A) :
  respects (storewise T) (read self g).
Proof.
  intros s. rewrite read_spec. destruct (s !! self); simpl; reflexivity.
Qed.

Lemma respects_on_field {X A} self (g : Layer -> X) set (method : X -> Outcome A * X) :
  (forall me r x', method (g me) = (r, x') -> T self me (set x' me)) ->
  respects (storewise T) (on_field self g set method).
Proof.
  intros Hset s. unfold on_field. destruct (s !! self) as [me|] eqn:E; simpl; [|reflexivity].
  destruct (method (g me)) as [r x'] eqn:Em. simpl. split.
  - apply length_insert.
  - intros j l l' E1 E2. destruct (decide (j = self)) as [->|Hne].
    + rewrite list_lookup_insert_eq in E2 by (eapply lookup_lt_Some, E).
      injection E2 as <-.
      assert (l = me) as -> by congruence. eapply Hset, Em.
    + rewrite list_lookup_insert_ne in E2 by congruence.
      assert (l' = l) as -> by congruence. reflexivity.
Qed.

End Storewise.

Lemma storewise_Forall (T : nat -> Layer -> Layer -> Prop) (P : Layer -> Prop) s s' :
  storewise T s s' -> (forall j l l', T j l l' -> P l -> P l') ->
  Forall P s -> Forall P s'.
Proof.
  intros [L H] HP Hs. apply Forall_lookup. intros j l' E'.
  destruct (lookup_lt_is_Some_2 s j) as [l E].
  { rewrite <- L. eapply lookup_lt_Some, E'. }
  eapply HP; [eapply H; eassumption|].
  eapply Forall_lookup_1; eassumption.
Qed.

End StoreFacts.

(** Walks a computation built from [read], [on_field], [lift], binds and
    case distinctions, leaving one goal per mutated attribute. *)
Ltac respects_walk :=
  repeat match goal with
  | |- PreOrder _ => solve [typeclasses eauto]
  | |- respects _ (mret _) => apply respects_ret
  | |- respects _ (lift _) => apply respects_lift
  | |- respects _ (read _ _) => apply respects_read
  | |- respects _ (on_field _ _ _ _) => apply respects_on_field; intros
  | |- respects _ (_ ≫= _) => apply respects_bind
  | |- respects _ (for_each _ _) => apply respects_for_each
  | |- respects _ (match ?x with _ => _ end) => destruct x
  | |- forall _, _ => intro
  end.

(** ** model.py: Layer.forward *)

Section ForwardFacts.
Context `{U : Util}.

#[global] Instance forward_frame_preorder self j : PreOrder (forward_frame self j).
Proof.
  split.
  - intros l. unfold forward_frame. tauto.
  - intros l1 l2 l3 H12 H23. unfold forward_frame in *.
    destruct H12 as (?&?&?&?&?&?&?&?&?&E12), H23 as (?&?&?&?&?&?&?&?&?&E23).
    repeat split; try congruence.
    intros Hne. rewrite (E23 Hne). exact (E12 Hne).
Qed.

Lemma forward_respects_frame self data :
  respects (storewise (forward_frame self)) (forward self data).
Proof.
  unfold forward. respects_walk;
    unfold forward_frame; cbn; repeat split; intros; congruence.
Qed.

Lemma forward_frame_rebuild self j l l' :
  forward_frame self j l l' ->
  l' = with_mem_rec (mem_rec l') (with_mem (mem l') (with_forward_lif (forward_lif l') l)).
Proof.
  unfold forward_frame, with_mem_rec, with_mem, with_forward_lif. destruct l, l'; cbn.
  intros (?&?&?&?&?&?&?&?&?&_). congruence.
Qed.

End ForwardFacts.

(** ** Deques *)

Section DequeFacts.
Context {A : Type}.

Lemma deque_append_length_le (n : nat) (d : list A) (x : A) :
  length d <= n -> length (deque_append n d x) <= n.
Proof.
  intros H. unfold deque_append.
  destruct (Nat.ltb_spec n (length (d ++ [x]))) as [Hlt|Hge].
  - destruct d as [|a d]; simpl in *; [lia|]. rewrite length_app. simpl. lia.
  - exact Hge.
Qed.

Lemma deque_append_length_full (n : nat) (d : list A) (x : A) :
  length d = n -> length (deque_append n d x) = n.
Proof.
  intros H. unfold deque_append.
  destruct (Nat.ltb_spec n (length (d ++ [x]))) as [Hlt|Hge].
  - destruct d as [|a d]; simpl in *; [lia|]. rewrite length_app. simpl. lia.
  - rewrite length_app in Hge. simpl in Hge. lia.
Qed.

(** With room for two: the newest element is at [-1], and what was at [-1]
    is now at [-2]; a third element evicts the oldest. *)
Lemma deque_append_evicts_oldest (older newer x : A) :
  deque_append MAX_RETAINED_MEMS [older; newer] x = [newer; x].
Proof. reflexivity. Qed.

Lemma deque_append_newest (d : list A) (x : A) :
  length d <= MAX_RETAINED_MEMS ->
  neg_index (deque_append MAX_RETAINED_MEMS d x) 1 = Returned x.
Proof.
  unfold MAX_RETAINED_MEMS.
  destruct d as [|a [|b [|c d]]]; simpl; intros H; try reflexivity. lia.
Qed.

Lemma deque_append_previous (d : list A) (x p : A) :
  length d <= MAX_RETAINED_MEMS ->
  neg_index d 1 = Returned p ->
  neg_index (deque_append MAX_RETAINED_MEMS d x) 2 = Returned p.
Proof.
  unfold MAX_RETAINED_MEMS.
  destruct d as [|a [|b [|c d]]]; simpl; intros H E;
    try discriminate; try exact E. lia.
Qed.

Lemma neg_index_defined (d : list A) (k : nat) :
  1 <= k <= length d -> exists x, neg_index d k = Returned x.
Proof.
  intros [H1 H2]. unfold neg_index.
  destruct (Nat.leb_spec k (length d)); [|lia].
  destruct (Nat.leb_spec 1 k); [|lia]. simpl.
  destruct (lookup_lt_is_Some_2 d (length d - k)) as [x E]; [lia|].
  rewrite E. eauto.
Qed.

End DequeFacts.

(** ** model.py: the membrane history *)

Section HistoryFacts.
Context `{U : Util}.

#[global] Instance history_kept_preorder j : PreOrder (history_kept j).
Proof.
  split.
  - intros l. unfold history_kept. tauto.
  - intros l1 l2 l3. unfold history_kept. tauto.
Qed.

Ltac history_field :=
  unfold history_kept; cbn;
  first [ tauto
        | match goal with
          | H : (_, _) = (_, _) |- _ => injection H as _ <-
          end;
          split; [apply deque_append_length_le | apply deque_append_length_full] ].

Lemma forward_keeps_history self data :
  respects (storewise history_kept) (forward self data).
Proof. unfold forward. respects_walk; history_field. Qed.

Lemma train_forward_keeps_history self data :
  respects (storewise history_kept) (train_forward self data).
Proof.
  unfold train_forward. respects_walk.
  - unfold track_input. respects_walk; history_field.
  - apply forward_keeps_history.
  - unfold first_term. respects_walk; history_field.
  - unfold second_term, presynaptic. respects_walk; history_field.
  - unfold third_term. respects_walk; history_field.
  - unfold update_weights. respects_walk; history_field.
Qed.

Lemma train_timestep_keeps_history data :
  respects (storewise history_kept) (train_timestep data).
Proof.
  intros s. unfold train_timestep.
  apply (respects_for_each (storewise history_kept)).
  intros i. destruct (Nat.eqb i 0); apply train_forward_keeps_history.
Qed.

Lemma process_data_online_keeps_history settings rate train_loader test_loader :
  respects (storewise history_kept)
           (process_data_online settings rate train_loader test_loader).
Proof.
  unfold process_data_online. respects_walk. apply train_timestep_keeps_history.
Qed.

Lemma wiring_keeps_history self other :
  respects (storewise history_kept) (set_prev_layer self other)
  /\ respects (storewise history_kept) (set_next_layer self other).
Proof.
  split; [unfold set_prev_layer | unfold set_next_layer]; respects_walk; history_field.
Qed.

End HistoryFacts.

(** ** model.py: what a returning call of [forward] did *)

Section ForwardReturned.
Context `{U : Util}.

Lemma forward_returned self data s spk m s' :
  forward self data s = (Returned (spk, m), s') ->
  exists me d current lif',
    s !! self = Some me
    /\ data = Some d
    /\ Linear__call__ (forward_weights me) d = Returned current
    /\ MovingAverageLIF__call__ (forward_lif me) current (mem me) = (Returned (spk, m), lif')
    /\ s' = <[self := with_mem_rec (deque_append MAX_RETAINED_MEMS (mem_rec me) m)
                        (with_mem m (with_forward_lif lif' me))]> s.
Proof.
  unfold forward. intros H.
  apply eff_bind_returned in H as (current & s1 & Hcur & H).
  destruct data as [d|].
  2:{ apply eff_bind_returned in Hcur as (prev & s0 & _ & Hcur).
      destruct prev; discriminate Hcur. }
  apply eff_bind_returned in Hcur as (lin & s0 & Hlin & Hcur).
  apply read_returned in Hlin as (-> & me & Eme & ->).
  unfold lift in Hcur. injection Hcur as Hcall <-.
  apply eff_bind_returned in H as (self_mem & s2 & Hmem & H).
  apply read_returned in Hmem as (-> & me1 & Eme1 & ->).
  assert (me1 = me) as -> by congruence.
  apply eff_bind_returned in H as ([spk1 m1] & s3 & Hlif & H).
  apply on_field_returned in Hlif as (me2 & lif' & Eme2 & Hlif & ->).
  assert (me2 = me) as -> by congruence.
  apply eff_bind_returned in H as ([] & s4 & Hsetmem & H).
  apply on_field_returned in Hsetmem as (me3 & m' & Eme3 & Hm' & ->).
  apply eff_bind_returned in H as ([] & s5 & Hrec & H).
  apply on_field_returned in Hrec as (me4 & d' & Eme4 & Hd' & ->).
  injection H as -> -> <-.
  assert (Hlt : self < length s) by (eapply lookup_lt_Some, Eme).
  rewrite list_lookup_insert_eq in Eme3 by exact Hlt. injection Eme3 as <-.
  rewrite list_lookup_insert_eq in Eme4 by (rewrite length_insert; exact Hlt).
  injection Eme4 as <-.
  injection Hm' as <-. injection Hd' as <-.
  exists me, d, current, lif'. repeat split; try assumption.
  rewrite !list_insert_insert_eq. reflexivity.
Qed.

(** Without input data [forward] never returns. *)
Lemma forward_without_data_raises self s :
  exists e, fst (forward self None s) = Raised e.
Proof.
  unfold forward. rewrite eff_bind_unfold, eff_bind_unfold, read_spec.
  destruct (s !! self) as [me|]; [|eauto].
  destruct (prev_layer me); simpl; eauto.
Qed.

End ForwardReturned.

(** ** model.py: what [forward] changes *)

Section ForwardEffect.
Context `{U : Util}.

Lemma forward_without_data_keeps_store self (s : Store) :
  snd (forward self None s) = s.
Proof.
  unfold forward. rewrite eff_bind_unfold, eff_bind_unfold, read_spec.
  destruct (s !! self) as [me|]; [|reflexivity].
  destruct (prev_layer me); reflexivity.
Qed.


End ForwardEffect.

(** ** Loops that visit the layers in index order *)

Section IndexedLoops.
Context `{U : Util}.

#[global] Instance only_preorder i j : PreOrder (only i j).
Proof.
  split.
  - intros l _. reflexivity.
  - intros l1 l2 l3 H12 H23 Hne. rewrite (H23 Hne). exact (H12 Hne).
Qed.

(** A returning loop [for i in range(k, k + m): body(i)] whose body touches
    layer [i] only: layer [j] in that range went through [body j] once and
    is otherwise untouched; layers outside the range are as before. *)
Lemma for_each_indexed (body : nat -> Eff Store unit) (T : nat -> Layer -> Layer -> Prop) :
  (forall i, respects (storewise (only i)) (body i)) ->
  (forall i s s' l l',
     body i s = (Returned tt, s') -> s !! i = Some l -> s' !! i = Some l' -> T i l l') ->
  forall m k s s',
    for_each (seq k m) body s = (Returned tt, s') ->
    length s' = length s /\
    forall j l l', s !! j = Some l -> s' !! j = Some l' ->
      (k <= j < k + m -> T j l l') /\ (~ (k <= j < k + m) -> l' = l).
Proof.
  intros Honly HT. induction m as [|m IH]; intros k s s' H; cbn [seq for_each] in H.
  - injection H as <-. split; [reflexivity|]. intros j l l' E E'.
    split; [lia|]. intros _. congruence.
  - apply eff_bind_returned in H as ([] & s1 & Hk & H).
    destruct (IH _ _ _ H) as [L1 H1].
    destruct (Honly k s) as [L0 H0]. rewrite Hk in L0, H0. simpl in L0, H0.
    split; [congruence|]. intros j l l' E E'.
    destruct (lookup_lt_is_Some_2 s1 j) as [l1 E1].
    { rewrite L0. eapply lookup_lt_Some, E. }
    destruct (H1 j l1 l' E1 E') as [Hin Hout].
    destruct (decide (j = k)) as [->|Hne].
    + assert (l' = l1) as -> by (apply Hout; lia).
      split; [|lia]. intros _. eapply HT; eassumption.
    + assert (l1 = l) as -> by (eapply H0; eassumption).
      split.
      * intros Hr. apply Hin. lia.
      * intros Hr. apply Hout. lia.
Qed.

Ltac only_field := unfold only; intros; congruence.

Lemma train_forward_only self data :
  respects (storewise (only self)) (train_forward self data).
Proof.
  unfold train_forward, track_input, forward, first_term, second_term, presynaptic,
    third_term, update_weights.
  respects_walk; only_field.
Qed.

Lemma wiring_only self other :
  respects (storewise (only self)) (set_prev_layer self other)
  /\ respects (storewise (only self)) (set_next_layer self other).
Proof.
  split; [unfold set_prev_layer | unfold set_next_layer]; respects_walk; only_field.
Qed.

End IndexedLoops.

(** ** model.py: construction *)

Section Construction.
Context `{U : Util}.

Lemma Layer__init__spec ls rng cur :
  let l := fst (Layer__init__ ls rng cur) in
  layer_settings l = ls
  /\ mem_rec l = [torch_zeros (batch_size ls) (size ls); torch_zeros (batch_size ls) (size ls)]
  /\ prev_layer l = None
  /\ length (weight (forward_weights l)) = size ls
  /\ Forall (fun row => length row = prev_size ls) (weight (forward_weights l)).
Proof.
  unfold Layer__init__, nn_Linear. cbn. repeat split.
  - rewrite length_map, length_seq. reflexivity.
  - apply Forall_forall. intros row Hin. apply list_elem_of_In, in_map_iff in Hin.
    destruct Hin as (o & <- & _). rewrite length_map, length_seq. reflexivity.
Qed.

Lemma make_layers_spec specs rng :
  forall cur,
    length (make_layers specs rng cur) = length specs
    /\ Forall (fun l => prev_layer l = None /\ fresh_history l) (make_layers specs rng cur).
Proof.
  induction specs as [|ls specs IH]; intros cur; cbn [make_layers].
  - split; [reflexivity | constructor].
  - destruct (Layer__init__ ls rng cur) as [layer cur'] eqn:E.
    destruct (IH cur') as [L F]. split; [simpl; congruence|].
    constructor; [|exact F].
    pose proof (Layer__init__spec ls rng cur) as H. rewrite E in H. simpl in H.
    destruct H as (Hls & Hrec & Hprev & _). unfold fresh_history.
    rewrite Hls. auto.
Qed.

Lemma connect_body_returns n i s me :
  s !! i = Some me ->
  connect_body n i s = (Returned tt, <[i := wire n i me]> s).
Proof.
  intros E. assert (Hlt : i < length s) by (eapply lookup_lt_Some, E).
  unfold connect_body, wire, set_prev_layer, set_next_layer.
  rewrite eff_bind_unfold.
  destruct (Nat.ltb 0 i); destruct (Nat.ltb i (n - 1)); unfold on_field; simpl.
  - rewrite E. simpl. rewrite list_lookup_insert_eq by exact Hlt.
    rewrite list_insert_insert_eq. reflexivity.
  - rewrite E. reflexivity.
  - rewrite E. reflexivity.
  - rewrite list_insert_id by exact E. reflexivity.
Qed.

Lemma connect_loop_returns n :
  forall m k s, k + m <= length s ->
    exists s', for_each (seq k m) (connect_body n) s = (Returned tt, s').
Proof.
  induction m as [|m IH]; intros k s Hlen; cbn [seq for_each].
  - eexists. reflexivity.
  - destruct (lookup_lt_is_Some_2 s k) as [me E]; [lia|].
    rewrite eff_bind_unfold, (connect_body_returns n k s me E).
    apply IH. rewrite length_insert. lia.
Qed.

Lemma connect_body_only n i : respects (storewise (only i)) (connect_body n i).
Proof.
  unfold connect_body. respects_walk; apply wiring_only.
Qed.

(** The layers [Net.__init__] builds: layer [k] is the freshly constructed
    layer [k], wired. *)
Lemma Net__init__layers settings rng :
  let specs := network_layer_settings settings in
  let net := Net__init__ settings rng in
  length net = length specs /\
  forall k l, net !! k = Some l ->
    exists l0, make_layers specs rng 0 !! k = Some l0
               /\ l = wire (length specs) k l0.
Proof.
  intros specs net. unfold net, Net__init__. fold specs.
  destruct (make_layers_spec specs rng 0) as [L0 _].
  destruct (connect_loop_returns (length specs) (length specs) 0
              (make_layers specs rng 0)) as [s' Hs']; [lia|].
  unfold connect_layers. fold (connect_body (length specs)).
  change (fun i => connect_body (length specs) i) with (connect_body (length specs)).
  rewrite Hs'. simpl.
  destruct (for_each_indexed (connect_body (length specs))
              (fun i l l' => l' = wire (length specs) i l)
              (connect_body_only (length specs))) with
    (m := length specs) (k := 0) (s := make_layers specs rng 0) (s' := s')
    as [L H]; [|exact Hs'|].
  { intros i s s1 l l' Hb E E'.
    rewrite (connect_body_returns _ _ _ _ E) in Hb. injection Hb as <-.
    rewrite list_lookup_insert_eq in E' by (eapply lookup_lt_Some, E). congruence. }
  split; [congruence|]. intros k l E.
  destruct (lookup_lt_is_Some_2 (make_layers specs rng 0) k) as [l0 E0].
  { rewrite <- L. eapply lookup_lt_Some, E. }
  exists l0. split; [exact E0|].
  apply (H k l0 l E0 E). apply lookup_lt_Some in E0. lia.
Qed.

Lemma wire_keeps n i l :
  mem_rec (wire n i l) = mem_rec l
  /\ layer_settings (wire n i l) = layer_settings l
  /\ prev_layer (wire n i l) = if Nat.ltb 0 i then Some (i - 1) else prev_layer l.
Proof.
  unfold wire. destruct (Nat.ltb 0 i), (Nat.ltb i (n - 1)); cbn; auto.
Qed.

Lemma Net__init__fresh settings rng :
  length (Net__init__ settings rng) = length (s_layer_sizes settings) /\
  forall k l, Net__init__ settings rng !! k = Some l ->
    fresh_history l /\
    (forall p, prev_layer l = Some p -> S p = k).
Proof.
  destruct (Net__init__layers settings rng) as [L H].
  split.
  { rewrite L. unfold network_layer_settings. apply length_imap. }
  intros k l E. destruct (H k l E) as (l0 & E0 & ->).
  destruct (make_layers_spec (network_layer_settings settings) rng 0) as [_ F].
  destruct (Forall_lookup_1 _ _ _ _ F E0) as [Hprev Hfresh].
  destruct (wire_keeps (length (network_layer_settings settings)) k l0) as (Hm & Hs & Hp).
  split.
  - unfold fresh_history in *. rewrite Hm, Hs. exact Hfresh.
  - intros p. rewrite Hp. destruct (Nat.ltb_spec 0 k).
    + intros [= <-]. lia.
    + rewrite Hprev. discriminate.
Qed.

End Construction.

(** ** model.py: the membrane history, claims *)

Section HistoryClaims.
Context `{U : Util}.

Lemma storewise_history_bounded s s' :
  storewise history_kept s s' ->
  Forall (fun l => length (mem_rec l) <= MAX_RETAINED_MEMS) s ->
  Forall (fun l => length (mem_rec l) <= MAX_RETAINED_MEMS) s'.
Proof.
  intros H. eapply storewise_Forall; [exact H|].
  intros j l l' [Hle _]. exact Hle.
Qed.

Lemma storewise_history_full s s' :
  storewise history_kept s s' ->
  Forall (fun l => length (mem_rec l) = MAX_RETAINED_MEMS) s ->
  Forall (fun l => length (mem_rec l) = MAX_RETAINED_MEMS) s'.
Proof.
  intros H. eapply storewise_Forall; [exact H|].
  intros j l l' [_ Hfull]. exact Hfull.
Qed.

(** C8.  The membrane history holds at most [MAX_RETAINED_MEMS = 2] values:
    after construction, and after every [forward], [train_forward], training
    timestep and whole training run, returning or raising, on every layer.
    Appending to a history of two evicts the older one; after a returning
    [forward], [mem_rec[-1]] is the membrane that call returned and
    [mem_rec[-2]] is what [mem_rec[-1]] was before the call. *)
Theorem mem_rec_bounded_fifo :
  MAX_RETAINED_MEMS = 2
  /\ (forall ls rng cur,
        length (mem_rec (fst (Layer__init__ ls rng cur))) <= MAX_RETAINED_MEMS)
  /\ (forall s : Store,
        Forall (fun l => length (mem_rec l) <= MAX_RETAINED_MEMS) s ->
        (forall self data,
           Forall (fun l => length (mem_rec l) <= MAX_RETAINED_MEMS)
                  (snd (forward self data s))
           /\ Forall (fun l => length (mem_rec l) <= MAX_RETAINED_MEMS)
                     (snd (train_forward self data s)))
        /\ (forall data,
              Forall (fun l => length (mem_rec l) <= MAX_RETAINED_MEMS)
                     (snd (train_timestep data s)))
        /\ (forall settings rate train_loader test_loader,
              Forall (fun l => length (mem_rec l) <= MAX_RETAINED_MEMS)
                     (snd (process_data_online settings rate train_loader test_loader s))))
  /\ (forall older newer x : Tensor2,
        deque_append MAX_RETAINED_MEMS [older; newer] x = [newer; x])
  /\ (forall self data (s s' : Store) spk m,
        Forall (fun l => length (mem_rec l) <= MAX_RETAINED_MEMS) s ->
        forward self data s = (Returned (spk, m), s') ->
        exists me me',
          s !! self = Some me /\ s' !! self = Some me'
          /\ mem_rec me' = deque_append MAX_RETAINED_MEMS (mem_rec me) m
          /\ neg_index (mem_rec me') 1 = Returned m
          /\ (forall previous, neg_index (mem_rec me) 1 = Returned previous ->
                               neg_index (mem_rec me') 2 = Returned previous)).
Proof.
  split; [reflexivity|]. split; [|split; [|split]].
  - intros ls rng cur. destruct (Layer__init__spec ls rng cur) as (_ & -> & _).
    unfold MAX_RETAINED_MEMS. simpl. lia.
  - intros s Hs. split; [|split].
    + intros self data. split.
      * eapply storewise_history_bounded; [apply forward_keeps_history | exact Hs].
      * eapply storewise_history_bounded; [apply train_forward_keeps_history | exact Hs].
    + intros data.
      eapply storewise_history_bounded; [apply train_timestep_keeps_history | exact Hs].
    + intros settings rate train_loader test_loader.
      eapply storewise_history_bounded;
        [apply process_data_online_keeps_history | exact Hs].
  - intros older newer x. apply deque_append_evicts_oldest.
  - intros self data s s' spk m Hs H.
    apply forward_returned in H as (me & d & current & lif' & Eme & _ & _ & _ & ->).
    pose proof (Forall_lookup_1 _ _ _ _ Hs Eme) as Hle. simpl in Hle.
    eexists me, _. split; [exact Eme|]. split.
    { apply list_lookup_insert_eq. eapply lookup_lt_Some, Eme. }
    cbn. split; [reflexivity|]. split.
    + apply deque_append_newest. exact Hle.
    + intros previous Hp. apply deque_append_previous; assumption.
Qed.

End HistoryClaims.

(** ** torch operations, entry by entry *)

Section TensorFacts.

Lemma outcome_bind_returned {A B} (m : Outcome A) (f : A -> Outcome B) (b : B) :
  m ≫= f = Returned b -> exists a, m = Returned a /\ f a = Returned b.
Proof. destruct m as [a|e]; simpl; intros H; [eauto | discriminate]. Qed.

Lemma zip_strict_spec {A B C} (f : A -> B -> Outcome C) :
  forall xs ys zs,
    zip_strict f xs ys = Returned zs ->
    length ys = length xs /\ length zs = length xs /\
    forall k dx dy dz, k < length xs ->
      f (nth k xs dx) (nth k ys dy) = Returned (nth k zs dz).
Proof.
  induction xs as [|x xs IH]; intros [|y ys] zs H; cbn [zip_strict] in H;
    try discriminate.
  - injection H as <-. repeat split. intros k dx dy dz Hk. simpl in Hk. lia.
  - apply outcome_bind_returned in H as (z & Hz & H).
    apply outcome_bind_returned in H as (zs' & Hzs & H).
    injection H as <-. destruct (IH _ _ Hzs) as (L1 & L2 & Hnth).
    simpl. repeat split; try congruence.
    intros [|k] dx dy dz Hk; [exact Hz|]. apply Hnth. lia.
Qed.

Lemma nth_map_in {A B} (g : A -> B) (l : list A) (k : nat) (da : A) (db : B) :
  k < length l -> nth k (map g l) db = g (nth k l da).
Proof.
  intros Hk. rewrite (nth_indep _ db (g da)) by (rewrite length_map; exact Hk).
  apply map_nth.
Qed.

Lemma t1_op_spec op (a b c : Tensor1) :
  t1_op op a b = Returned c ->
  length b = length a /\ length c = length a /\
  forall i, i < length a -> nth i c 0%Q = op (nth i a 0%Q) (nth i b 0%Q).
Proof.
  intros H. apply zip_strict_spec in H as (L1 & L2 & Hnth).
  repeat split; try assumption.
  intros i Hi. specialize (Hnth i 0%Q 0%Q 0%Q Hi). congruence.
Qed.

Lemma t2_op_spec op (a b c : Tensor2) :
  t2_op op a b = Returned c ->
  length b = length a /\ length c = length a
  /\ (forall o i, in2 a o i <-> in2 b o i)
  /\ (forall o i, in2 a o i <-> in2 c o i)
  /\ forall o i, in2 a o i -> entry2 c o i = op (entry2 a o i) (entry2 b o i).
Proof.
  intros H. apply zip_strict_spec in H as (L1 & L2 & Hnth).
  assert (Hrow : forall o, o < length a ->
            length (nth o b []) = length (nth o a [])
            /\ length (nth o c []) = length (nth o a [])
            /\ forall i, i < length (nth o a []) ->
                 entry2 c o i = op (entry2 a o i) (entry2 b o i)).
  { intros o Ho. specialize (Hnth o [] [] [] Ho).
    apply t1_op_spec in Hnth as (R1 & R2 & R3). auto. }
  split; [exact L1|]. split; [exact L2|]. unfold in2. split; [|split].
  - intros o i. split; intros [Ho Hi].
    + destruct (Hrow o Ho) as (R1 & _). split; lia.
    + assert (Ho' : o < length a) by lia. destruct (Hrow o Ho') as (R1 & _). split; lia.
  - intros o i. split; intros [Ho Hi].
    + destruct (Hrow o Ho) as (_ & R2 & _). split; lia.
    + assert (Ho' : o < length a) by lia. destruct (Hrow o Ho') as (_ & R2 & _). split; lia.
  - intros o i [Ho Hi]. apply (Hrow o Ho). exact Hi.
Qed.

Lemma t3_op_spec op (a b c : Tensor3) :
  t3_op op a b = Returned c ->
  length b = length a /\ length c = length a
  /\ (forall n o i, in3 a n o i <-> in3 b n o i)
  /\ (forall n o i, in3 a n o i <-> in3 c n o i)
  /\ forall n o i, in3 a n o i -> entry3 c n o i = op (entry3 a n o i) (entry3 b n o i).
Proof.
  intros H. apply zip_strict_spec in H as (L1 & L2 & Hnth).
  assert (Hmat : forall n, n < length a ->
            t2_op op (nth n a []) (nth n b []) = Returned (nth n c [])).
  { intros n Hn. apply Hnth. exact Hn. }
  split; [exact L1|]. split; [exact L2|]. unfold in3, entry3. split; [|split].
  - intros n o i. split; intros [Hn Hin].
    + destruct (t2_op_spec _ _ _ _ (Hmat n Hn)) as (_ & _ & E & _).
      split; [lia | apply E; exact Hin].
    + assert (Hn' : n < length a) by lia.
      destruct (t2_op_spec _ _ _ _ (Hmat n Hn')) as (_ & _ & E & _).
      split; [lia | apply E; exact Hin].
  - intros n o i. split; intros [Hn Hin].
    + destruct (t2_op_spec _ _ _ _ (Hmat n Hn)) as (_ & _ & _ & E & _).
      split; [lia | apply E; exact Hin].
    + assert (Hn' : n < length a) by lia.
      destruct (t2_op_spec _ _ _ _ (Hmat n Hn')) as (_ & _ & _ & E & _).
      split; [lia | apply E; exact Hin].
  - intros n o i [Hn Hin].
    destruct (t2_op_spec _ _ _ _ (Hmat n Hn)) as (_ & _ & _ & _ & E).
    apply E. exact Hin.
Qed.

Lemma t2_map_spec (f : Q -> Q) (a : Tensor2) :
  length (t2_map f a) = length a
  /\ (forall o i, in2 (t2_map f a) o i <-> in2 a o i)
  /\ forall o i, in2 a o i -> entry2 (t2_map f a) o i = f (entry2 a o i).
Proof.
  unfold t2_map, in2, entry2. split; [apply length_map|]. split.
  - intros o i. rewrite length_map. split; intros [Ho Hi]; split; try exact Ho.
    + rewrite (nth_map_in _ _ _ [] []) in Hi by exact Ho. rewrite length_map in Hi. exact Hi.
    + rewrite (nth_map_in _ _ _ [] []) by exact Ho. rewrite length_map. exact Hi.
  - intros o i [Ho Hi]. rewrite (nth_map_in _ _ _ [] []) by exact Ho.
    apply nth_map_in. exact Hi.
Qed.

Lemma sum0_fold_raised (e : Exn) (ms : list Tensor2) :
  foldl (fun acc m' => a ← acc; t2_op Qplus a m') (Raised e) ms = Raised e.
Proof. induction ms as [|m ms IH]; simpl; [reflexivity | exact IH]. Qed.

Lemma sum0_fold_spec (ms : list Tensor2) :
  forall (acc r : Tensor2),
    foldl (fun acc m' => a ← acc; t2_op Qplus a m') (Returned acc) ms = Returned r ->
    (forall o i, in2 acc o i <-> in2 r o i)
    /\ (forall n o i, n < length ms -> (in2 acc o i <-> in2 (nth n ms []) o i))
    /\ forall o i, in2 acc o i ->
         entry2 r o i
         = foldl (fun x m => x + entry2 m o i)%Q (entry2 acc o i) ms.
Proof.
  induction ms as [|m ms IH]; intros acc r H; cbn [foldl] in H.
  - injection H as <-. split; [tauto|]. split; [simpl; lia|]. reflexivity.
  - change (Returned acc ≫= (fun a => t2_op Qplus a m)) with (t2_op Qplus acc m) in H.
    destruct (t2_op Qplus acc m) as [acc'|e] eqn:E.
    2:{ rewrite sum0_fold_raised in H. discriminate. }
    apply t2_op_spec in E as (_ & _ & Eb & Ec & Ee).
    destruct (IH _ _ H) as (I1 & I2 & I3).
    split; [|split].
    + intros o i. rewrite Ec. apply I1.
    + intros [|n] o i Hn; simpl.
      * apply Eb.
      * rewrite Ec. apply I2. simpl in Hn. lia.
    + intros o i Hin. cbn [foldl]. rewrite I3 by (apply Ec; exact Hin).
      rewrite Ee by exact Hin. reflexivity.
Qed.

Lemma foldl_Qplus_shift {A} (f : A -> Q) (xs : list A) (a : Q) :
  (foldl (fun x k => x + f k) a xs == a + foldl (fun x k => x + f k) 0 xs)%Q.
Proof.
  revert a. induction xs as [|x xs IH]; intros a; cbn [foldl].
  - ring.
  - rewrite (IH (a + f x)%Q), (IH (0 + f x)%Q). ring.
Qed.

Lemma foldl_over_indices {A} (g : A -> Q) (h : nat -> Q) (d : A) (ms : list A) :
  forall (a : Q) (k : nat),
    (forall j, j < length ms -> h (k + j) = g (nth j ms d)) ->
    foldl (fun x m => x + g m)%Q a ms
    = foldl (fun x n => x + h n)%Q a (seq k (length ms)).
Proof.
  induction ms as [|m ms IH]; intros a k Hh; cbn [foldl length seq].
  - reflexivity.
  - assert (E0 : h k = g m).
    { rewrite <- (Nat.add_0_r k) at 1. apply (Hh 0). simpl. lia. }
    rewrite E0. apply IH. intros j Hj.
    replace (S k + j) with (k + S j) by lia. apply (Hh (S j)). simpl. lia.
Qed.

Lemma sum0_spec (t : Tensor3) (r : Tensor2) :
  sum0 t = Returned r ->
  0 < length t
  /\ (forall n o i, n < length t -> (in2 r o i <-> in2 (nth n t []) o i))
  /\ forall o i, in2 r o i ->
       (entry2 r o i == sum_upto (fun n => entry3 t n o i) (length t))%Q.
Proof.
  destruct t as [|m ms]; [discriminate|]. cbn [sum0]. intros H.
  apply sum0_fold_spec in H as (I1 & I2 & I3).
  split; [simpl; lia|]. split.
  - intros [|n] o i Hn; cbn [nth].
    + symmetry. apply I1.
    + rewrite <- I1. apply I2. simpl in Hn. lia.
  - intros o i Hin. rewrite I3 by (apply I1; exact Hin).
    unfold sum_upto. cbn [length seq foldl].
    rewrite (foldl_over_indices (fun m' => entry2 m' o i)
               (fun n => entry3 (m :: ms) n o i) [] ms _ 1).
    + rewrite foldl_Qplus_shift.
      rewrite (foldl_Qplus_shift _ _ (0 + entry3 (m :: ms) 0 o i)%Q).
      unfold entry3 at 2. cbn [nth]. ring.
    + intros j Hj. reflexivity.
Qed.

Lemma batch_mean_spec (t : Tensor3) (r : Tensor2) :
  batch_mean t = Returned r ->
  0 < length t
  /\ (forall n o i, n < length t -> (in2 r o i <-> in2 (nth n t []) o i))
  /\ forall o i, in2 r o i ->
       (entry2 r o i
        == sum_upto (fun n => entry3 t n o i) (length t)
           / inject_Z (Z.of_nat (length t)))%Q.
Proof.
  unfold batch_mean. intros H.
  apply outcome_bind_returned in H as (summed & Hs & H). injection H as <-.
  apply sum0_spec in Hs as (Hpos & Hin & Hsum).
  destruct (t2_map_spec (fun x => x / inject_Z (Z.of_nat (length t)))%Q summed)
    as (_ & Min & Mentry).
  split; [exact Hpos|]. split.
  - intros n o i Hn. rewrite Min. apply Hin. exact Hn.
  - intros o i Hr. apply Min in Hr. rewrite Mentry by exact Hr.
    rewrite Hsum by exact Hr. reflexivity.
Qed.

End TensorFacts.

(** ** model.py: the weight update *)

Section UpdateFacts.
Context `{U : Util}.

#[global] Instance weights_kept_preorder j : PreOrder (weights_kept j).
Proof.
  split.
  - intros l. reflexivity.
  - intros l1 l2 l3 H12 H23. unfold weights_kept in *. congruence.
Qed.

Lemma before_update_keeps_weights self data :
  respects (storewise weights_kept) (track_input self data)
  /\ respects (storewise weights_kept) (forward self data)
  /\ respects (storewise weights_kept) (first_term self)
  /\ respects (storewise weights_kept) (second_term self)
  /\ respects (storewise weights_kept) (third_term self).
Proof.
  unfold track_input, forward, first_term, second_term, presynaptic, third_term.
  split; [|split; [|split; [|split]]]; respects_walk; reflexivity.
Qed.

Lemma respects_returned {A} (R : Store -> Store -> Prop) (m : Eff Store A) s a s' :
  respects R m -> m s = (Returned a, s') -> R s s'.
Proof. intros Hm E. specialize (Hm s). rewrite E in Hm. exact Hm. Qed.

Lemma lift_returned {A} (o : Outcome A) (s s' : Store) (a : A) :
  lift o s = (Returned a, s') -> o = Returned a /\ s' = s.
Proof. unfold lift. intros [= -> ->]. auto. Qed.

Lemma foldl_seq_ext (f g : nat -> Q) (n : nat) :
  forall (k0 : nat) (a : Q),
    (forall k, k0 <= k < k0 + n -> f k = g k) ->
    foldl (fun x k => x + f k)%Q a (seq k0 n) = foldl (fun x k => x + g k)%Q a (seq k0 n).
Proof.
  induction n as [|n IH]; intros k0 a Hfg; cbn [seq foldl]; [reflexivity|].
  rewrite (Hfg k0) by lia. apply IH. intros k Hk. apply Hfg. lia.
Qed.

Lemma sum_upto_ext (f g : nat -> Q) (n : nat) :
  (forall k, k < n -> f k = g k) -> sum_upto f n = sum_upto g n.
Proof.
  intros Hfg. unfold sum_upto. apply foldl_seq_ext. intros k Hk. apply Hfg. lia.
Qed.

(** What a returning [update_weights] did. *)
Lemma update_weights_returned self (t1 t2 t3 : Tensor3) (s s' : Store) :
  update_weights self t1 t2 t3 s = (Returned tt, s') ->
  exists me w,
    s !! self = Some me
    /\ s' = <[self := with_forward_weights
                        {| weight := w; bias := bias (forward_weights me) |} me]> s
    /\ 0 < length t1
    /\ length w = length (weight (forward_weights me))
    /\ (forall o i, in2 w o i <-> in2 (weight (forward_weights me)) o i)
    /\ (forall n o i, n < length t1 -> in2 (weight (forward_weights me)) o i ->
          in3 t1 n o i /\ in3 t2 n o i /\ in3 t3 n o i)
    /\ forall o i, in2 (weight (forward_weights me)) o i ->
         (entry2 w o i
          == entry2 (weight (forward_weights me)) o i
             + sum_upto (fun n => entry3 t1 n o i * entry3 t2 n o i + entry3 t3 n o i)
                        (length t1)
               / inject_Z (Z.of_nat (length t1)))%Q.
Proof.
  unfold update_weights. intros H.
  apply eff_bind_returned in H as (product & s1 & Hp & H).
  apply lift_returned in Hp as (Hp & ->).
  apply eff_bind_returned in H as (dw & s1 & Hdw & H).
  apply lift_returned in Hdw as (Hdw & ->).
  apply eff_bind_returned in H as (mean & s1 & Hmean & H).
  apply lift_returned in Hmean as (Hmean & ->).
  apply on_field_returned in H as (me & lin' & Eme & Hmeth & ->).
  destruct (t2_op Qplus (weight (forward_weights me)) mean) as [w|e] eqn:Ew;
    [|discriminate Hmeth].
  injection Hmeth as <-.
  apply t3_op_spec in Hp as (Lp1 & Lp2 & Pin2 & Pinp & Pentry).
  apply t3_op_spec in Hdw as (Ld1 & Ld2 & Din3 & Dind & Dentry).
  apply batch_mean_spec in Hmean as (Hpos & Min & Mentry).
  apply t2_op_spec in Ew as (Lw1 & Lw2 & Win & Winw & Wentry).
  assert (Hlen : length dw = length t1) by congruence.
  assert (Hin3 : forall n o i, n < length t1 ->
            in2 (weight (forward_weights me)) o i -> in3 dw n o i).
  { intros n o i Hn Hw. split; [lia|]. apply Min; [lia|]. apply Win. exact Hw. }
  exists me, w. split; [exact Eme|]. split; [reflexivity|].
  split; [lia|]. split; [exact Lw2|]. split; [|split].
  - intros o i. symmetry. apply Winw.
  - intros n o i Hn Hw. specialize (Hin3 n o i Hn Hw).
    apply Dind in Hin3. split; [|split].
    + apply Pinp. exact Hin3.
    + apply Pin2, Pinp. exact Hin3.
    + apply Din3. exact Hin3.
  - intros o i Hw. rewrite Wentry by exact Hw.
    rewrite Mentry by (apply Win; exact Hw). rewrite Hlen.
    assert (Hsum : sum_upto (fun n => entry3 dw n o i) (length t1)
                   = sum_upto (fun n => entry3 t1 n o i * entry3 t2 n o i
                                        + entry3 t3 n o i)%Q (length t1)).
    { apply sum_upto_ext. intros n Hn.
      pose proof (Hin3 n o i Hn Hw) as Hd. apply Dind in Hd.
      rewrite (Dentry n o i Hd). rewrite (Pentry n o i) by (apply Pinp; exact Hd).
      reflexivity. }
    rewrite Hsum. reflexivity.
Qed.

End UpdateFacts.

Section TrainForwardFacts.
Context `{U : Util}.

(** The six stages of a returning [train_forward]. *)
Lemma train_forward_returned self data (s s' : Store) :
  train_forward self data s = (Returned tt, s') ->
  exists s0 sa sb sc sd spk m t1 t2 t3,
    track_input self data s = (Returned tt, s0)
    /\ forward self data s0 = (Returned (spk, m), sa)
    /\ first_term self sa = (Returned t1, sb)
    /\ second_term self sb = (Returned t2, sc)
    /\ third_term self sc = (Returned t3, sd)
    /\ update_weights self t1 t2 t3 sd = (Returned tt, s').
Proof.
  unfold train_forward. intros H.
  apply eff_bind_returned in H as ([] & s0 & H0 & H).
  apply eff_bind_returned in H as ([spk m] & sa & Ha & H).
  apply eff_bind_returned in H as (t1 & sb & Hb & H).
  apply eff_bind_returned in H as (t2 & sc & Hc & H).
  apply eff_bind_returned in H as (t3 & sd & Hd & H).
  exists s0, sa, sb, sc, sd, spk, m, t1, t2, t3. auto 10.
Qed.

Lemma storewise_lookup (T : nat -> Layer -> Layer -> Prop) (s s' : Store) j l' :
  storewise T s s' -> s' !! j = Some l' ->
  exists l, s !! j = Some l /\ T j l l'.
Proof.
  intros [L H] E'. destruct (lookup_lt_is_Some_2 s j) as [l E].
  { rewrite <- L. eapply lookup_lt_Some, E'. }
  exists l. split; [exact E|]. eapply H; eassumption.
Qed.

Lemma respects_raised {A} (R : Store -> Store -> Prop) (m : Eff Store A) s e s' :
  respects R m -> m s = (Raised e, s') -> R s s'.
Proof. intros Hm E. specialize (Hm s). rewrite E in Hm. exact Hm. Qed.

Lemma update_weights_raised self (t1 t2 t3 : Tensor3) (s s' : Store) e :
  update_weights self t1 t2 t3 s = (Raised e, s') -> s' = s.
Proof.
  unfold update_weights. intros H.
  apply eff_bind_raised in H as [H|(product & s1 & Hp & H)];
    [unfold lift in H; congruence|].
  apply lift_returned in Hp as (_ & ->).
  apply eff_bind_raised in H as [H|(dw & s1 & Hdw & H)];
    [unfold lift in H; congruence|].
  apply lift_returned in Hdw as (_ & ->).
  apply eff_bind_raised in H as [H|(mean & s1 & Hmean & H)];
    [unfold lift in H; congruence|].
  apply lift_returned in Hmean as (_ & ->).
  unfold on_field in H. destruct (s !! self) as [me|] eqn:E; [|congruence].
  destruct (t2_op Qplus (weight (forward_weights me)) mean); [discriminate H|].
  injection H as _ <-. apply list_insert_id.
  rewrite E. f_equal. destruct me. reflexivity.
Qed.

(** A raising [train_forward] leaves every weight matrix as it was. *)
Lemma train_forward_raised_keeps_weights self data (s s' : Store) e :
  train_forward self data s = (Raised e, s') -> storewise weights_kept s s'.
Proof.
  destruct (before_update_keeps_weights self data) as (R0 & Ra & Rb & Rc & Rd).
  unfold train_forward. intros H.
  apply eff_bind_raised in H as [H|([] & s0 & H0 & H)];
    [exact (respects_raised _ _ _ _ _ R0 H)|].
  etransitivity; [exact (respects_returned _ _ _ _ _ R0 H0)|].
  apply eff_bind_raised in H as [H|([spk m] & sa & Ha & H)];
    [exact (respects_raised _ _ _ _ _ Ra H)|].
  etransitivity; [exact (respects_returned _ _ _ _ _ Ra Ha)|].
  apply eff_bind_raised in H as [H|(t1 & sb & Hb & H)];
    [exact (respects_raised _ _ _ _ _ Rb H)|].
  etransitivity; [exact (respects_returned _ _ _ _ _ Rb Hb)|].
  apply eff_bind_raised in H as [H|(t2 & sc & Hc & H)];
    [exact (respects_raised _ _ _ _ _ Rc H)|].
  etransitivity; [exact (respects_returned _ _ _ _ _ Rc Hc)|].
  apply eff_bind_raised in H as [H|(t3 & sd & Hd & H)];
    [exact (respects_raised _ _ _ _ _ Rd H)|].
  etransitivity; [exact (respects_returned _ _ _ _ _ Rd Hd)|].
  apply update_weights_raised in H as ->. reflexivity.
Qed.

(** C1.  The weight matrix a layer is constructed with has shape
    size x prev_size.  In every returning training step of every layer, with
    [t1], [t2], [t3] the first, second and third term that step computed
    (after its input trackers and its one [forward] call):
    entry (o, i) of the weight matrix after the step is its entry before the
    step plus the sum over the batch axis of [t1 * t2 + t3] at (o, i),
    divided by the batch size.  The update is in place: the matrix keeps its
    shape, the bias is untouched, and the step's last action changes nothing
    but the weight matrix of that layer.  A training step that raises
    changes no weight at all. *)
Theorem weight_update_is_batch_mean :
  (forall ls rng cur,
     let w := weight (forward_weights (fst (Layer__init__ ls rng cur))) in
     length w = size ls /\ Forall (fun row => length row = prev_size ls) w)
  /\ (forall self data (s s' : Store) e,
        train_forward self data s = (Raised e, s') ->
        length s' = length s /\
        forall j l l', s !! j = Some l -> s' !! j = Some l' ->
                       forward_weights l' = forward_weights l)
  /\ forall self data (s s' : Store),
       train_forward self data s = (Returned tt, s') ->
       exists s0 spk m sa sb sc sd t1 t2 t3 me me_d me',
         track_input self data s = (Returned tt, s0)
         /\ forward self data s0 = (Returned (spk, m), sa)
         /\ first_term self sa = (Returned t1, sb)
         /\ second_term self sb = (Returned t2, sc)
         /\ third_term self sc = (Returned t3, sd)
         /\ s !! self = Some me /\ sd !! self = Some me_d /\ s' !! self = Some me'
         /\ s' = <[self := with_forward_weights (forward_weights me') me_d]> sd
         /\ bias (forward_weights me') = bias (forward_weights me)
         /\ 0 < length t1
         /\ length (weight (forward_weights me')) = length (weight (forward_weights me))
         /\ (forall o i, in2 (weight (forward_weights me')) o i
                         <-> in2 (weight (forward_weights me)) o i)
         /\ (forall n o i, n < length t1 -> in2 (weight (forward_weights me)) o i ->
               in3 t1 n o i /\ in3 t2 n o i /\ in3 t3 n o i)
         /\ forall o i, in2 (weight (forward_weights me)) o i ->
              (entry2 (weight (forward_weights me')) o i
               == entry2 (weight (forward_weights me)) o i
                  + sum_upto (fun n => entry3 t1 n o i * entry3 t2 n o i
                                       + entry3 t3 n o i)
                             (length t1)
                    / inject_Z (Z.of_nat (length t1)))%Q.
Proof.
  split.
  { intros ls rng cur. destruct (Layer__init__spec ls rng cur) as (_ & _ & _ & H1 & H2).
    split; assumption. }
  split.
  { intros self data s s' e H.
    exact (train_forward_raised_keeps_weights self data s s' e H). }
  intros self data s s' H.
  apply train_forward_returned in H
    as (s0 & sa & sb & sc & sd & spk & m & t1 & t2 & t3 & H0 & Ha & Hb & Hc & Hd & Hu).
  destruct (before_update_keeps_weights self data) as (R0 & Ra & Rb & Rc & Rd).
  assert (Hkept : storewise weights_kept s sd).
  { etransitivity; [eapply respects_returned; [exact R0 | exact H0]|].
    etransitivity; [eapply respects_returned; [exact Ra | exact Ha]|].
    etransitivity; [eapply respects_returned; [exact Rb | exact Hb]|].
    etransitivity; [eapply respects_returned; [exact Rc | exact Hc]|].
    eapply respects_returned; [exact Rd | exact Hd]. }
  apply update_weights_returned in Hu
    as (me_d & w & Ed & -> & Hpos & Hlen & Hin & Hin3 & Hentry).
  destruct (storewise_lookup _ _ _ _ _ Hkept Ed) as (me & Eme & Hw).
  unfold weights_kept in Hw. rewrite Hw in *.
  exists s0, spk, m, sa, sb, sc, sd, t1, t2, t3, me, me_d,
    (with_forward_weights {| weight := w; bias := bias (forward_weights me) |} me_d).
  split; [exact H0|]. split; [exact Ha|].
  split; [exact Hb|]. split; [exact Hc|]. split; [exact Hd|].
  split; [exact Eme|]. split; [exact Ed|].
  split; [apply list_lookup_insert_eq; eapply lookup_lt_Some, Ed|].
  cbn. split; [reflexivity|]. split; [reflexivity|]. split; [exact Hpos|].
  split; [exact Hlen|]. split; [exact Hin|]. split; [exact Hin3 | exact Hentry].
Qed.

End TrainForwardFacts.

(** ** model.py: the second term *)

Section SecondTermFacts.
Context `{U : Util}.

Lemma second_term_no_filter_spec (a b m v raw : Tensor2) :
  second_term_no_filter_of a b m v = Returned raw ->
  (forall n i, in2 raw n i <-> in2 a n i)
  /\ (forall n i, in2 a n i -> in2 b n i /\ in2 m n i /\ in2 v n i)
  /\ forall n i, in2 a n i ->
       (entry2 raw n i
        == - (entry2 a n i - entry2 b n i)
           + LAMBDA_HEBBIAN / (entry2 v n i + XI) * (entry2 a n i - entry2 m n i))%Q.
Proof.
  unfold second_term_no_filter_of. intros H.
  apply outcome_bind_returned in H as (difference & Hdiff & H).
  apply outcome_bind_returned in H as (deviation & Hdev & H).
  apply outcome_bind_returned in H as (hebbian & Hheb & H).
  apply t2_op_spec in Hdiff as (_ & _ & Dab & Dad & Dentry).
  apply t2_op_spec in Hdev as (_ & _ & Vam & Vad & Ventry).
  apply t2_op_spec in Hheb as (_ & _ & Hgd & Hgh & Hentry).
  apply t2_op_spec in H as (_ & _ & Rnh & Rnr & Rentry).
  destruct (t2_map_spec (fun d => -1 * d)%Q difference) as (_ & Nin & Nentry).
  destruct (t2_map_spec (fun x => LAMBDA_HEBBIAN / (x + XI))%Q v) as (_ & Gin & Gentry).
  assert (Ha_neg : forall n i, in2 a n i <->
            in2 (t2_map (fun d => -1 * d)%Q difference) n i).
  { intros n i. rewrite Nin. apply Dad. }
  assert (Ha_gain : forall n i, in2 a n i <->
            in2 (t2_map (fun x => LAMBDA_HEBBIAN / (x + XI))%Q v) n i).
  { intros n i. rewrite Hgd. apply Vad. }
  split; [|split].
  - intros n i. rewrite <- Rnr. symmetry. apply Ha_neg.
  - intros n i Ha. split; [apply Dab; exact Ha|]. split; [apply Vam; exact Ha|].
    apply Gin, Ha_gain. exact Ha.
  - intros n i Ha.
    rewrite Rentry by (apply Ha_neg; exact Ha).
    rewrite Nentry by (apply Dad; exact Ha).
    rewrite Dentry by exact Ha.
    rewrite Hentry by (apply Ha_gain; exact Ha).
    rewrite Gentry by (apply Gin, Ha_gain; exact Ha).
    rewrite Ventry by exact Ha.
    ring.
Qed.

Lemma presynaptic_returned self (s s' : Store) a b m v :
  presynaptic self s = (Returned (a, b, m, v), s') ->
  s' = s /\ exists me, s !! self = Some me /\ presynaptic_source s me a b m v.
Proof.
  unfold presynaptic, presynaptic_source. intros H.
  apply eff_bind_returned in H as (prev & s1 & Hprev & H).
  apply read_returned in Hprev as (-> & me & Eme & ->).
  destruct (prev_layer me) as [p|] eqn:Eprev.
  - apply eff_bind_returned in H as (lif & s1 & Hlif & H).
    apply read_returned in Hlif as (-> & pl & Epl & ->).
    apply eff_bind_returned in H as (a' & s1 & Ha & H).
    apply lift_returned in Ha as (Ha & ->).
    apply eff_bind_returned in H as (b' & s1 & Hb & H).
    apply lift_returned in Hb as (Hb & ->).
    injection H as <- <- <- <- <-.
    split; [reflexivity|]. exists me. split; [exact Eme|]. rewrite Eprev.
    exists pl. auto.
  - apply eff_bind_returned in H as (sma & s1 & Hsma & H).
    apply read_returned in Hsma as (-> & me1 & Eme1 & ->).
    apply eff_bind_returned in H as (vma & s1 & Hvma & H).
    apply read_returned in Hvma as (-> & me2 & Eme2 & ->).
    apply eff_bind_returned in H as (a' & s1 & Ha & H).
    apply lift_returned in Ha as (Ha & ->).
    apply eff_bind_returned in H as (b' & s1 & Hb & H).
    apply lift_returned in Hb as (Hb & ->).
    injection H as <- <- <- <- <-.
    assert (me1 = me) as -> by congruence. assert (me2 = me) as -> by congruence.
    split; [reflexivity|]. exists me. rewrite Eprev. auto.
Qed.

Lemma nth_repeat_in {A} (x d : A) (n k : nat) : k < n -> nth k (repeat x n) d = x.
Proof.
  revert k. induction n as [|n IH]; intros [|k] Hk; simpl; try lia; [reflexivity|].
  apply IH. lia.
Qed.

Lemma unsqueeze1_expand_spec (size : nat) (x : Tensor2) :
  (forall n o i, in3 (unsqueeze1_expand size x) n o i <-> (o < size /\ in2 x n i))
  /\ forall n o i, in3 (unsqueeze1_expand size x) n o i ->
       entry3 (unsqueeze1_expand size x) n o i = entry2 x n i.
Proof.
  assert (Hrow : forall n o, n < length x -> o < size ->
            nth o (nth n (unsqueeze1_expand size x) []) [] = nth n x []).
  { intros n o Hn Ho. unfold unsqueeze1_expand.
    rewrite (nth_map_in _ _ _ [] []) by exact Hn. apply nth_repeat_in. exact Ho. }
  assert (Hlen : forall n, n < length x ->
            length (nth n (unsqueeze1_expand size x) []) = size).
  { intros n Hn. unfold unsqueeze1_expand.
    rewrite (nth_map_in _ _ _ [] []) by exact Hn. apply repeat_length. }
  assert (Hl : length (unsqueeze1_expand size x) = length x).
  { unfold unsqueeze1_expand. apply length_map. }
  assert (Hin : forall n o i, in3 (unsqueeze1_expand size x) n o i
                              <-> (o < size /\ in2 x n i)).
  { intros n o i. unfold in3, in2. rewrite Hl. split.
    - intros (Hn & Ho & Hi). rewrite Hlen in Ho by exact Hn.
      rewrite Hrow in Hi by assumption. auto.
    - intros (Ho & Hn & Hi). rewrite Hlen by exact Hn.
      rewrite Hrow by assumption. auto. }
  split; [exact Hin|].
  intros n o i H. apply Hin in H as (Ho & Hn & Hi).
  unfold entry3, entry2. rewrite Hrow by assumption. reflexivity.
Qed.

(** C6.  In every returning computation of the second term: the unfiltered
    second term is, entry by entry over the batch and the presynaptic units,
    minus the difference of the presynaptic side's two retained spike
    samples [spike_rec[-1]] and [spike_rec[-2]], plus [LAMBDA_HEBBIAN]
    divided by (presynaptic variance moving average + [XI]) times
    ([spike_rec[-1]] - presynaptic spike moving average), with [XI > 0]; the
    presynaptic side is the layer's input trackers for a first layer and the
    previous layer's neuron otherwise.  That tensor goes through the layer's
    [alpha_filter_second_term], which is constructed with the alpha time
    constants, and the result is repeated along the postsynaptic axis: entry
    (n, o, i) of the second term is entry (n, i) of the filter output for
    each of the [size] postsynaptic units [o]. *)
Theorem second_term_is_filtered_presynaptic_rule :
  (forall ls rng cur,
     alpha_filter_second_term (fst (Layer__init__ ls rng cur))
     = TemporalFilter__init__ TAU_RISE_ALPHA TAU_FALL_ALPHA)
  /\ (0 < XI)%Q
  /\ forall self (s s' : Store) (t2 : Tensor3),
       second_term self s = (Returned t2, s') ->
       exists me a b m v raw filtered flt,
         s !! self = Some me
         /\ presynaptic_source s me a b m v
         /\ (forall n i, in2 raw n i <-> in2 a n i)
         /\ (forall n i, in2 a n i -> in2 b n i /\ in2 m n i /\ in2 v n i)
         /\ (forall n i, in2 a n i ->
               (entry2 raw n i
                == - (entry2 a n i - entry2 b n i)
                   + LAMBDA_HEBBIAN / (entry2 v n i + XI)
                     * (entry2 a n i - entry2 m n i))%Q)
         /\ TemporalFilter_apply2 (alpha_filter_second_term me) raw
            = (Returned filtered, flt)
         /\ s' = <[self := with_alpha_filter_second_term flt me]> s
         /\ (forall n o i, in3 t2 n o i
                           <-> (o < size (layer_settings me) /\ in2 filtered n i))
         /\ (forall n o i, in3 t2 n o i -> entry3 t2 n o i = entry2 filtered n i).
Proof.
  split; [reflexivity|]. split; [reflexivity|].
  intros self s s' t2 H. unfold second_term in H.
  apply eff_bind_returned in H as ([[[a b] m] v] & s1 & Hpre & H).
  apply presynaptic_returned in Hpre as (-> & me & Eme & Hsrc).
  apply eff_bind_returned in H as (raw & s1 & Hraw & H).
  apply lift_returned in Hraw as (Hraw & ->).
  apply eff_bind_returned in H as (filtered & s1 & Hflt & H).
  apply on_field_returned in Hflt as (me1 & flt & Eme1 & Hflt & ->).
  assert (me1 = me) as -> by congruence.
  apply eff_bind_returned in H as (ls & s1 & Hls & H).
  apply read_returned in Hls as (-> & me2 & Eme2 & ->).
  rewrite list_lookup_insert_eq in Eme2 by (eapply lookup_lt_Some, Eme).
  injection Eme2 as <-. cbn in H. injection H as <- <-.
  apply second_term_no_filter_spec in Hraw as (Rin & Rall & Rentry).
  destruct (unsqueeze1_expand_spec (size (layer_settings me)) filtered) as [Xin Xentry].
  exists me, a, b, m, v, raw, filtered, flt.
  split; [exact Eme|]. split; [exact Hsrc|]. split; [exact Rin|].
  split; [exact Rall|]. split; [exact Rentry|]. split; [exact Hflt|].
  split; [reflexivity|]. split; [exact Xin | exact Xentry].
Qed.

End SecondTermFacts.

(** ** model.py: one forward step per training step *)

Section StepOnce.
Context `{U : Util}.

#[global] Instance neuron_kept_preorder j : PreOrder (neuron_kept j).
Proof.
  split.
  - intros l. unfold neuron_kept. auto.
  - intros l1 l2 l3 (?&?&?) (?&?&?). unfold neuron_kept. repeat split; congruence.
Qed.

Lemma around_forward_keeps_neuron self data :
  respects (storewise neuron_kept) (track_input self data)
  /\ respects (storewise neuron_kept) (first_term self)
  /\ respects (storewise neuron_kept) (second_term self)
  /\ respects (storewise neuron_kept) (third_term self)
  /\ (forall t1 t2 t3, respects (storewise neuron_kept) (update_weights self t1 t2 t3)).
Proof.
  unfold track_input, first_term, second_term, presynaptic, third_term, update_weights.
  split; [|split; [|split; [|split]]]; respects_walk;
    unfold neuron_kept; cbn; auto.
Qed.

Lemma train_forward_anatomy self data (s s' : Store) :
  train_forward self data s = (Returned tt, s') ->
  exists s0 s1 sb sc sd spk m t1 t2 t3 me me1 mec me' lif1,
    track_input self data s = (Returned tt, s0)
    /\ forward self data s0 = (Returned (spk, m), s1)
    /\ update_stages self s1 sb sc sd s' t1 t2 t3
    /\ s !! self = Some me /\ s1 !! self = Some me1
    /\ sc !! self = Some mec /\ s' !! self = Some me'
    /\ forward_lif me1 = lif1 /\ forward_lif mec = lif1 /\ forward_lif me' = lif1
    /\ (exists current mem0 lif0,
          MovingAverageLIF__call__ lif0 current mem0 = (Returned (spk, m), lif1))
    /\ mem me' = m
    /\ mem_rec me' = deque_append MAX_RETAINED_MEMS (mem_rec me) m.
Proof.
  intros H.
  apply train_forward_returned in H
    as (s0 & s1 & sb & sc & sd & spk & m & t1 & t2 & t3 & H0 & Ha & Hb & Hc & Hd & Hu).
  destruct (around_forward_keeps_neuron self data) as (R0 & Rb & Rc & Rd & Ru).
  pose proof (respects_returned _ _ _ _ _ R0 H0) as K0.
  pose proof (respects_returned _ _ _ _ _ Rb Hb) as Kb.
  pose proof (respects_returned _ _ _ _ _ Rc Hc) as Kc.
  pose proof (respects_returned _ _ _ _ _ Rd Hd) as Kd.
  pose proof (respects_returned _ _ _ _ _ (Ru t1 t2 t3) Hu) as Ku.
  pose proof Ha as Hf.
  apply forward_returned in Hf as (me0 & d & current & lif1 & E0 & _ & _ & Hcall & Es1).
  assert (Hlt : self < length s0) by (eapply lookup_lt_Some, E0).
  assert (E1 : s1 !! self
               = Some (with_mem_rec (deque_append MAX_RETAINED_MEMS (mem_rec me0) m)
                         (with_mem m (with_forward_lif lif1 me0)))).
  { rewrite Es1. apply list_lookup_insert_eq. exact Hlt. }
  destruct (storewise_lookup _ _ _ _ _ K0 E0) as (me & Eme & (_ & _ & Krec0)).
  assert (K1c : storewise neuron_kept s1 sc) by (etransitivity; eassumption).
  assert (K1' : storewise neuron_kept s1 s').
  { etransitivity; [exact K1c|]. etransitivity; eassumption. }
  destruct (lookup_lt_is_Some_2 sc self) as [mec Ec].
  { destruct K1c as [L _]. rewrite L, Es1, length_insert. exact Hlt. }
  destruct (lookup_lt_is_Some_2 s' self) as [me' E'].
  { destruct K1' as [L _]. rewrite L, Es1, length_insert. exact Hlt. }
  destruct K1c as [_ K1c]. destruct (K1c _ _ _ E1 Ec) as (Klc & _ & _).
  destruct K1' as [_ K1']. destruct (K1' _ _ _ E1 E') as (Kl' & Km' & Kr').
  cbn in Klc, Kl', Km', Kr'.
  exists s0, s1, sb, sc, sd, spk, m, t1, t2, t3, me,
    (with_mem_rec (deque_append MAX_RETAINED_MEMS (mem_rec me0) m)
       (with_mem m (with_forward_lif lif1 me0))), mec, me', lif1.
  split; [exact H0|]. split; [exact Ha|].
  split; [unfold update_stages; auto|].
  split; [exact Eme|]. split; [exact E1|]. split; [exact Ec|]. split; [exact E'|].
  split; [reflexivity|]. split; [exact Klc|]. split; [exact Kl'|].
  split; [eauto|]. split; [exact Km'|].
  rewrite Kr'. congruence.
Qed.

Lemma train_forward_advances_once self data (s s' : Store) me me' :
  train_forward self data s = (Returned tt, s') ->
  s !! self = Some me -> s' !! self = Some me' ->
  mem_rec me' = deque_append MAX_RETAINED_MEMS (mem_rec me) (mem me').
Proof.
  intros H E E'.
  apply train_forward_anatomy in H
    as (s0 & s1 & sb & sc & sd & spk & m & t1 & t2 & t3 & me_ & me1 & mec & me'_ & lif1
        & _ & _ & _ & E_ & _ & _ & E'_ & _ & _ & _ & _ & Hm & Hrec).
  assert (me_ = me) as -> by congruence. assert (me'_ = me') as -> by congruence.
  rewrite Hm. exact Hrec.
Qed.

(** Every returning call of [train_forward] consists of the input
    trackers, then exactly one call of [forward] on the same data, then the
    computation of the three terms and the weight update; when that
    [forward] call raises, [train_forward] raises with it and no update is
    computed.  The neuron the first and the third term read the most recent
    spike from is the neuron as that one [forward] call left it, so, for a
    neuron that records the spike it emits, the update uses the spike of
    that same call.  The call advances the layer's membrane state by exactly
    one step: [mem] is the membrane [forward] returned and [mem_rec] is the
    history before the call with that membrane appended once.  A returning
    pass of the training loop over the layers, which calls [train_forward]
    on each layer and never [forward] itself, advances every layer's
    membrane history by exactly one step. *)
Lemma train_forward_steps_once :
  lif_records_spike ->
  (forall self data (s s' : Store),
     train_forward self data s = (Returned tt, s') ->
     exists s0 s1 sb sc sd spk m t1 t2 t3 me me1 mec me',
       track_input self data s = (Returned tt, s0)
       /\ forward self data s0 = (Returned (spk, m), s1)
       /\ update_stages self s1 sb sc sd s' t1 t2 t3
       /\ s !! self = Some me /\ s1 !! self = Some me1
       /\ sc !! self = Some mec /\ s' !! self = Some me'
       /\ neg_index (spike_rec (spike_moving_average (forward_lif me1))) 1 = Returned spk
       /\ neg_index (spike_rec (spike_moving_average (forward_lif mec))) 1 = Returned spk
       /\ mem me' = m
       /\ mem_rec me' = deque_append MAX_RETAINED_MEMS (mem_rec me) m)
  /\ (forall self data (s s0 s1 : Store) e,
        track_input self data s = (Returned tt, s0) ->
        forward self data s0 = (Raised e, s1) ->
        train_forward self data s = (Raised e, s1))
  /\ (forall data (s s' : Store),
        train_timestep data s = (Returned tt, s') ->
        length s' = length s /\
        forall i me me', s !! i = Some me -> s' !! i = Some me' ->
          mem_rec me' = deque_append MAX_RETAINED_MEMS (mem_rec me) (mem me')).
Proof.
  intros Hlif. split; [|split].
  - intros self data s s' H.
    apply train_forward_anatomy in H
      as (s0 & s1 & sb & sc & sd & spk & m & t1 & t2 & t3 & me & me1 & mec & me' & lif1
          & H0 & Ha & Hst & E & E1 & Ec & E' & L1 & Lc & _ & (cur & m0 & lif0 & Hcall)
          & Hm & Hrec).
    exists s0, s1, sb, sc, sd, spk, m, t1, t2, t3, me, me1, mec, me'.
    split; [exact H0|]. split; [exact Ha|]. split; [exact Hst|].
    split; [exact E|]. split; [exact E1|]. split; [exact Ec|]. split; [exact E'|].
    split; [rewrite L1; eapply Hlif, Hcall|].
    split; [rewrite Lc; eapply Hlif, Hcall|].
    split; [exact Hm | exact Hrec].
  - intros self data s s0 s1 e H0 Hf. unfold train_forward.
    rewrite (eff_bind_step _ _ _ _ _ H0). apply eff_bind_raised_l. exact Hf.
  - intros data s s' H. unfold train_timestep in H.
    destruct (for_each_indexed
                (fun i => if Nat.eqb i 0 then train_forward i (Some data)
                          else train_forward i None)
                (fun i l l' => mem_rec l' = deque_append MAX_RETAINED_MEMS (mem_rec l) (mem l')))
      with (m := length s) (k := 0) (s := s) (s' := s') as [L HT].
    + intros i. destruct (Nat.eqb i 0); apply train_forward_only.
    + intros i s1 s2 l l' Hb E E'.
      destruct (Nat.eqb i 0); eapply train_forward_advances_once; eassumption.
    + exact H.
    + split; [exact L|]. intros i me me' E E'.
      apply (HT i me me' E E'). apply lookup_lt_Some in E. lia.
Qed.

End StepOnce.

(** ** The claims on the run of model.py's [__main__] *)

Section Witnesses.
Import UtilModel.

Lemma deque_append_last_always {A} (n : nat) (d : list A) (x : A) :
  neg_index (deque_append (S n) d x) 1 = Returned x.
Proof.
  assert (H : exists d1, deque_append (S n) d x = d1 ++ [x]).
  { unfold deque_append. destruct (Nat.ltb_spec (S n) (length (d ++ [x]))) as [Hlt|Hge].
    - destruct d as [|a d]; [simpl in Hlt; lia|]. exists d. reflexivity.
    - exists d. reflexivity. }
  destruct H as [d1 ->]. unfold neg_index. rewrite length_app.
  replace (length d1 + length [x]) with (S (length d1)) by (simpl; lia).
  cbn [Nat.leb andb Nat.sub]. rewrite Nat.sub_0_r.
  rewrite (list_lookup_middle d1 [] x (length d1) eq_refl). reflexivity.
Qed.

(** The reference neuron records the spike it emits. *)
Lemma reference_lif_records_spike : @lif_records_spike reference_util.
Proof.
  intros lif current mem0 spk mem' lif' H. simpl in H. unfold lif_call in H.
  destruct (t2_op _ mem0 current) as [mem1|e]; [|discriminate H].
  unfold sma_apply in H.
  destruct (t2_op (lowpass TAU_MEAN) _ _) as [avg|e]; [|discriminate H].
  destruct (vma_apply _ _ avg) as [[var|e] vma]; [|discriminate H].
  injection H as <- _ <-. simpl. apply deque_append_last_always.
Qed.

Lemma main_net_first_layer :
  exists l, main_net !! 0 = Some l
            /\ weight (forward_weights l) = [[1 # 2; 1 # 4]]
            /\ mem_rec l = [[[0%Q]]; [[0%Q]]].
Proof. eexists. split; [reflexivity|]. split; reflexivity. Qed.

Lemma second_term_is_filtered_presynaptic_rule_witness :
  exists (t2 : Tensor3) (s' : Store) me filtered,
    second_term 0 (snd (train_forward 0 main_input main_net)) = (Returned t2, s')
    /\ snd (train_forward 0 main_input main_net) !! 0 = Some me
    /\ forall n o i, in3 t2 n o i -> entry3 t2 n o i = entry2 filtered n i.
Proof.
  destruct (second_term 0 (snd (train_forward 0 main_input main_net)))
    as [[t2|e] s'] eqn:H; [|vm_compute in H; discriminate H].
  destruct (proj2 (proj2 second_term_is_filtered_presynaptic_rule) 0 _ s' t2 H)
    as (me & a & b & m & v & raw & filtered & flt & E & _ & _ & _ & _ & _ & _ & _ & Hentry).
  exists t2, s', me, filtered. split; [reflexivity|]. split; [exact E | exact Hentry].
Defined.

Lemma mem_rec_bounded_fifo_witness :
  exists spk m (s' : Store) me',
    forward 0 main_input main_net = (Returned (spk, m), s')
    /\ s' !! 0 = Some me'
    /\ neg_index (mem_rec me') 1 = Returned m
    /\ neg_index (mem_rec me') 2 = Returned [[0%Q]].
Proof.
  destruct (forward 0 main_input main_net) as [[[spk m]|e] s'] eqn:H;
    [|vm_compute in H; discriminate H].
  assert (Hb : Forall (fun l => length (mem_rec l) <= MAX_RETAINED_MEMS) main_net).
  { repeat constructor. }
  destruct (proj2 (proj2 (proj2 (proj2 mem_rec_bounded_fifo))) 0 main_input main_net s'
              spk m Hb H) as (me & me' & E & E' & _ & Hnew & Hprev).
  exists spk, m, s', me'. split; [reflexivity|]. split; [exact E'|].
  split; [exact Hnew|]. apply Hprev.
  vm_compute in E. injection E as <-. reflexivity.
Defined.

End Witnesses.

(** * Further properties of model.py *)

Section ForwardErrors.
Context `{U : Util}.

(** [forward] called without data never returns: it raises
    [AssertionError] on a layer without previous layer and [AttributeError]
    on a layer with one, and leaves every layer as it was. *)
Lemma forward_without_data_raises_unchanged (self : nat) (s : Store) (me : Layer) :
  s !! self = Some me ->
  forward self None s
  = (Raised (match prev_layer me with
             | None => AssertionError
             | Some _ => AttributeError
             end), s).
Proof.
  intros E. unfold forward.
  rewrite eff_bind_unfold, eff_bind_unfold, read_spec, E.
  destruct (prev_layer me); reflexivity.
Qed.

Lemma train_forward_without_data_raises (self : nat) (s : Store) :
  exists e, train_forward self None s = (Raised e, s).
Proof.
  unfold train_forward, track_input.
  rewrite eff_bind_unfold. cbn [mret Eff_ret].
  rewrite eff_bind_unfold.
  destruct (s !! self) as [me|] eqn:E.
  - rewrite (forward_without_data_raises_unchanged self s me E). eauto.
  - unfold forward. rewrite eff_bind_unfold, eff_bind_unfold, read_spec, E. eauto.
Qed.

End ForwardErrors.

(** ** model.py: a training pass over more than one layer *)

Section TrainingPass.
Context `{U : Util}.

Lemma train_forward_without_data_on_successor self (s : Store) me p :
  s !! self = Some me -> prev_layer me = Some p ->
  train_forward self None s = (Raised AttributeError, s).
Proof.
  intros E Hp. unfold train_forward, track_input.
  rewrite eff_bind_unfold. cbn [mret Eff_ret]. rewrite eff_bind_unfold.
  unfold forward. rewrite eff_bind_unfold, eff_bind_unfold, read_spec, E, Hp.
  reflexivity.
Qed.

(** C10 (the code where the claim fails).  The training loop calls
    [train_forward] without data on every layer after the first, and on a
    layer that has a previous layer such a call raises [AttributeError]
    inside [forward] (line 120 reads the attribute [spk_rec], which [Layer]
    does not have) before anything is integrated or updated: the store is
    left as it was.  So a pass of the
    loop over two or more layers never returns; on a constructed network
    whose first layer's step returns, the pass raises [AttributeError] right
    after that step, and every layer after the first is still exactly as
    constructed: its membrane state has not advanced. *)
Theorem training_pass_stops_at_second_layer :
  (forall self (s : Store) me p,
     s !! self = Some me -> prev_layer me = Some p ->
     train_forward self None s = (Raised AttributeError, s))
  /\ (forall data (s : Store),
        2 <= length s -> exists e, fst (train_timestep data s) = Raised e)
  /\ (forall settings rng data s1,
        2 <= length (s_layer_sizes settings) ->
        train_forward 0 (Some data) (Net__init__ settings rng) = (Returned tt, s1) ->
        train_timestep data (Net__init__ settings rng) = (Raised AttributeError, s1)
        /\ forall k l, 1 <= k -> Net__init__ settings rng !! k = Some l ->
                       s1 !! k = Some l).
Proof.
  split; [exact train_forward_without_data_on_successor|]. split.
  - intros data s Hlen. unfold train_timestep.
    destruct (length s) as [|[|n]] eqn:El; [lia | lia |].
    cbn [seq for_each Nat.eqb]. rewrite eff_bind_unfold.
    destruct (train_forward 0 (Some data) s) as [[[]|e] s1]; [|simpl; eauto].
    rewrite eff_bind_unfold.
    destruct (train_forward_without_data_raises 1 s1) as [e ->]. simpl. eauto.
  - intros settings rng data s1 Hlen H0.
    destruct (Net__init__fresh settings rng) as [L Hfresh].
    pose proof (respects_returned _ _ _ _ _ (train_forward_only 0 (Some data)) H0)
      as [L1 Honly].
    assert (Hkept : forall k l, 1 <= k -> Net__init__ settings rng !! k = Some l ->
                                s1 !! k = Some l).
    { intros k l Hk E.
      destruct (lookup_lt_is_Some_2 s1 k) as [l' E'].
      { rewrite L1. eapply lookup_lt_Some, E. }
      rewrite E'. f_equal. apply (Honly k l l' E E'). lia. }
    split; [|exact Hkept].
    unfold train_timestep. rewrite L.
    destruct (length (s_layer_sizes settings)) as [|[|n]] eqn:El; [lia | lia |].
    cbn [seq for_each Nat.eqb]. rewrite eff_bind_unfold, H0, eff_bind_unfold.
    destruct (lookup_lt_is_Some_2 (Net__init__ settings rng) 1) as [l1 E1]; [lia|].
    destruct (Hfresh 1 l1 E1) as [_ Hp].
    destruct (Net__init__layers settings rng) as [_ Hl].
    destruct (Hl 1 l1 E1) as (l0 & E0 & Hwire).
    assert (Hprev : prev_layer l1 = Some 0).
    { rewrite Hwire.
      destruct (wire_keeps (length (network_layer_settings settings)) 1 l0) as (_ & _ & ->).
      reflexivity. }
    rewrite (train_forward_without_data_on_successor 1 s1 l1 0 (Hkept 1 l1 (le_n 1) E1) Hprev).
    reflexivity.
Qed.

End TrainingPass.

Section TrainingFrame.
Context `{U : Util}.

#[global] Instance training_frame_preorder self j : PreOrder (training_frame self j).
Proof.
  split.
  - intros l. unfold training_frame. tauto.
  - intros l1 l2 l3 (?&?&?&?&E12) (?&?&?&?&E23). unfold training_frame.
    repeat split; try congruence.
    intros Hne. rewrite (E23 Hne). exact (E12 Hne).
Qed.

#[global] Instance shape_kept_preorder j : PreOrder (shape_kept j).
Proof.
  split.
  - intros l. reflexivity.
  - intros l1 l2 l3 H12 H23. unfold shape_kept in *. congruence.
Qed.

Ltac frame_field :=
  unfold training_frame; cbn; repeat split; intros; congruence.

Lemma update_weights_frame self t1 t2 t3 :
  respects (storewise (training_frame self)) (update_weights self t1 t2 t3).
Proof.
  unfold update_weights. respects_walk.
  match goal with H : _ = (_, _) |- _ => rename H into Hm end.
  destruct (t2_op Qplus (weight (forward_weights me)) a1);
    injection Hm as _ <-; frame_field.
Qed.

Lemma train_forward_frame self data :
  respects (storewise (training_frame self)) (train_forward self data).
Proof.
  unfold train_forward. respects_walk.
  - unfold track_input. respects_walk; frame_field.
  - unfold forward. respects_walk; frame_field.
  - unfold first_term. respects_walk; frame_field.
  - unfold second_term, presynaptic. respects_walk; frame_field.
  - unfold third_term. respects_walk; frame_field.
  - apply update_weights_frame.
Qed.

(** X1.  A training step of a layer is local.  Whether it returns or
    raises, it leaves every other layer exactly as it was, and of the layer
    itself it changes neither the settings, nor the references to the
    previous and next layer, nor the bias of the weights. *)
Theorem train_forward_is_local (self : nat) (data : option Tensor2) (s : Store) :
  let s' := snd (train_forward self data s) in
  length s' = length s /\
  forall j l l',
    s !! j = Some l -> s' !! j = Some l' ->
    (j <> self -> l' = l)
    /\ layer_settings l' = layer_settings l
    /\ prev_layer l' = prev_layer l
    /\ next_layer l' = next_layer l
    /\ bias (forward_weights l') = bias (forward_weights l).
Proof.
  intros s'. destruct (train_forward_frame self data s) as [L H].
  split; [exact L|]. intros j l l' E E'.
  destruct (H j l l' E E') as (H1 & H2 & H3 & H4 & H5). auto.
Qed.

End TrainingFrame.

Section ShapeInvariant.
Context `{U : Util}.

Lemma t2_op_shape op :
  forall (a b c : Tensor2), t2_op op a b = Returned c -> map length c = map length a.
Proof.
  unfold t2_op. induction a as [|ra a IH]; intros [|rb b] c H; cbn [zip_strict] in H;
    try discriminate.
  - injection H as <-. reflexivity.
  - apply outcome_bind_returned in H as (rc & Hr & H).
    apply outcome_bind_returned in H as (c' & Hc & H). injection H as <-.
    apply t1_op_spec in Hr as (_ & Hlen & _). cbn [map]. rewrite Hlen.
    f_equal. eapply IH, Hc.
Qed.

Ltac shape_field := unfold shape_kept; cbn; reflexivity.

Lemma update_weights_keeps_shape self t1 t2 t3 :
  respects (storewise shape_kept) (update_weights self t1 t2 t3).
Proof.
  unfold update_weights. respects_walk.
  match goal with H : _ = (_, _) |- _ => rename H into Hm end.
  destruct (t2_op Qplus (weight (forward_weights me)) a1) as [w|e] eqn:Ew;
    injection Hm as _ <-; unfold shape_kept; cbn; [|reflexivity].
  eapply t2_op_shape, Ew.
Qed.

Lemma train_forward_keeps_shape self data :
  respects (storewise shape_kept) (train_forward self data).
Proof.
  unfold train_forward. respects_walk.
  - unfold track_input. respects_walk; shape_field.
  - unfold forward. respects_walk; shape_field.
  - unfold first_term. respects_walk; shape_field.
  - unfold second_term, presynaptic. respects_walk; shape_field.
  - unfold third_term. respects_walk; shape_field.
  - apply update_weights_keeps_shape.
Qed.

Lemma process_data_online_keeps_shape settings rate train_loader test_loader :
  respects (storewise shape_kept)
           (process_data_online settings rate train_loader test_loader).
Proof.
  unfold process_data_online. respects_walk.
  intros s. unfold train_timestep.
  apply (respects_for_each (storewise shape_kept)).
  intros i. destruct (Nat.eqb i 0); apply train_forward_keeps_shape.
Qed.

#[global] Instance wiring_kept_preorder j : PreOrder (wiring_kept j).
Proof.
  split.
  - intros l. unfold wiring_kept. tauto.
  - intros l1 l2 l3 (?&?&?&?) (?&?&?&?). unfold wiring_kept. repeat split; congruence.
Qed.

Lemma respects_weaken {A} (T T' : nat -> Layer -> Layer -> Prop) (m : Eff Store A) :
  (forall j l l', T j l l' -> T' j l l') ->
  respects (storewise T) m -> respects (storewise T') m.
Proof.
  intros HT Hm s. destruct (Hm s) as [L H]. split; [exact L|].
  intros j l l' E E'. apply HT. exact (H j l l' E E').
Qed.

Lemma process_data_online_keeps_wiring settings rate train_loader test_loader :
  respects (storewise wiring_kept)
           (process_data_online settings rate train_loader test_loader).
Proof.
  unfold process_data_online. respects_walk.
  intros s. unfold train_timestep.
  apply (respects_for_each (storewise wiring_kept)).
  intros i. eapply (respects_weaken (training_frame i)).
  - intros k la lb (H1 & H2 & H3 & H4 & _). unfold wiring_kept. auto.
  - destruct (Nat.eqb i 0); apply train_forward_frame.
Qed.

(** X2.  Training never changes the shape of a weight matrix nor the
    number of layers: after a whole run of [process_data_online], returning
    or raising, every weight matrix has the rows it had before, each of the
    length it had; in a network built by [Net.__init__] the matrix of every
    layer therefore still has [size] rows of [prev_size] entries. *)
Theorem training_keeps_weight_shapes settings rate (train_loader test_loader : list Tensor3) :
  (forall s : Store,
     let s' := snd (process_data_online settings rate train_loader test_loader s) in
     length s' = length s /\
     forall j l l', s !! j = Some l -> s' !! j = Some l' ->
       map length (weight (forward_weights l')) = map length (weight (forward_weights l)))
  /\ forall net_settings rng j l',
       snd (process_data_online settings rate train_loader test_loader
              (Net__init__ net_settings rng)) !! j = Some l' ->
       map length (weight (forward_weights l'))
       = repeat (prev_size (layer_settings l')) (size (layer_settings l')).
Proof.
  assert (Hrun : forall s : Store,
     let s' := snd (process_data_online settings rate train_loader test_loader s) in
     length s' = length s /\
     forall j l l', s !! j = Some l -> s' !! j = Some l' ->
       map length (weight (forward_weights l')) = map length (weight (forward_weights l))).
  { intros s s'.
    destruct (process_data_online_keeps_shape settings rate train_loader test_loader s)
      as [L H]. split; [exact L|]. intros j l l' E E'. exact (H j l l' E E'). }
  split; [exact Hrun|].
  intros net_settings rng j l' E'.
  set (net := Net__init__ net_settings rng) in *.
  destruct (Hrun net) as [L Hshape].
  destruct (lookup_lt_is_Some_2 net j) as [l E].
  { rewrite <- L. eapply lookup_lt_Some, E'. }
  rewrite (Hshape j l l' E E').
  assert (Hset : layer_settings l' = layer_settings l).
  { destruct (process_data_online_keeps_wiring settings rate train_loader test_loader net)
      as [_ Hk]. apply (Hk j l l' E E'). }
  rewrite Hset.
  destruct (Net__init__layers net_settings rng) as [_ Hl].
  destruct (Hl j l E) as (l0 & E0 & ->).
  destruct (wire_keeps (length (network_layer_settings net_settings)) j l0) as (_ & -> & _).
  assert (Hw : forward_weights (wire (length (network_layer_settings net_settings)) j l0)
               = forward_weights l0).
  { unfold wire. destruct (Nat.ltb 0 j), (Nat.ltb j _); reflexivity. }
  rewrite Hw. clear -E0.
  revert E0. generalize 0 at 1. revert j.
  induction (network_layer_settings net_settings) as [|ls specs IH];
    intros j cur E0; cbn [make_layers] in E0; [discriminate|].
  destruct (Layer__init__ ls rng cur) as [layer cur'] eqn:Ei.
  destruct j as [|j].
  - injection E0 as <-.
    pose proof (Layer__init__spec ls rng cur) as H. rewrite Ei in H. simpl in H.
    destruct H as (-> & _ & _ & Hrows & Hcols).
    rewrite <- Hrows. clear -Hcols.
    induction Hcols as [|row rows Hrow _ IH]; cbn; [reflexivity|]. rewrite Hrow, IH.
    reflexivity.
  - eapply IH, E0.
Qed.

End ShapeInvariant.

Section NetConstruction.
Context `{U : Util}.

Lemma make_layers_lookup specs rng :
  forall cur k l0,
    make_layers specs rng cur !! k = Some l0 ->
    exists ls cur', specs !! k = Some ls /\ l0 = fst (Layer__init__ ls rng cur').
Proof.
  induction specs as [|ls specs IH]; intros cur k l0 E; cbn [make_layers] in E;
    [discriminate|].
  destruct (Layer__init__ ls rng cur) as [layer cur'] eqn:Ei.
  destruct k as [|k].
  - injection E as <-. exists ls, cur. rewrite Ei. auto.
  - apply IH in E as (ls' & cur'' & E & ->). exists ls', cur''. auto.
Qed.

Lemma wire_next n i l :
  next_layer (wire n i l) = if Nat.ltb i (n - 1) then Some (i + 1) else next_layer l.
Proof. unfold wire. destruct (Nat.ltb 0 i), (Nat.ltb i (n - 1)); reflexivity. Qed.

Lemma Net__init__layer settings rng k l :
  Net__init__ settings rng !! k = Some l ->
  exists size_k,
    s_layer_sizes settings !! k = Some size_k
    /\ layer_settings l
       = {| prev_size := if Nat.eqb k 0 then s_data_size settings
                         else nth (k - 1) (s_layer_sizes settings) 0;
            size := size_k;
            next_size := if Nat.ltb k (length (s_layer_sizes settings) - 1)
                         then nth (k + 1) (s_layer_sizes settings) 0 else 0;
            beta := s_beta settings;
            learn_beta := s_learn_beta settings;
            batch_size := s_batch_size settings;
            learning_rate := s_learning_rate settings;
            data_size := s_data_size settings |}
    /\ prev_layer l = (if Nat.ltb 0 k then Some (k - 1) else None)
    /\ next_layer l = (if Nat.ltb k (length (s_layer_sizes settings) - 1)
                       then Some (k + 1) else None).
Proof.
  intros E. destruct (Net__init__layers settings rng) as [_ Hl].
  destruct (Hl k l E) as (l0 & E0 & ->).
  apply make_layers_lookup in E0 as (ls & cur & Els & ->).
  unfold network_layer_settings in Els. rewrite list_lookup_imap in Els.
  destruct (s_layer_sizes settings !! k) as [size_k|] eqn:Ek; [|discriminate].
  injection Els as <-. exists size_k. split; [reflexivity|].
  set (n := length (network_layer_settings settings)).
  assert (Hn : n = length (s_layer_sizes settings)).
  { unfold n, network_layer_settings. apply length_imap. }
  destruct (wire_keeps n k (fst (Layer__init__ {|
      prev_size := if Nat.eqb k 0 then s_data_size settings
                   else nth (k - 1) (s_layer_sizes settings) 0;
      size := size_k;
      next_size := if Nat.ltb k (length (s_layer_sizes settings) - 1)
                   then nth (k + 1) (s_layer_sizes settings) 0 else 0;
      beta := s_beta settings; learn_beta := s_learn_beta settings;
      batch_size := s_batch_size settings; learning_rate := s_learning_rate settings;
      data_size := s_data_size settings |} rng cur))) as (_ & Hs & Hp).
  split; [rewrite Hs; reflexivity|]. split.
  - rewrite Hp. destruct (Nat.ltb 0 k); reflexivity.
  - rewrite wire_next. clearbody n. subst n. destruct (Nat.ltb k _); reflexivity.
Qed.

(** X3.  [Net.__init__] builds one layer per entry of [layer_sizes], in
    order, and wires them into a chain: layer [k] has [layer_sizes[k]] units,
    takes its input size from the data for [k = 0] and from the layer before
    it otherwise, refers to layer [k - 1] as previous layer (none for the
    first) and to layer [k + 1] as next layer (none for the last), and its
    [prev_size] and [next_size] are the sizes of exactly those neighbours
    ([next_size] is 0 for the last layer). *)
Theorem Net__init__wires_a_chain settings rng :
  let net := Net__init__ settings rng in
  let sizes := s_layer_sizes settings in
  length net = length sizes /\
  forall k l, net !! k = Some l ->
    sizes !! k = Some (size (layer_settings l))
    /\ batch_size (layer_settings l) = s_batch_size settings
    /\ learning_rate (layer_settings l) = s_learning_rate settings
    /\ data_size (layer_settings l) = s_data_size settings
    /\ prev_layer l = (if Nat.eqb k 0 then None else Some (k - 1))
    /\ next_layer l = (if Nat.eqb (S k) (length sizes) then None else Some (S k))
    /\ (k = 0 -> prev_size (layer_settings l) = s_data_size settings)
    /\ (S k = length sizes -> next_size (layer_settings l) = 0)
    /\ (forall p pl, prev_layer l = Some p -> net !! p = Some pl ->
                     prev_size (layer_settings l) = size (layer_settings pl))
    /\ (forall q ql, next_layer l = Some q -> net !! q = Some ql ->
                     next_size (layer_settings l) = size (layer_settings ql)).
Proof.
  intros net sizes. subst net sizes.
  destruct (Net__init__fresh settings rng) as [L _].
  split; [exact L|]. intros k l E.
  assert (Hk : k < length (s_layer_sizes settings)).
  { rewrite <- L. eapply lookup_lt_Some, E. }
  destruct (Net__init__layer settings rng k l E) as (size_k & Ek & Hls & Hp & Hn).
  rewrite Hls. cbn [size batch_size learning_rate data_size prev_size next_size].
  split; [exact Ek|]. split; [reflexivity|]. split; [reflexivity|].
  split; [reflexivity|].
  split. { rewrite Hp. destruct k; reflexivity. }
  split. { rewrite Hn. destruct (Nat.ltb_spec k (length (s_layer_sizes settings) - 1));
           destruct (Nat.eqb_spec (S k) (length (s_layer_sizes settings)));
           try (exfalso; lia); [|reflexivity]. f_equal. lia. }
  split. { intros ->. reflexivity. }
  split. { intros Hlast.
           destruct (Nat.ltb_spec k (length (s_layer_sizes settings) - 1));
             [exfalso; lia | reflexivity]. }
  split.
  - intros p pl Hpp Epl. rewrite Hp in Hpp.
    destruct k as [|k]; [discriminate Hpp|]. cbn in Hpp. injection Hpp as <-.
    destruct (Net__init__layer settings rng _ pl Epl) as (size_p & Ep & Hlsp & _).
    rewrite Hlsp. cbn [size Nat.eqb Nat.sub]. rewrite Nat.sub_0_r in *.
    apply nth_lookup_Some with (d := 0) in Ep. exact Ep.
  - intros q ql Hqq Eql. rewrite Hn in Hqq.
    destruct (Nat.ltb_spec k (length (s_layer_sizes settings) - 1)); [|discriminate Hqq].
    injection Hqq as <-.
    destruct (Net__init__layer settings rng _ ql Eql) as (size_q & Eq & Hlsq & _).
    rewrite Hlsq. cbn [size].
    apply nth_lookup_Some with (d := 0) in Eq. exact Eq.
Qed.

End NetConstruction.

Section LoopFacts.
Context {W : Type}.

Lemma for_each_ext {A} (xs : list A) (f g : A -> Eff W unit) (w : W) :
  (forall x w', f x w' = g x w') -> for_each xs f w = for_each xs g w.
Proof.
  intros Hfg. revert w. induction xs as [|x xs IH]; intros w; cbn [for_each].
  - reflexivity.
  - rewrite !eff_bind_unfold, Hfg. destruct (g x w) as [[[]|e] w1]; [apply IH | reflexivity].
Qed.

Lemma for_each_map {A B} (h : A -> B) (xs : list A) (f : B -> Eff W unit) (w : W) :
  for_each (map h xs) f w = for_each xs (fun x => f (h x)) w.
Proof.
  revert w. induction xs as [|x xs IH]; intros w; cbn [map for_each].
  - reflexivity.
  - rewrite !eff_bind_unfold. destruct (f (h x) w) as [[[]|e] w1]; [apply IH | reflexivity].
Qed.

Lemma for_each_app {A} (xs ys : list A) (f : A -> Eff W unit) (w : W) :
  for_each (xs ++ ys) f w = (_ ← for_each xs f; for_each ys f) w.
Proof.
  revert w. induction xs as [|x xs IH]; intros w; cbn [app for_each].
  - reflexivity.
  - rewrite !eff_bind_unfold. destruct (f x w) as [[[]|e] w1]; [|reflexivity].
    rewrite IH, eff_bind_unfold. reflexivity.
Qed.

Lemma for_each_flat_map {A B} (g : A -> list B) (xs : list A) (f : B -> Eff W unit) (w : W) :
  for_each xs (fun x => for_each (g x) f) w = for_each (flat_map g xs) f w.
Proof.
  revert w. induction xs as [|x xs IH]; intros w; cbn [flat_map for_each].
  - reflexivity.
  - rewrite for_each_app, !eff_bind_unfold.
    destruct (for_each (g x) f w) as [[[]|e] w1]; [apply IH | reflexivity].
Qed.

Lemma for_each_over_indices {A} (xs : list A) (d : A) (f : A -> Eff W unit) (w : W) :
  for_each (seq 0 (length xs)) (fun t => f (nth t xs d)) w = for_each xs f w.
Proof.
  rewrite <- (for_each_map (fun t => nth t xs d) (seq 0 (length xs)) f).
  rewrite map_nth_seq_all. reflexivity.
Qed.

End LoopFacts.

Section ModelSchedule.
Context `{U : Util}.

(** X4.  model.py's [process_data_online] runs the whole schedule: it is
    one pass of the training loop over the layers for every timestep of every
    rate-encoded mini-batch of every epoch, in that order, and it stops early
    only when a pass raises.  [test_loader] plays no part. *)
Theorem model_online_runs_full_schedule settings rate
    (train_loader test_loader : list Tensor3) (s : Store) :
  process_data_online settings rate train_loader test_loader s
  = for_each (timestep_schedule settings rate train_loader) train_timestep s.
Proof.
  unfold process_data_online, timestep_schedule.
  rewrite <- for_each_flat_map. apply for_each_ext. intros epoch w.
  rewrite <- for_each_flat_map. apply for_each_ext. intros [i batch] w'.
  apply for_each_over_indices.
Qed.

End ModelSchedule.

(** ** model.py: the first and the third term *)

Section FirstThirdTerm.
Context `{U : Util}.

Lemma ret_returned {A} (a b : A) (s s' : Store) :
  (mret a : Eff Store A) s = (Returned b, s') -> a = b /\ s' = s.
Proof. intros [= -> ->]. auto. Qed.

Lemma unsqueeze2_mul_unsqueeze1_spec (a b : Tensor2) (c : Tensor3) :
  unsqueeze2_mul_unsqueeze1 a b = Returned c ->
  (forall n o i, in3 c n o i <-> (in2 a n o /\ in2 b n i))
  /\ forall n o i, in3 c n o i -> entry3 c n o i = (entry2 a n o * entry2 b n i)%Q.
Proof.
  unfold unsqueeze2_mul_unsqueeze1. intros H.
  apply zip_strict_spec in H as (Lb & Lc & Hnth).
  assert (Hmat : forall n, n < length a ->
            nth n c [] = map (fun ao => map (fun bi => (ao * bi)%Q) (nth n b [])) (nth n a [])).
  { intros n Hn. specialize (Hnth n [] [] [] Hn). unfold outer in Hnth. congruence. }
  assert (Hrow : forall n o, n < length a -> o < length (nth n a []) ->
            nth o (nth n c []) [] = map (fun bi => (entry2 a n o * bi)%Q) (nth n b [])).
  { intros n o Hn Ho. rewrite (Hmat n Hn).
    rewrite (nth_map_in _ _ _ 0%Q []) by exact Ho. reflexivity. }
  assert (Hin : forall n o i, in3 c n o i <-> (in2 a n o /\ in2 b n i)).
  { intros n o i. unfold in3, in2. rewrite Lc, Lb. split.
    - intros (Hn & Ho & Hi). rewrite (Hmat n Hn), length_map in Ho.
      rewrite (Hrow n o Hn Ho), length_map in Hi. auto.
    - intros ((Hn & Ho) & (_ & Hi)). split; [exact Hn|].
      rewrite (Hmat n Hn), length_map. split; [exact Ho|].
      rewrite <- (Hmat n Hn), (Hrow n o Hn Ho), length_map. exact Hi. }
  split; [exact Hin|].
  intros n o i H. apply Hin in H as ((Hn & Ho) & (_ & Hi)).
  unfold entry3. unfold entry2 at 1. rewrite (Hrow n o Hn Ho).
  rewrite (nth_map_in _ _ _ 0%Q 0%Q) by exact Hi. reflexivity.
Qed.

Lemma t3_map_spec (f : Q -> Q) (a : Tensor3) :
  (forall n o i, in3 (t3_map f a) n o i <-> in3 a n o i)
  /\ forall n o i, in3 a n o i -> entry3 (t3_map f a) n o i = f (entry3 a n o i).
Proof.
  assert (Hmat : forall n, n < length a -> nth n (t3_map f a) [] = t2_map f (nth n a [])).
  { intros n Hn. unfold t3_map. rewrite (nth_map_in _ _ _ [] []) by exact Hn. reflexivity. }
  assert (Hl : length (t3_map f a) = length a) by (unfold t3_map; apply length_map).
  split.
  - intros n o i. unfold in3. rewrite Hl. split; intros [Hn Hin]; (split; [exact Hn|]).
    + rewrite (Hmat n Hn) in Hin. apply (t2_map_spec f (nth n a [])). exact Hin.
    + rewrite (Hmat n Hn). apply (t2_map_spec f (nth n a [])). exact Hin.
  - intros n o i [Hn Hin]. unfold entry3. rewrite (Hmat n Hn).
    apply (t2_map_spec f (nth n a [])). exact Hin.
Qed.

Lemma unsqueeze2_expand_spec (p : nat) (x : Tensor2) :
  (forall n o i, in3 (unsqueeze2_expand p x) n o i <-> (in2 x n o /\ i < p))
  /\ forall n o i, in3 (unsqueeze2_expand p x) n o i ->
       entry3 (unsqueeze2_expand p x) n o i = entry2 x n o.
Proof.
  assert (Hl : length (unsqueeze2_expand p x) = length x).
  { unfold unsqueeze2_expand. apply length_map. }
  assert (Hmat : forall n, n < length x ->
            nth n (unsqueeze2_expand p x) [] = map (fun v => repeat v p) (nth n x [])).
  { intros n Hn. unfold unsqueeze2_expand.
    rewrite (nth_map_in _ _ _ [] []) by exact Hn. reflexivity. }
  assert (Hrow : forall n o, n < length x -> o < length (nth n x []) ->
            nth o (nth n (unsqueeze2_expand p x) []) [] = repeat (entry2 x n o) p).
  { intros n o Hn Ho. rewrite (Hmat n Hn).
    rewrite (nth_map_in _ _ _ 0%Q []) by exact Ho. reflexivity. }
  assert (Hin : forall n o i, in3 (unsqueeze2_expand p x) n o i <-> (in2 x n o /\ i < p)).
  { intros n o i. unfold in3, in2. rewrite Hl. split.
    - intros (Hn & Ho & Hi). rewrite (Hmat n Hn), length_map in Ho.
      rewrite (Hrow n o Hn Ho), repeat_length in Hi. auto.
    - intros ((Hn & Ho) & Hi). split; [exact Hn|].
      rewrite (Hmat n Hn), length_map. split; [exact Ho|].
      rewrite <- (Hmat n Hn), (Hrow n o Hn Ho), repeat_length. exact Hi. }
  split; [exact Hin|].
  intros n o i H. apply Hin in H as ((Hn & Ho) & Hi).
  unfold entry3. unfold entry2 at 1. rewrite (Hrow n o Hn Ho).
  apply nth_repeat_in. exact Hi.
Qed.

(** In every returning computation of the first term: with [spike] the
    newest entry of the layer's own spike record and [u] the presynaptic
    membrane (the constant [DATA_MEM_ASSUMPTION] for a layer without previous
    layer, the previous layer's [mem_rec[-1]] otherwise), the unfiltered
    first term at (n, o, i) is [spike[n][o] * f'(u[n][i])] with
    [f'(u) = beta * (1 + beta * |u - THETA_REST|) ** (-2)]; it passes
    through the layer's epsilon filter and then its first alpha filter, and
    the first term is the result multiplied by the learning rate on both
    sides.  Nothing but these two filters is changed. *)
Lemma first_term_returned self (s s' : Store) (t1 : Tensor3) :
  first_term self s = (Returned t1, s') ->
  exists me u spike raw eps alpha flt_e flt_a,
    s !! self = Some me
    /\ match prev_layer me with
       | None =>
           u = t2_map (fun one => one * DATA_MEM_ASSUMPTION)%Q
                      (torch_ones (batch_size (layer_settings me))
                                  (data_size (layer_settings me)))
       | Some p => exists pl, s !! p = Some pl /\ neg_index (mem_rec pl) 1 = Returned u
       end
    /\ neg_index (spike_rec (spike_moving_average (forward_lif me))) 1 = Returned spike
    /\ (forall n o i, in3 raw n o i <-> (in2 spike n o /\ in2 u n i))
    /\ (forall n o i, in3 raw n o i ->
          entry3 raw n o i
          = (entry2 spike n o
             * (beta (layer_settings me)
                * Qpower (1 + beta (layer_settings me) * Qabs (entry2 u n i - THETA_REST))
                         (-2)))%Q)
    /\ TemporalFilter_apply3 (epsilon_filter_second_term me) raw = (Returned eps, flt_e)
    /\ TemporalFilter_apply3 (alpha_filter_first_term me) eps = (Returned alpha, flt_a)
    /\ s' = <[self := with_alpha_filter_first_term flt_a
                        (with_epsilon_filter_second_term flt_e me)]> s
    /\ (forall n o i, in3 t1 n o i <-> in3 alpha n o i)
    /\ (forall n o i, in3 alpha n o i ->
          entry3 t1 n o i
          = (learning_rate (layer_settings me) * entry3 alpha n o i
             * learning_rate (layer_settings me))%Q).
Proof.
  unfold first_term. intros H.
  apply eff_bind_returned in H as (ls & s1 & Hls & H).
  apply read_returned in Hls as (-> & me & Eme & ->).
  apply eff_bind_returned in H as (prev & s1 & Hprev & H).
  apply read_returned in Hprev as (-> & me1 & Eme1 & ->).
  assert (me1 = me) as -> by congruence.
  apply eff_bind_returned in H as (u & s1 & Hu & H).
  assert (Hsrc : s1 = s /\
    match prev_layer me with
    | None => u = t2_map (fun one => one * DATA_MEM_ASSUMPTION)%Q
                         (torch_ones (batch_size (layer_settings me))
                                     (data_size (layer_settings me)))
    | Some p => exists pl, s !! p = Some pl /\ neg_index (mem_rec pl) 1 = Returned u
    end).
  { destruct (prev_layer me) as [p|].
    - apply eff_bind_returned in Hu as (rec & s2 & Hrec & Hu).
      apply read_returned in Hrec as (-> & pl & Epl & ->).
      apply lift_returned in Hu as (Hu & ->). split; [reflexivity|]. eauto.
    - apply ret_returned in Hu as (<- & ->). auto. }
  destruct Hsrc as (-> & Hsrc).
  apply eff_bind_returned in H as (lif & s1 & Hlif & H).
  apply read_returned in Hlif as (-> & me2 & Eme2 & ->).
  assert (me2 = me) as -> by congruence.
  apply eff_bind_returned in H as (spike & s1 & Hspike & H).
  apply lift_returned in Hspike as (Hspike & ->).
  apply eff_bind_returned in H as (raw & s1 & Hraw & H).
  apply lift_returned in Hraw as (Hraw & ->).
  apply eff_bind_returned in H as (eps & s1 & Heps & H).
  apply on_field_returned in Heps as (me3 & flt_e & Eme3 & Heps & ->).
  assert (me3 = me) as -> by congruence.
  apply eff_bind_returned in H as (alpha & s1 & Halpha & H).
  apply on_field_returned in Halpha as (me4 & flt_a & Eme4 & Halpha & ->).
  rewrite list_lookup_insert_eq in Eme4 by (eapply lookup_lt_Some, Eme).
  injection Eme4 as <-. cbn in Halpha.
  apply ret_returned in H as (<- & ->).
  apply unsqueeze2_mul_unsqueeze1_spec in Hraw as (Rin & Rentry).
  set (fprime := fun x => (beta (layer_settings me)
                 * Qpower (1 + beta (layer_settings me) * Qabs (x - THETA_REST)) (-2))%Q) in *.
  destruct (t2_map_spec fprime u) as (_ & Fin & Fentry).
  destruct (t3_map_spec (fun x => learning_rate (layer_settings me) * x
                                  * learning_rate (layer_settings me))%Q alpha)
    as (Tin & Tentry).
  exists me, u, spike, raw, eps, alpha, flt_e, flt_a.
  split; [exact Eme|]. split; [exact Hsrc|]. split; [exact Hspike|].
  split. { intros n o i. rewrite Rin, Fin. reflexivity. }
  split. { intros n o i Hin. rewrite (Rentry n o i Hin).
           apply Rin in Hin as (_ & Hinu). apply Fin in Hinu.
           rewrite (Fentry n i Hinu). reflexivity. }
  split; [exact Heps|]. split; [exact Halpha|].
  split. { rewrite list_insert_insert_eq. reflexivity. }
  split; [exact Tin | exact Tentry].
Qed.

(** X5.  In every returning computation of the third term: with [spike]
    the newest entry of the layer's own spike record, the third term at
    (n, o, i) is [learning_rate * DELTA * spike[n][o]] for each of the
    presynaptic units [i], whose number is the data size for a layer without
    previous layer and the previous layer's size otherwise.  Computing it
    changes nothing. *)
Theorem third_term_is_scaled_spike self (s s' : Store) (t3 : Tensor3) :
  third_term self s = (Returned t3, s') ->
  s' = s /\
  exists me spike presynaptic_units,
    s !! self = Some me
    /\ neg_index (spike_rec (spike_moving_average (forward_lif me))) 1 = Returned spike
    /\ match prev_layer me with
       | None => presynaptic_units = data_size (layer_settings me)
       | Some p => exists pl, s !! p = Some pl
                              /\ presynaptic_units = size (layer_settings pl)
       end
    /\ (forall n o i, in3 t3 n o i <-> (in2 spike n o /\ i < presynaptic_units))
    /\ (forall n o i, in3 t3 n o i ->
          entry3 t3 n o i
          = (learning_rate (layer_settings me) * DELTA * entry2 spike n o)%Q).
Proof.
  unfold third_term. intros H.
  apply eff_bind_returned in H as (ls & s1 & Hls & H).
  apply read_returned in Hls as (-> & me & Eme & ->).
  apply eff_bind_returned in H as (lif & s1 & Hlif & H).
  apply read_returned in Hlif as (-> & me1 & Eme1 & ->).
  assert (me1 = me) as -> by congruence.
  apply eff_bind_returned in H as (spike & s1 & Hspike & H).
  apply lift_returned in Hspike as (Hspike & ->).
  apply eff_bind_returned in H as (prev & s1 & Hprev & H).
  apply read_returned in Hprev as (-> & me2 & Eme2 & ->).
  assert (me2 = me) as -> by congruence.
  apply eff_bind_returned in H as (units & s1 & Hunits & H).
  assert (Hsrc : s1 = s /\
    match prev_layer me with
    | None => units = data_size (layer_settings me)
    | Some p => exists pl, s !! p = Some pl /\ units = size (layer_settings pl)
    end).
  { destruct (prev_layer me) as [p|].
    - apply eff_bind_returned in Hunits as (pls & s2 & Hpls & Hunits).
      apply read_returned in Hpls as (-> & pl & Epl & ->).
      apply ret_returned in Hunits as (<- & ->). split; [reflexivity|]. eauto.
    - apply ret_returned in Hunits as (<- & ->). auto. }
  destruct Hsrc as (-> & Hsrc).
  apply ret_returned in H as (<- & ->). split; [reflexivity|].
  set (scaled := t2_map (fun x => learning_rate (layer_settings me) * DELTA * x)%Q spike).
  destruct (unsqueeze2_expand_spec units scaled) as (Xin & Xentry).
  destruct (t2_map_spec (fun x => learning_rate (layer_settings me) * DELTA * x)%Q spike)
    as (_ & Min & Mentry).
  fold scaled in Min, Mentry.
  exists me, spike, units.
  split; [exact Eme|]. split; [exact Hspike|]. split; [exact Hsrc|].
  split. { intros n o i. rewrite Xin, Min. reflexivity. }
  intros n o i Hin. rewrite (Xentry n o i Hin).
  apply Xin in Hin as (Hin & _). apply Min in Hin. apply Mentry. exact Hin.
Qed.

End FirstThirdTerm.

(** ** model.py: the membrane history from construction on *)

Section HistoryFromConstruction.
Context `{U : Util}.

Lemma torch_zeros_spec (rows cols : nat) : zeros_of_shape rows cols (torch_zeros rows cols).
Proof.
  unfold zeros_of_shape, torch_zeros, entry2. split; [apply repeat_length|].
  intros r Hr. rewrite nth_repeat_lt by exact Hr. split; [apply repeat_length|].
  intros c Hc. apply nth_repeat_lt. exact Hc.
Qed.

Lemma before_first_term_only self data :
  respects (storewise (only self)) (track_input self data)
  /\ respects (storewise (only self)) (forward self data).
Proof.
  unfold track_input, forward. split; respects_walk; unfold only; intros; congruence.
Qed.


End HistoryFromConstruction.

(** ** model.py: the statements above on the reference runs *)

Section ReferenceRuns.
Import UtilModel.

Lemma weight_update_is_batch_mean_witness :
  exists (s' : Store) me me' (t1 t2 t3 : Tensor3),
    batch_net !! 0 = Some me
    /\ weight (forward_weights me) = [[1 # 2; 1 # 4]]
    /\ train_forward 0 batch_input batch_net = (Returned tt, s')
    /\ s' !! 0 = Some me'
    /\ length t1 = 2
    /\ (entry3 t1 0 0 0 * entry3 t2 0 0 0 + entry3 t3 0 0 0
        == 3577061 # 26762700000000)%Q
    /\ (entry3 t1 1 0 0 * entry3 t2 1 0 0 + entry3 t3 1 0 0 == 0)%Q
    /\ (forall i, i < 2 ->
          (entry2 (weight (forward_weights me')) 0 i
           == entry2 (weight (forward_weights me)) 0 i
              + sum_upto (fun n => entry3 t1 n 0 i * entry3 t2 n 0 i + entry3 t3 n 0 i) 2
                / inject_Z 2)%Q)
    /\ (entry2 (weight (forward_weights me')) 0 0 == 26762703577061 # 53525400000000)%Q
    /\ (entry2 (weight (forward_weights me')) 0 1 == 5000001 # 20000000)%Q.
Proof.
  assert (Hf : fst (train_forward 0 batch_input batch_net) = Returned tt).
  { vm_compute. reflexivity. }
  assert (H : train_forward 0 batch_input batch_net
              = (Returned tt, snd (train_forward 0 batch_input batch_net))).
  { rewrite <- Hf. apply surjective_pairing. }
  destruct (proj2 (proj2 weight_update_is_batch_mean) 0 batch_input batch_net _ H)
    as (s0 & spk & m & sa & sb & sc & sd & t1 & t2 & t3 & me & me_d & me'
        & H0 & Ha & Hb & Hc & Hd & E & Ed & E' & _ & _ & _ & Hlen & _ & _ & Hentry).
  exists (snd (train_forward 0 batch_input batch_net)), me, me', t1, t2, t3.
  set (get := fun o : Outcome Tensor3 => match o with Returned t => t | Raised _ => [] end).
  assert (Hw : weight (forward_weights me) = [[1 # 2; 1 # 4]]).
  { apply (f_equal (fun o => match o with
                             | Some l => weight (forward_weights l)
                             | None => []
                             end)) in E.
    rewrite <- E. vm_compute. reflexivity. }
  assert (Hs0 : s0 = snd (track_input 0 batch_input batch_net)) by (rewrite H0; reflexivity).
  assert (Hsa : sa = snd (forward 0 batch_input s0)) by (rewrite Ha; reflexivity).
  assert (Ht1 : t1 = get (fst (first_term 0 sa))) by (rewrite Hb; reflexivity).
  assert (Hsb : sb = snd (first_term 0 sa)) by (rewrite Hb; reflexivity).
  assert (Ht2 : t2 = get (fst (second_term 0 sb))) by (rewrite Hc; reflexivity).
  assert (Hsc : sc = snd (second_term 0 sb)) by (rewrite Hc; reflexivity).
  assert (Ht3 : t3 = get (fst (third_term 0 sc))) by (rewrite Hd; reflexivity).
  clear H0 Ha Hb Hc Hd Ed.
  assert (Hin : forall i, i < 2 -> in2 (weight (forward_weights me)) 0 i).
  { intros i Hi. rewrite Hw. unfold in2. cbn. lia. }
  pose proof (Hentry 0 0 (Hin 0 ltac:(lia))) as Hnew0.
  pose proof (Hentry 0 1 (Hin 1 ltac:(lia))) as Hnew1.
  rewrite Hw in Hnew0, Hnew1.
  assert (Hl1 : length t1 = 2).
  { rewrite Ht1, Hsa, Hs0. vm_compute. reflexivity. }
  split; [exact E|]. split; [exact Hw|]. split; [exact H|]. split; [exact E'|].
  split; [exact Hl1|].
  split; [rewrite Ht1, Ht2, Ht3, Hsc, Hsb, Hsa, Hs0; vm_compute; reflexivity|].
  split; [rewrite Ht1, Ht2, Ht3, Hsc, Hsb, Hsa, Hs0; vm_compute; reflexivity|].
  split.
  { intros i Hi. pose proof (Hentry 0 i (Hin i Hi)) as Hi'.
    rewrite Hl1 in Hi'. exact Hi'. }
  split.
  - eapply Qeq_trans; [exact Hnew0|].
    rewrite Ht1, Ht2, Ht3, Hsc, Hsb, Hsa, Hs0. vm_compute. reflexivity.
  - eapply Qeq_trans; [exact Hnew1|].
    rewrite Ht1, Ht2, Ht3, Hsc, Hsb, Hsa, Hs0. vm_compute. reflexivity.
Defined.





Lemma training_pass_stops_at_second_layer_witness :
  exists s1 : Store,
    train_timestep [[1%Q; 0%Q]] two_layer_net = (Raised AttributeError, s1)
    /\ s1 !! 1 = two_layer_net !! 1
    /\ mem_rec <$> s1 !! 0 = Some [[[0%Q]]; [[4 # 8]]]
    /\ mem_rec <$> s1 !! 1 = Some [[[0%Q]]; [[0%Q]]].
Proof.
  assert (Hf : fst (train_forward 0 (Some [[1%Q; 0%Q]]) two_layer_net) = Returned tt).
  { vm_compute. reflexivity. }
  assert (H0 : train_forward 0 (Some [[1%Q; 0%Q]]) two_layer_net
               = (Returned tt, snd (train_forward 0 (Some [[1%Q; 0%Q]]) two_layer_net))).
  { rewrite <- Hf. apply surjective_pairing. }
  destruct (proj2 (proj2 training_pass_stops_at_second_layer)
              two_layer_settings main_rng [[1%Q; 0%Q]] _ (le_n 2) H0)
    as [Hpass Hkept].
  exists (snd (train_forward 0 (Some [[1%Q; 0%Q]]) two_layer_net)).
  split; [exact Hpass|]. split.
  - destruct (lookup_lt_is_Some_2 two_layer_net 1) as [l E]; [vm_compute; lia|].
    rewrite E. exact (Hkept 1 l (le_n 1) E).
  - split; vm_compute; reflexivity.
Defined.

Lemma third_term_is_scaled_spike_witness :
  let s := snd (forward 0 spiking_input main_net) in
  exists t3 : Tensor3,
    third_term 0 s = (Returned t3, s)
    /\ (entry3 t3 0 0 0 == 1 # 10000000)%Q
    /\ (entry3 t3 0 0 1 == 1 # 10000000)%Q.
Proof.
  intros s.
  set (get := fun o : Outcome Tensor3 => match o with Returned t => t | Raised _ => [] end).
  assert (Hfst : fst (third_term 0 s) = Returned (get (fst (third_term 0 s)))).
  { vm_compute. reflexivity. }
  assert (H : third_term 0 s = (Returned (get (fst (third_term 0 s))), snd (third_term 0 s))).
  { rewrite <- Hfst. apply surjective_pairing. }
  destruct (third_term_is_scaled_spike 0 s _ _ H) as [Hs' _].
  exists (get (fst (third_term 0 s))).
  split; [rewrite <- Hs' at 2; exact H|].
  split; vm_compute; reflexivity.
Defined.

Lemma train_forward_is_local_witness :
  snd (train_forward 0 main_input two_layer_net) !! 1 = two_layer_net !! 1.
Proof.
  destruct (train_forward_is_local 0 main_input two_layer_net) as [L H].
  destruct (lookup_lt_is_Some_2 two_layer_net 1) as [l E]; [vm_compute; lia|].
  destruct (lookup_lt_is_Some_2 (snd (train_forward 0 main_input two_layer_net)) 1)
    as [l' E'].
  { rewrite L. vm_compute. lia. }
  rewrite E, E'. f_equal.
  apply (proj1 (H 1 l l' E E')). lia.
Defined.

Lemma Net__init__wires_a_chain_witness :
  exists l,
    two_layer_net !! 1 = Some l
    /\ prev_layer l = Some 0
    /\ next_layer l = None
    /\ prev_size (layer_settings l) = 1
    /\ next_size (layer_settings l) = 0.
Proof.
  destruct (Net__init__wires_a_chain two_layer_settings main_rng) as [L H].
  destruct (lookup_lt_is_Some_2 two_layer_net 1) as [l E]; [vm_compute; lia|].
  destruct (lookup_lt_is_Some_2 two_layer_net 0) as [pl Epl]; [vm_compute; lia|].
  destruct (H 1 l E) as (_ & _ & _ & _ & Hp & Hn & _ & Hlast & Hps & _).
  destruct (H 0 pl Epl) as (Hsz & _).
  exists l. split; [exact E|]. split; [exact Hp|]. split; [exact Hn|]. split.
  - rewrite (Hps 0 pl Hp Epl). cbn in Hsz. congruence.
  - apply Hlast. reflexivity.
Defined.

Lemma training_keeps_weight_shapes_witness :
  exists l',
    snd (process_data_online main_settings (fun _ _ batch => batch)
           [[[[1%Q; 0%Q]]]] [] main_net) !! 0 = Some l'
    /\ map length (weight (forward_weights l')) = [2].
Proof.
  destruct (proj1 (training_keeps_weight_shapes main_settings (fun _ _ batch => batch)
                     [[[[1%Q; 0%Q]]]] []) main_net) as [Hlen Hshape].
  cbv zeta in Hlen, Hshape.
  destruct (lookup_lt_is_Some_2
              (snd (process_data_online main_settings (fun _ _ batch => batch)
                      [[[[1%Q; 0%Q]]]] [] main_net)) 0) as [l' E'].
  { rewrite Hlen. apply Nat.lt_0_succ. }
  destruct (lookup_lt_is_Some_2 main_net 0) as [l E]; [vm_compute; lia|].
  exists l'. split; [exact E'|].
  rewrite (Hshape 0 l l' E E').
  apply (f_equal (fun o => match o with
                           | Some l => map length (weight (forward_weights l))
                           | None => []
                           end)) in E.
  rewrite <- E. vm_compute. reflexivity.
Defined.

End ReferenceRuns.

(** * Further properties of network.py *)

Section NetworkLoops.
Import SettingsPy NetworkPy.
Context {W Spk : Type} `{API : LayerAPI W Spk}.

Lemma single_timestep_unfold (self : Net) (data : Tensor2) (w : W) :
  process_data_single_timestep self data w
  = for_each (seq 0 (num_layers self)) (layer_step data) w.
Proof. reflexivity. Qed.

Lemma for_each_flow_fallthrough {A} (xs : list A) (body : A -> Eff W Flow) (w : W) :
  (forall x, body x w = (Returned Fallthrough, w)) ->
  for_each_flow xs body w = (Returned Fallthrough, w).
Proof.
  intros Hb. induction xs as [|x xs IH]; cbn [for_each_flow]; [reflexivity|].
  rewrite eff_bind_unfold, Hb. exact IH.
Qed.

(** X6.  With no epoch to run ([epochs <= 0]) or an empty loader,
    [process_data_online] returns without calling any layer: whatever the
    layers are, their state is untouched. *)
Theorem online_without_work_is_a_no_op (self : Net) (train_loader : list Tensor3) (w : W) :
  (epochs (settings self) <= 0)%Z \/ train_loader = [] ->
  process_data_online self train_loader w = (Returned tt, w).
Proof.
  intros Hcase. unfold process_data_online. rewrite eff_bind_unfold.
  destruct Hcase as [He| ->].
  - replace (Z.to_nat (epochs (settings self))) with 0 by lia. reflexivity.
  - rewrite for_each_flow_fallthrough; reflexivity.
Qed.

(** X7.  With at least one epoch and a non-empty loader,
    [process_data_online] is [process_data_single_timestep] applied to the
    timesteps of the first mini-batch (thresholded if the settings say so)
    one after the other, for every implementation of the layers, a raised
    exception included: it surfaces at the same point and in the same
    state. *)
Theorem online_is_a_sequence_of_single_timesteps (self : Net) (batch : Tensor3)
    (rest : list Tensor3) (w : W) :
  (0 < epochs (settings self))%Z ->
  process_data_online self (batch :: rest) w
  = for_each (prepared self batch) (process_data_single_timestep self) w.
Proof.
  intros He. unfold process_data_online.
  destruct (Z.to_nat (epochs (settings self))) as [|e] eqn:E; [lia|].
  cbn [seq for_each_flow]. rewrite !eff_bind_unfold.
  unfold online_batch_body, to_device. fold (prepared self batch).
  rewrite eff_bind_unfold.
  rewrite (for_each_over_indices (prepared self batch) []
             (fun x => for_each (seq 0 (num_layers self)) (fun i =>
                spk ← (if Nat.eqb i 0 then forward i (Some x) else forward i None);
                train_synapses i spk x))).
  change (for_each (prepared self batch)
            (fun x => for_each (seq 0 (num_layers self)) (fun i =>
               spk ← (if Nat.eqb i 0 then forward i (Some x) else forward i None);
               train_synapses i spk x)) w)
    with (for_each (prepared self batch) (process_data_single_timestep self) w).
  destruct (for_each (prepared self batch) (process_data_single_timestep self) w)
    as [[[]|e1] w1]; reflexivity.
Qed.

(** X8.  A timestep fails fast.  If the layers before layer [k] have done
    their step and then layer [k]'s [forward] raises, or its
    [train_synapses] does, [process_data_single_timestep] raises that
    exception in the state the failing call left: [train_synapses] is not
    called after a failed [forward], and no later layer is called. *)
Theorem single_timestep_fails_fast (self : Net) (data : Tensor2) (k : nat)
    (w wk w' : W) (e : Exn) :
  k < num_layers self ->
  for_each (seq 0 k) (layer_step data) w = (Returned tt, wk) ->
  (if Nat.eqb k 0 then forward k (Some data) else forward k None) wk = (Raised e, w')
  \/ (exists spk w1,
        (if Nat.eqb k 0 then forward k (Some data) else forward k None) wk
        = (Returned spk, w1)
        /\ train_synapses k spk data w1 = (Raised e, w')) ->
  process_data_single_timestep self data w = (Raised e, w').
Proof.
  intros Hk Hprefix Hfail. rewrite single_timestep_unfold.
  replace (num_layers self) with (k + S (num_layers self - S k)) by lia.
  rewrite seq_app, for_each_app, eff_bind_unfold, Hprefix.
  cbn [seq for_each Nat.add]. rewrite eff_bind_unfold.
  assert (Hstep : layer_step data k wk = (Raised e, w')).
  { unfold layer_step. rewrite eff_bind_unfold.
    destruct Hfail as [Hf|(spk & w1 & Hf & Ht)]; rewrite Hf; [reflexivity | exact Ht]. }
  rewrite Hstep. reflexivity.
Qed.

End NetworkLoops.

Section NetworkData.
Import SettingsPy NetworkPy.

Lemma gt_half_binary (v : Q) : gt_half v = 0%Q \/ gt_half v = 1%Q.
Proof. unfold gt_half. destruct (Qle_bool v (1 # 2)); auto. Qed.

Lemma gt_half_idempotent (v : Q) : gt_half (gt_half v) = gt_half v.
Proof. unfold gt_half. destruct (Qle_bool v (1 # 2)); reflexivity. Qed.

(** X9.  The thresholding of [process_data_online] yields a tensor of the
    same shape whose entries are all 0 or 1, and applying it to an already
    thresholded tensor changes nothing; so with [encode_spike_trains] set,
    every input the layers receive is binary. *)
Theorem threshold_is_binary_and_idempotent (batch : Tensor3) :
  binary (threshold_half batch)
  /\ map (map length) (threshold_half batch) = map (map length) batch
  /\ threshold_half (threshold_half batch) = threshold_half batch
  /\ forall self, encode_spike_trains (settings self) = true ->
                  binary (prepared self batch).
Proof.
  assert (Hbin : forall b, binary (threshold_half b)).
  { intros b. unfold binary, threshold_half.
    apply Forall_forall. intros m Hm. apply list_elem_of_In, in_map_iff in Hm as (m0 & <- & _).
    apply Forall_forall. intros r Hr. apply list_elem_of_In, in_map_iff in Hr as (r0 & <- & _).
    apply Forall_forall. intros v Hv. apply list_elem_of_In, in_map_iff in Hv as (v0 & <- & _).
    apply gt_half_binary. }
  split; [apply Hbin|]. split; [|split].
  - unfold threshold_half. rewrite map_map. apply map_ext. intros m.
    rewrite map_map. apply map_ext. intros r. apply length_map.
  - unfold threshold_half. rewrite map_map. apply map_ext. intros m.
    rewrite map_map. apply map_ext. intros r.
    rewrite map_map. apply map_ext. intros v. apply gt_half_idempotent.
  - intros self Hflag. unfold prepared. rewrite Hflag. apply Hbin.
Qed.

End NetworkData.

(** ** network.py: the statements above on recorded runs *)

Section RecordedRuns.
Import SettingsPy NetworkPy.

Lemma online_without_work_is_a_no_op_witness :
  let self := {| settings := mkSettings [1%Z] 1 2 (1 # 100) 3 true 1 20 1 1 (1 # 2) cpu;
                 num_layers := 1 |} in
  let idle := {| settings := mkSettings [1%Z] 1 2 (1 # 100) 0 true 1 20 1 1 (1 # 2) cpu;
                 num_layers := 1 |} in
  process_data_online self [] [] = (Returned tt, [])
  /\ process_data_online idle [[[[1%Q]]]] [] = (Returned tt, []).
Proof.
  intros self idle. split.
  - apply (online_without_work_is_a_no_op self [] []). right. reflexivity.
  - apply (online_without_work_is_a_no_op idle [[[[1%Q]]]] []). left. cbn. lia.
Defined.

Lemma online_is_a_sequence_of_single_timesteps_witness :
  let self := {| settings := mkSettings [1%Z] 1 2 (1 # 100) 3 false 1 20 1 1 (1 # 2) cpu;
                 num_layers := 1 |} in
  process_data_online self [[[[1%Q]; [0%Q]]]; [[[1%Q]]]] []
  = (Returned tt,
     [CallForward 0 (Some [[1%Q]]); CallTrainSynapses 0 0 [[1%Q]];
      CallForward 0 (Some [[0%Q]]); CallTrainSynapses 0 2 [[0%Q]]]).
Proof.
  intros self.
  rewrite (online_is_a_sequence_of_single_timesteps self [[[1%Q]; [0%Q]]] [[[[1%Q]]]] []
             ltac:(cbn; lia)).
  reflexivity.
Defined.

Lemma single_timestep_fails_fast_witness :
  let self := {| settings := mkSettings [1%Z] 1 2 (1 # 100) 3 false 1 20 1 1 (1 # 2) cpu;
                 num_layers := 3 |} in
  @process_data_single_timestep _ _ (failing_recorder 1) self [[1%Q]] []
  = (Raised RuntimeError,
     [CallForward 0 (Some [[1%Q]]); CallTrainSynapses 0 0 [[1%Q]]; CallForward 1 None]).
Proof.
  intros self.
  apply (@single_timestep_fails_fast _ _ (failing_recorder 1) self [[1%Q]] 1 []
           [CallForward 0 (Some [[1%Q]]); CallTrainSynapses 0 0 [[1%Q]]]).
  - cbn. lia.
  - reflexivity.
  - left. reflexivity.
Defined.

Lemma threshold_is_binary_and_idempotent_witness :
  let self := {| settings := mkSettings [1%Z] 1 2 (1 # 100) 3 true 1 20 1 1 (1 # 2) cpu;
                 num_layers := 1 |} in
  binary (prepared self [[[3 # 10]; [7 # 10]]])
  /\ prepared self [[[3 # 10]; [7 # 10]]] = [[[0%Q]]; [[1%Q]]].
Proof.
  intros self. split.
  - apply (proj2 (proj2 (proj2 (threshold_is_binary_and_idempotent [[[3 # 10]; [7 # 10]]])))).
    reflexivity.
  - reflexivity.
Defined.

End RecordedRuns.

(** * Further properties of datasets/src/image_detection/dataset.py *)

Section ImageDatasetFacts.
Import ImageDatasetPy.
Context `{PyRandom}.

Lemma draw_switches_spec (self : ImageDataset) (n cur : nat) :
  images self <> [] ->
  let hi := (Z.of_nat (length (images self)) - 1)%Z in
  let T := Z.to_nat (num_timesteps_each_image self) in
  draw_switches self n cur =
    (Done (flat_map (fun k => repeat (randint k 0 hi) T) (seq cur n),
           map (fun k => randint k 0 hi) (seq cur n)),
     (cur + n)%nat).
Proof.
  intros Himg hi T. revert cur.
  induction n as [|n IH]; intros cur.
  - cbn. repeat f_equal. lia.
  - cbn [draw_switches]. unfold random_randint.
    assert (Hlt : (Z.of_nat (length (images self)) - 1 <? 0)%Z = false).
    { apply Z.ltb_ge. destruct (images self); [congruence|]. cbn [length]. lia. }
    rewrite Hlt, IH. cbn. fold hi T. repeat f_equal. lia.
Qed.

Lemma mapM_Done {A B} (f : A -> Result B) (g : A -> B) (l : list A) :
  Forall (fun a => f a = Done (g a)) l -> mapM f l = Done (map g l).
Proof.
  induction 1 as [|a l Ha _ IH]; [reflexivity|].
  cbn. rewrite Ha. cbn. rewrite IH. reflexivity.
Qed.

Lemma nth_flat_map_repeat {A} (f : nat -> A) (T : nat) (ks : list nat) (k t : nat) (d : A) :
  (k < length ks)%nat -> (t < T)%nat ->
  nth (k * T + t) (flat_map (fun j => repeat (f j) T) ks) d = f (nth k ks 0%nat).
Proof.
  revert k. induction ks as [|j ks IH]; intros k Hk Ht; cbn [length] in Hk; [lia|].
  cbn [flat_map]. destruct k as [|k].
  - cbn [Nat.mul Nat.add nth]. rewrite app_nth1 by (rewrite repeat_length; lia).
    apply nth_repeat_lt. lia.
  - rewrite app_nth2 by (rewrite repeat_length; lia).
    rewrite repeat_length.
    replace (S k * T + t - T)%nat with (k * T + t)%nat by lia.
    cbn [nth]. apply IH; lia.
Qed.

Lemma length_flat_map_repeat {A} (f : nat -> A) (T : nat) (ks : list nat) :
  length (flat_map (fun j => repeat (f j) T) ks) = (length ks * T)%nat.
Proof.
  induction ks as [|j ks IH]; [reflexivity|].
  cbn [flat_map length]. rewrite length_app, repeat_length, IH. lia.
Qed.

Lemma nth_insert_repeat (n j c : nat) :
  (c < n)%nat ->
  nth c (<[j := 1%Q]> (repeat 0%Q n)) 0%Q = if (c =? j)%nat then 1%Q else 0%Q.
Proof.
  revert j c. induction n as [|n IH]; intros j c Hc; [lia|].
  destruct j as [|j], c as [|c]; cbn; try reflexivity.
  - apply nth_repeat_lt. cbn in Hc. lia.
  - apply IH. lia.
Qed.

(** X10.  An item of the image data set built by [__init__], whatever
    index is asked for: under the library's promise on [randint] the call
    returns, having drawn [num_switches] times; the labels are the draws
    and lie in [0, 9]; the one-hot tensor has
    [num_switches * num_timesteps_each_image] rows of 10 entries, and row
    [k * num_timesteps_each_image + t] holds 1 at the column of label [k]
    and 0 elsewhere. *)
Theorem getitem_is_block_one_hot (num_timesteps_each_image num_switches : Z)
    (device : Device) (max_samples : option Z) (idx : Z) (cur : nat) :
  randint_in_range ->
  let self := ImageDataset__init__ num_timesteps_each_image num_switches device max_samples in
  let S := Z.to_nat num_switches in
  let T := Z.to_nat num_timesteps_each_image in
  exists out_one_hot out_labels,
    ImageDataset__getitem__ self idx cur = (Done (out_one_hot, out_labels), (cur + S)%nat) /\
    out_labels = map (fun k => randint k 0 9) (seq cur S) /\
    Forall (fun c => (0 <= c <= 9)%Z) out_labels /\
    length out_one_hot = (S * T)%nat /\
    forall k t, (k < S)%nat -> (t < T)%nat ->
      length (nth (k * T + t) out_one_hot []) = 10%nat /\
      forall c, (c < 10)%nat ->
        entry2 out_one_hot (k * T + t) c =
          if (Z.of_nat c =? nth k out_labels 0%Z)%Z then 1%Q else 0%Q.
Proof.
  intros Hrange self S T.
  set (row := fun c : Z => <[Z.to_nat c := 1%Q]> (repeat 0%Q 10)).
  set (out := flat_map (fun k => repeat (randint k 0 9) T) (seq cur S)).
  assert (Hdraw : draw_switches self S cur =
                  (Done (out, map (fun k => randint k 0 9) (seq cur S)), (cur + S)%nat)).
  { apply (draw_switches_spec self S cur). discriminate. }
  assert (Hin : forall k, (0 <= randint k 0 9 <= 9)%Z) by (intros k; apply Hrange; lia).
  assert (Hout : Forall (fun c => (0 <= c <= 9)%Z) out).
  { apply List.Forall_forall. intros c Hc. apply in_flat_map in Hc as (k & _ & Hc).
    apply repeat_spec in Hc as ->. apply Hin. }
  assert (Hrows : mapM (one_hot_row 10) out = Done (map row out)).
  { apply mapM_Done. eapply Forall_impl; [exact Hout|].
    intros c Hc. cbn beta in Hc. unfold one_hot_row.
    replace ((0 <=? c)%Z && (c <? Z.of_nat 10)%Z) with true; [reflexivity|].
    symmetry. apply andb_true_iff. split; [apply Z.leb_le | apply Z.ltb_lt]; lia. }
  exists (map row out), (map (fun k => randint k 0 9) (seq cur S)).
  split; [|split; [reflexivity|split; [|split]]].
  - unfold ImageDataset__getitem__.
    change (Z.to_nat (ImageDatasetPy.num_switches self)) with S.
    rewrite Hdraw.
    change (ImageDatasetPy.num_classes self) with 10%nat.
    cbn [mbind Result_bind]. rewrite Hrows. reflexivity.
  - apply List.Forall_forall. intros c Hc. apply in_map_iff in Hc as (k & <- & _). apply Hin.
  - rewrite length_map. unfold out. rewrite length_flat_map_repeat, length_seq. reflexivity.
  - intros k t Hk Ht.
    assert (Hlen : (k * T + t < length out)%nat).
    { unfold out. rewrite length_flat_map_repeat, length_seq. nia. }
    assert (Hnth : nth (k * T + t) (map row out) [] = row (randint (cur + k) 0 9)).
    { rewrite (nth_indep _ [] (row 0%Z)) by (rewrite length_map; exact Hlen).
      rewrite map_nth. f_equal. unfold out.
      rewrite nth_flat_map_repeat by (rewrite ?length_seq; lia).
      rewrite seq_nth by lia. reflexivity. }
    assert (Hlab : nth k (map (fun k => randint k 0 9) (seq cur S)) 0%Z = randint (cur + k) 0 9).
    { rewrite (nth_indep _ 0%Z (randint 0 0 9)) by (rewrite length_map, length_seq; lia).
      rewrite (map_nth (fun k => randint k 0 9)). rewrite seq_nth by lia. reflexivity. }
    split.
    + rewrite Hnth. unfold row. rewrite length_insert, repeat_length. reflexivity.
    + intros c Hc. unfold entry2. rewrite Hnth, Hlab. unfold row.
      rewrite nth_insert_repeat by exact Hc.
      specialize (Hin (cur + k)%nat).
      destruct (Nat.eqb_spec c (Z.to_nat (randint (cur + k) 0 9))) as [E|E];
        destruct (Z.eqb_spec (Z.of_nat c) (randint (cur + k) 0 9)) as [E'|E'];
        try reflexivity; exfalso; lia.
Qed.

End ImageDatasetFacts.

(** * Further properties of datasets/src/zenke_2a *)

Section DatagenFacts.
Import ZenkePy.
Context `{NumpyRandom}.

Lemma datapoints_spec (s nc : Z) (p : Q) (n : nat) (cc : Z) (cur : nat) :
  snd (datapoints s nc p n cc cur) = (cur + 3 * n)%nat /\
  map sample (fst (datapoints s nc p n cc cur)) = repeat s n.
Proof.
  revert cc cur. induction n as [|n IH]; intros cc cur.
  - cbn. split; [lia | reflexivity].
  - cbn [datapoints].
    set (cc' := if Qlt_bool (np_rand cur) p then ((cc + 1) mod nc)%Z else cc).
    destruct (IH cc' (cur + 3)%nat) as [Hc Hs].
    destruct (datapoints s nc p n cc' (cur + 3)) as [rows cur'].
    cbn [fst snd] in *. split; [lia|]. cbn. rewrite Hs. reflexivity.
Qed.

Lemma generate_samples_spec (ks : list Z) (D : nat) (nc : Z) (p : Q) (cur : nat) :
  (0 < nc)%Z ->
  exists rows,
    generate_samples ks D nc p cur = (Done rows, (cur + length ks * (1 + 3 * D))%nat) /\
    map sample rows = flat_map (fun k => repeat k D) ks.
Proof.
  intros Hnc. revert cur. induction ks as [|k ks IH]; intros cur.
  - exists []. cbn. split; [repeat f_equal; lia | reflexivity].
  - cbn [generate_samples]. unfold numpy_randint.
    replace (nc <=? 0)%Z with false by (symmetry; apply Z.leb_gt; lia).
    destruct (datapoints_spec k nc p D (np_randint cur 0 nc) (Datatypes.S cur)) as [Hc Hs].
    destruct (datapoints k nc p D (np_randint cur 0 nc) (Datatypes.S cur)) as [data cur1].
    cbn [fst snd] in Hc, Hs. subst cur1.
    destruct (IH (Datatypes.S cur + 3 * D)%nat) as (rest & -> & Hrest).
    exists (data ++ rest). split.
    + cbn. repeat f_equal. lia.
    + rewrite map_app, Hs, Hrest. reflexivity.
Qed.

Lemma normalize_sample (df : DataFrame) : map sample (normalize df) = map sample df.
Proof.
  unfold normalize. rewrite map_map. reflexivity.
Qed.

Lemma length_blocks {A} (ks : list A) (D : nat) :
  length (flat_map (fun k => repeat k D) ks) = (length ks * D)%nat.
Proof.
  induction ks as [|k ks IH]; [reflexivity|].
  cbn [flat_map length]. rewrite length_app, repeat_length, IH. lia.
Qed.

Lemma length_sample_blocks (S D : nat) : length (sample_blocks S D) = (S * D)%nat.
Proof.
  unfold sample_blocks. rewrite length_blocks, length_map, length_seq. reflexivity.
Qed.

(** X11.  With at least one cluster the generator returns a frame of
    [num_samples] samples numbered from 0, each of [num_datapoints]
    consecutive rows, and has made one draw per sample and three per row. *)
Theorem generated_frame_layout (num_samples num_datapoints num_clusters : Z)
    (cluster_switch_prob cluster_spread : Q) (cur : nat) :
  (0 < num_clusters)%Z ->
  let S := Z.to_nat num_samples in
  let D := Z.to_nat num_datapoints in
  exists df,
    generate_sequential_dataset num_samples num_datapoints num_clusters
      cluster_switch_prob cluster_spread cur = (Done df, (cur + S * (1 + 3 * D))%nat) /\
    map sample df = sample_blocks S D /\
    length df = (S * D)%nat.
Proof.
  intros Hnc S D. unfold generate_sequential_dataset. fold S D.
  destruct (generate_samples_spec (map Z.of_nat (seq 0 S)) D num_clusters
              cluster_switch_prob cur Hnc) as (rows & -> & Hrows).
  rewrite length_map, length_seq.
  exists (normalize rows).
  assert (Hs : map sample (normalize rows) = sample_blocks S D).
  { rewrite normalize_sample. exact Hrows. }
  split; [reflexivity | split; [exact Hs|]].
  rewrite <- (length_map sample), Hs. apply length_sample_blocks.
Qed.

(** X12.  Without a cluster the generator raises [ValueError] at its first
    draw as soon as one sample is asked for, and returns the empty frame
    without drawing when none is. *)
Theorem generate_without_cluster (num_samples num_datapoints num_clusters : Z)
    (cluster_switch_prob cluster_spread : Q) (cur : nat) :
  (num_clusters <= 0)%Z ->
  generate_sequential_dataset num_samples num_datapoints num_clusters
    cluster_switch_prob cluster_spread cur =
  if (0 <? num_samples)%Z then (Thrown ValueError, cur) else (Done [], cur).
Proof.
  intros Hnc. unfold generate_sequential_dataset.
  destruct (Z.ltb_spec 0 num_samples) as [Hs|Hs].
  - destruct (Z.to_nat num_samples) as [|n] eqn:En; [lia|].
    cbn [seq map generate_samples]. unfold numpy_randint.
    replace (num_clusters <=? 0)%Z with true by (symmetry; apply Z.leb_le; lia).
    reflexivity.
  - replace (Z.to_nat num_samples) with 0%nat by lia. reflexivity.
Qed.

End DatagenFacts.

Section NormalizeFacts.
Import ZenkePy.

Lemma foldl_Qmin_spec (vs : list Q) (v : Q) :
  (forall u, In u (v :: vs) -> foldl Qmin v vs <= u)%Q /\
  exists u, In u (v :: vs) /\ (u == foldl Qmin v vs)%Q.
Proof.
  revert v. induction vs as [|a vs IH]; intros v.
  - cbn. split.
    + intros u [<-|[]]. apply Qle_refl.
    + exists v. split; [now left | reflexivity].
  - cbn [foldl]. destruct (IH (Qmin v a)) as [Hle (u & Hu & Heq)]. split.
    + intros w [<-|[<-|Hw]].
      * eapply Qle_trans; [apply Hle; now left | apply Q.le_min_l].
      * eapply Qle_trans; [apply Hle; now left | apply Q.le_min_r].
      * apply Hle. now right.
    + destruct Hu as [<-|Hu].
      * destruct (Q.min_dec v a) as [E|E].
        -- exists v. split; [now left | exact (Qeq_trans _ _ _ (Qeq_sym _ _ E) Heq)].
        -- exists a. split; [right; now left | exact (Qeq_trans _ _ _ (Qeq_sym _ _ E) Heq)].
      * exists u. split; [right; now right | exact Heq].
Qed.

Lemma foldl_Qmax_spec (vs : list Q) (v : Q) :
  (forall u, In u (v :: vs) -> u <= foldl Qmax v vs)%Q /\
  exists u, In u (v :: vs) /\ (u == foldl Qmax v vs)%Q.
Proof.
  revert v. induction vs as [|a vs IH]; intros v.
  - cbn. split.
    + intros u [<-|[]]. apply Qle_refl.
    + exists v. split; [now left | reflexivity].
  - cbn [foldl]. destruct (IH (Qmax v a)) as [Hle (u & Hu & Heq)]. split.
    + intros w [<-|[<-|Hw]].
      * eapply Qle_trans; [apply Q.le_max_l | apply Hle; now left].
      * eapply Qle_trans; [apply Q.le_max_r | apply Hle; now left].
      * apply Hle. now right.
    + destruct Hu as [<-|Hu].
      * destruct (Q.max_dec v a) as [E|E].
        -- exists v. split; [now left | exact (Qeq_trans _ _ _ (Qeq_sym _ _ E) Heq)].
        -- exists a. split; [right; now left | exact (Qeq_trans _ _ _ (Qeq_sym _ _ E) Heq)].
      * exists u. split; [right; now right | exact Heq].
Qed.

Lemma column_bounds (vs : list Q) (v : Q) :
  In v vs -> (column_min vs <= v <= column_max vs)%Q.
Proof.
  destruct vs as [|a vs]; [intros []|]. intros Hv. unfold column_min, column_max. split.
  - apply (proj1 (foldl_Qmin_spec vs a)). exact Hv.
  - apply (proj1 (foldl_Qmax_spec vs a)). exact Hv.
Qed.

Lemma column_attained (vs : list Q) :
  vs <> [] ->
  (exists u, In u vs /\ (u == column_min vs)%Q) /\
  (exists u, In u vs /\ (u == column_max vs)%Q).
Proof.
  destruct vs as [|a vs]; [congruence|]. intros _. unfold column_min, column_max. split.
  - apply (proj2 (foldl_Qmin_spec vs a)).
  - apply (proj2 (foldl_Qmax_spec vs a)).
Qed.

Lemma scaled_in_unit_interval (lo hi v : Q) :
  (lo < hi)%Q -> (lo <= v <= hi)%Q -> (0 <= (v - lo) / (hi - lo) <= 1)%Q.
Proof.
  intros Hlt [Hlo Hhi]. split.
  - apply Qle_shift_div_l; lra.
  - apply Qle_shift_div_r; lra.
Qed.

Lemma scaled_column (col : Row -> Q) (df : DataFrame) :
  let vs := map col df in
  let scaled := fun r => ((col r - column_min vs) / (column_max vs - column_min vs))%Q in
  (column_min vs < column_max vs)%Q ->
  Forall (fun r => (0 <= scaled r <= 1)%Q) df /\
  Exists (fun r => (scaled r == 0)%Q) df /\
  Exists (fun r => (scaled r == 1)%Q) df.
Proof.
  intros vs scaled Hlt.
  assert (Hne : vs <> []).
  { intros E. rewrite E in Hlt. cbn in Hlt. lra. }
  destruct (column_attained vs Hne) as [(u & Hu & Hmin) (w & Hw & Hmax)].
  split; [|split].
  - apply List.Forall_forall. intros r Hr. apply scaled_in_unit_interval; [exact Hlt|].
    apply column_bounds. apply in_map. exact Hr.
  - apply in_map_iff in Hu as (r & <- & Hr). apply List.Exists_exists. exists r.
    split; [exact Hr|]. unfold scaled.
    setoid_replace (col r - column_min vs)%Q with 0%Q using relation Qeq by lra.
    unfold Qdiv. apply Qmult_0_l.
  - apply in_map_iff in Hw as (r & <- & Hr). apply List.Exists_exists. exists r.
    split; [exact Hr|]. unfold scaled.
    setoid_replace (col r - column_min vs)%Q with (column_max vs - column_min vs)%Q using relation Qeq by lra.
    unfold Qdiv. apply Qmult_inv_r. lra.
Qed.

(** X13.  The normalisation at the end of the generator keeps the rows and
    their samples, and scales each of the columns [x] and [y] that is not
    constant onto [0, 1]: every value lies in the interval, and 0 and 1 are
    both taken. *)
Theorem normalize_scales_onto_unit_interval (df : DataFrame) :
  map sample (normalize df) = map sample df /\
  ((column_min (map x df) < column_max (map x df))%Q ->
   Forall (fun r => (0 <= x r <= 1)%Q) (normalize df) /\
   Exists (fun r => (x r == 0)%Q) (normalize df) /\
   Exists (fun r => (x r == 1)%Q) (normalize df)) /\
  ((column_min (map y df) < column_max (map y df))%Q ->
   Forall (fun r => (0 <= y r <= 1)%Q) (normalize df) /\
   Exists (fun r => (y r == 0)%Q) (normalize df) /\
   Exists (fun r => (y r == 1)%Q) (normalize df)).
Proof.
  split; [unfold normalize; rewrite map_map; reflexivity|].
  split; intros Hlt.
  - destruct (scaled_column x df Hlt) as (Hall & H0 & H1). unfold normalize.
    split; [|split].
    + apply List.Forall_map. exact Hall.
    + apply List.Exists_map. exact H0.
    + apply List.Exists_map. exact H1.
  - destruct (scaled_column y df Hlt) as (Hall & H0 & H1). unfold normalize.
    split; [|split].
    + apply List.Forall_map. exact Hall.
    + apply List.Exists_map. exact H0.
    + apply List.Exists_map. exact H1.
Qed.

End NormalizeFacts.

(** * Further properties of datasets/src/zenke_2a/dataset.py *)

Section SequentialDatasetFacts.
Import ZenkePy.

Lemma get_group_none (df : DataFrame) (k : Z) :
  rows_of df k = [] -> get_group df k = Thrown KeyError.
Proof. unfold get_group, rows_of. intros ->. reflexivity. Qed.

Lemma get_group_rows (df : DataFrame) (k : Z) :
  rows_of df k <> [] -> get_group df k = Done (rows_of df k).
Proof.
  unfold get_group, rows_of. destruct (filter _ df); [congruence | reflexivity].
Qed.

Lemma nth_take {A} (k i : nat) (l : list A) (d : A) :
  i < k -> nth i (take k l) d = nth i l d.
Proof.
  revert i l. induction k as [|k IH]; intros i l Hi; [lia|].
  destruct l as [|a l]; [reflexivity|]. destruct i as [|i]; [reflexivity|].
  cbn. apply IH. lia.
Qed.

Lemma length_slice_to {A} (stop : Z) (t : list A) :
  length (slice_to stop t)
  = if (0 <=? stop)%Z then Nat.min (Z.to_nat stop) (length t)
    else length t - Z.to_nat (- stop).
Proof.
  unfold slice_to. destruct (Z.leb_spec 0 stop); rewrite length_take; lia.
Qed.

Lemma nth_slice_to {A} (stop : Z) (t : list A) (i : nat) (d : A) :
  i < length (slice_to stop t) -> nth i (slice_to stop t) d = nth i t d.
Proof.
  intros Hi. pose proof Hi as Hi'. unfold slice_to in *.
  destruct (Z.leb_spec 0 stop); rewrite length_take in Hi'; apply nth_take; lia.
Qed.

Lemma Forall_slice_to {A} (P : A -> Prop) (stop : Z) (t : list A) :
  Forall P t -> Forall P (slice_to stop t).
Proof.
  intros H. unfold slice_to. destruct (0 <=? stop)%Z; apply Forall_take; exact H.
Qed.

(** X14.  [__getitem__] raises [KeyError] when the frame has no row of the
    sample asked for.  Otherwise it returns a tensor of rows [x, y], one
    for each of the leading rows of that sample in the order of the frame:
    the first [num_timesteps] of them (all, if there are fewer), and for a
    negative [num_timesteps] all but the last [- num_timesteps]. *)
Theorem getitem_returns_leading_rows (self : SequentialDataset) (idx : Z) :
  let rows := rows_of (dataframe self) idx in
  let kept := if (0 <=? num_timesteps self)%Z
              then Nat.min (Z.to_nat (num_timesteps self)) (length rows)
              else length rows - Z.to_nat (- num_timesteps self) in
  (rows = [] -> SequentialDataset__getitem__ self idx = Thrown KeyError)
  /\ (rows <> [] ->
      exists t,
        SequentialDataset__getitem__ self idx = Done t
        /\ length t = kept
        /\ Forall (fun row => length row = 2) t
        /\ forall i, i < kept ->
             nth i t [] = [x (nth i rows (mkRow 0 0 0)); y (nth i rows (mkRow 0 0 0))]).
Proof.
  intros rows kept. unfold SequentialDataset__getitem__. split.
  - intros Hr. rewrite (get_group_none _ _ Hr). reflexivity.
  - intros Hne. rewrite (get_group_rows _ _ Hne). fold rows.
    cbn [mbind Result_bind mret Result_ret].
    assert (Hlen : length (slice_to (num_timesteps self) (xy_tensor rows)) = kept).
    { rewrite length_slice_to. unfold xy_tensor. rewrite length_map. reflexivity. }
    eexists. split; [reflexivity|]. split; [exact Hlen|]. split.
    + apply Forall_slice_to. unfold xy_tensor. apply List.Forall_map.
      apply List.Forall_forall. intros; reflexivity.
    + intros i Hi. rewrite nth_slice_to by (rewrite Hlen; exact Hi).
      assert (Hi' : i < length rows).
      { subst kept. destruct (0 <=? num_timesteps self)%Z; lia. }
      unfold xy_tensor.
      rewrite (nth_indep _ [] ((fun r => [x r; y r]) (mkRow 0 0 0)))
        by (rewrite length_map; exact Hi').
      apply (map_nth (fun r => [x r; y r])).
Qed.

Section Construction.
Context `{NumpyRandom}.
Variables TRAIN_DATA_PATH TEST_DATA_PATH : string.

Lemma generate_sequential_dataset_returns (num_samples num_datapoints num_clusters : Z)
    (cluster_switch_prob cluster_spread : Q) (cur : nat) :
  (0 < num_clusters)%Z ->
  exists df,
    generate_sequential_dataset num_samples num_datapoints num_clusters
      cluster_switch_prob cluster_spread cur
    = (Done df, (cur + Z.to_nat num_samples * (1 + 3 * Z.to_nat num_datapoints))%nat)
    /\ map sample df = sample_blocks (Z.to_nat num_samples) (Z.to_nat num_datapoints).
Proof.
  intros Hnc. unfold generate_sequential_dataset.
  destruct (generate_samples_spec (map Z.of_nat (seq 0 (Z.to_nat num_samples)))
              (Z.to_nat num_datapoints) num_clusters cluster_switch_prob cur Hnc)
    as (rows & -> & Hrows).
  rewrite length_map, length_seq. exists (normalize rows).
  split; [reflexivity|]. rewrite normalize_sample. exact Hrows.
Qed.

(** X15.  [__init__] looks at the frame it is given before it keeps it.
    Without a row of sample 0 it raises [KeyError], and with
    [planned_batch_size = 0] [ZeroDivisionError]; both leave the files and
    the random generator alone.  A frame whose number of rows is a multiple
    of [planned_batch_size] and whose sample 0 has [num_timesteps] rows is
    kept as it is, and nothing is written or drawn.  Any other frame is
    dropped: for [planned_batch_size >= 1] and [num_timesteps >= 1] the
    data set then holds a newly generated frame of [planned_batch_size]
    samples of [num_timesteps] rows each, the file of the data set's type
    holds that frame and no other file is touched. *)
Theorem init_keeps_or_regenerates (dataset_type : DatasetType) (dataframe_tmp : DataFrame)
    (num_timesteps planned_batch_size : Z) (files : Files) (cur : nat) :
  let rows0 := rows_of dataframe_tmp 0 in
  let path := match dataset_type with TRAIN => TRAIN_DATA_PATH | TEST => TEST_DATA_PATH end in
  let S := Z.to_nat planned_batch_size in
  let D := Z.to_nat num_timesteps in
  let made := SequentialDataset__init__ TRAIN_DATA_PATH TEST_DATA_PATH dataset_type
                dataframe_tmp num_timesteps planned_batch_size files cur in
  (rows0 = [] -> made = (Thrown KeyError, files, cur))
  /\ (rows0 <> [] -> planned_batch_size = 0%Z ->
      made = (Thrown ZeroDivisionError, files, cur))
  /\ (rows0 <> [] -> planned_batch_size <> 0%Z ->
      (Z.of_nat (length dataframe_tmp) mod planned_batch_size = 0)%Z ->
      Z.of_nat (length rows0) = num_timesteps ->
      made = (Done {| dataframe := dataframe_tmp; num_timesteps := num_timesteps |},
              files, cur))
  /\ (rows0 <> [] -> (1 <= planned_batch_size)%Z -> (1 <= num_timesteps)%Z ->
      (Z.of_nat (length dataframe_tmp) mod planned_batch_size <> 0)%Z
      \/ Z.of_nat (length rows0) <> num_timesteps ->
      exists df,
        made = (Done {| dataframe := df; num_timesteps := num_timesteps |},
                to_csv path df files, (cur + S * (1 + 3 * D))%nat)
        /\ map sample df = sample_blocks S D
        /\ to_csv path df files path = Some df
        /\ forall other, other <> path -> to_csv path df files other = files other).
Proof.
  intros rows0 path S D made. subst made. unfold SequentialDataset__init__.
  split; [intros Hr; rewrite (get_group_none _ _ Hr); reflexivity|].
  split; [|split].
  - intros Hne ->. rewrite (get_group_rows _ _ Hne). reflexivity.
  - intros Hne Hp Hmod Hlen. rewrite (get_group_rows _ _ Hne). fold rows0.
    replace (planned_batch_size =? 0)%Z with false by (symmetry; apply Z.eqb_neq; exact Hp).
    unfold xy_tensor. rewrite length_map.
    replace (Z.of_nat (length dataframe_tmp) mod planned_batch_size =? 0)%Z with true
      by (symmetry; apply Z.eqb_eq; exact Hmod).
    replace (Z.of_nat (length rows0) =? num_timesteps)%Z with true
      by (symmetry; apply Z.eqb_eq; exact Hlen).
    reflexivity.
  - intros Hne Hp Hn Hbad. rewrite (get_group_rows _ _ Hne). fold rows0.
    replace (planned_batch_size =? 0)%Z with false by (symmetry; apply Z.eqb_neq; lia).
    unfold xy_tensor. rewrite length_map.
    replace (negb (Z.of_nat (length dataframe_tmp) mod planned_batch_size =? 0)%Z
             || negb (Z.of_nat (length rows0) =? num_timesteps)%Z) with true.
    2:{ symmetry. apply orb_true_iff. destruct Hbad as [Hb|Hb]; [left | right];
          apply negb_true_iff; apply Z.eqb_neq; exact Hb. }
    destruct (generate_sequential_dataset_returns planned_batch_size num_timesteps 2
                (2 # 100) (1 # 2) cur ltac:(lia)) as (df & -> & Hdf).
    fold path. fold S D.
    assert (Hread : to_csv path df files path = Some df).
    { unfold to_csv. rewrite String.eqb_refl. reflexivity. }
    exists df.
    split; [unfold read_csv; rewrite Hread; reflexivity|].
    split; [exact Hdf|]. split; [exact Hread|].
    intros other Hother. unfold to_csv.
    destruct (String.eqb_spec other path); [congruence | reflexivity].
Qed.

End Construction.

Lemma length_rows_of (df : DataFrame) (k : Z) :
  length (rows_of df k) = length (filter (fun s => s = k) (map sample df)).
Proof.
  unfold rows_of. induction df as [|r df IH]; [reflexivity|].
  cbn [map]. rewrite !filter_cons.
  destruct (decide (sample r = k)); cbn [length]; rewrite IH; reflexivity.
Qed.

Lemma length_filter_repeat (j k : Z) (D : nat) :
  length (filter (fun s => s = k) (repeat j D)) = if decide (j = k) then D else 0.
Proof.
  induction D as [|D IH]; [destruct (decide (j = k)); reflexivity|].
  cbn [repeat]. rewrite filter_cons.
  destruct (decide (j = k)); cbn [length]; rewrite IH; reflexivity.
Qed.

Lemma length_filter_sample_blocks (S D : nat) (k : Z) :
  length (filter (fun s => s = k) (sample_blocks S D))
  = if decide (0 <= k < Z.of_nat S)%Z then D else 0.
Proof.
  unfold sample_blocks. induction S as [|S IH].
  - cbn [seq map flat_map filter]. rewrite filter_nil.
    destruct (decide (0 <= k < Z.of_nat 0)%Z); [lia | reflexivity].
  - rewrite seq_S, map_app, flat_map_app, filter_app, length_app, IH.
    cbn [map flat_map Nat.add]. rewrite app_nil_r, length_filter_repeat.
    destruct (decide (0 <= k < Z.of_nat S)%Z), (decide (Z.of_nat S = k)),
      (decide (0 <= k < Z.of_nat (Datatypes.S S))%Z); lia.
Qed.

Lemma In_sample_blocks (S D : nat) (k : Z) :
  1 <= D -> (In k (sample_blocks S D) <-> In k (map Z.of_nat (seq 0 S))).
Proof.
  intros HD. unfold sample_blocks. rewrite in_flat_map. split.
  - intros (j & Hj & Hk). apply repeat_spec in Hk as ->. exact Hj.
  - intros Hk. exists k. split; [exact Hk|].
    destruct D as [|D]; [lia|]. left. reflexivity.
Qed.

Lemma length_remove_dups_sample_blocks (S D : nat) :
  1 <= D -> length (remove_dups (sample_blocks S D)) = S.
Proof.
  intros HD.
  assert (Hperm : remove_dups (sample_blocks S D) ≡ₚ map Z.of_nat (seq 0 S)).
  { apply NoDup_Permutation.
    - apply NoDup_remove_dups.
    - change (map Z.of_nat (seq 0 S)) with (Z.of_nat <$> seq 0 S).
      apply NoDup_fmap_2; [apply _ | apply NoDup_seq].
    - intros k. rewrite elem_of_remove_dups, !list_elem_of_In.
      apply In_sample_blocks. exact HD. }
  rewrite Hperm, length_map, length_seq. reflexivity.
Qed.

(** X16.  A data set whose frame has [S >= 1] samples numbered from 0 of
    [D >= 1] consecutive rows each, and whose [num_timesteps] is [D], as
    [__init__] leaves it when it has generated the frame: its length is
    [S]; every index from 0 to [S - 1] yields a tensor of [D] rows [x, y],
    every other index raises [KeyError]; and constructing a data set from
    that frame again, with the same [num_timesteps] and
    [planned_batch_size = S], keeps the frame without generating or
    writing anything. *)
Theorem generated_dataset_is_served (TRAIN_DATA_PATH TEST_DATA_PATH : string)
    `{NumpyRandom} (self : SequentialDataset) (S D : nat) :
  1 <= S -> 1 <= D ->
  map sample (dataframe self) = sample_blocks S D ->
  num_timesteps self = Z.of_nat D ->
  SequentialDataset__len__ self = Z.of_nat S
  /\ (forall idx, (0 <= idx < Z.of_nat S)%Z ->
        exists t, SequentialDataset__getitem__ self idx = Done t
                  /\ length t = D /\ Forall (fun row => length row = 2) t)
  /\ (forall idx, ~ (0 <= idx < Z.of_nat S)%Z ->
        SequentialDataset__getitem__ self idx = Thrown KeyError)
  /\ (forall dataset_type files cur,
        SequentialDataset__init__ TRAIN_DATA_PATH TEST_DATA_PATH dataset_type
          (dataframe self) (Z.of_nat D) (Z.of_nat S) files cur
        = (Done self, files, cur)).
Proof.
  intros HS HD Hcol Hnt.
  assert (Hrows : forall k, length (rows_of (dataframe self) k)
                            = if decide (0 <= k < Z.of_nat S)%Z then D else 0).
  { intros k. rewrite length_rows_of, Hcol. apply length_filter_sample_blocks. }
  split; [|split; [|split]].
  - unfold SequentialDataset__len__. rewrite Hcol.
    rewrite length_remove_dups_sample_blocks by exact HD. reflexivity.
  - intros idx Hidx. specialize (Hrows idx).
    destruct (decide (0 <= idx < Z.of_nat S)%Z) as [_|Hn]; [|contradiction].
    assert (Hne : rows_of (dataframe self) idx <> []).
    { intros E. rewrite E in Hrows. cbn in Hrows. lia. }
    destruct (proj2 (getitem_returns_leading_rows self idx) Hne)
      as (t & Hget & Hlen & Hall & _).
    exists t. split; [exact Hget|]. split; [|exact Hall].
    rewrite Hlen, Hrows, Hnt.
    replace (0 <=? Z.of_nat D)%Z with true by (symmetry; apply Z.leb_le; lia).
    lia.
  - intros idx Hidx. specialize (Hrows idx).
    destruct (decide (0 <= idx < Z.of_nat S)%Z) as [Hy|_]; [contradiction|].
    apply (proj1 (getitem_returns_leading_rows self idx)).
    destruct (rows_of (dataframe self) idx); [reflexivity | discriminate Hrows].
  - intros dataset_type files cur.
    pose proof (Hrows 0%Z) as H0.
    destruct (decide (0 <= 0 < Z.of_nat S)%Z) as [_|Hn]; [|lia].
    assert (Hne : rows_of (dataframe self) 0 <> []).
    { intros E. rewrite E in H0. cbn in H0. lia. }
    assert (Hlen : length (dataframe self) = S * D).
    { rewrite <- (length_map sample), Hcol. apply length_sample_blocks. }
    destruct (init_keeps_or_regenerates TRAIN_DATA_PATH TEST_DATA_PATH dataset_type
                (dataframe self) (Z.of_nat D) (Z.of_nat S) files cur)
      as (_ & _ & Hkeep & _).
    rewrite Hkeep; [destruct self; cbn in *; congruence | exact Hne | lia | | lia].
    rewrite Hlen, Nat2Z.inj_mul, Z.mul_comm. apply Z.mod_mul. lia.
Qed.

End SequentialDatasetFacts.

(** * The data sets on the generators that walk through their range *)

Section DatasetRuns.
Import ImageDatasetPy ZenkePy.

Lemma cycling_random_in_range : @randint_in_range cycling_random.
Proof.
  intros k a b Hab. cbn.
  pose proof (Z.mod_pos_bound (Z.of_nat k) (b - a + 1)) as Hm. lia.
Qed.

Lemma getitem_is_block_one_hot_witness :
  exists out_one_hot out_labels,
    @ImageDataset__getitem__ cycling_random (ImageDataset__init__ 2 3 cpu None) 5 8
    = (Done (out_one_hot, out_labels), 11)
    /\ out_labels = [8%Z; 9%Z; 0%Z]
    /\ length out_one_hot = 6
    /\ entry2 out_one_hot 3 9 = 1%Q
    /\ entry2 out_one_hot 3 8 = 0%Q.
Proof.
  destruct (@getitem_is_block_one_hot cycling_random 2 3 cpu None 5 8
              cycling_random_in_range)
    as (out_one_hot & out_labels & Hget & Hlab & _ & Hlen & Hrow).
  exists out_one_hot, out_labels.
  split; [exact Hget|]. split; [exact Hlab|]. split; [exact Hlen|].
  destruct (Hrow 1 1 ltac:(cbn; lia) ltac:(cbn; lia)) as [_ Hentry].
  rewrite Hlab in Hentry. split.
  - exact (Hentry 9 ltac:(lia)).
  - exact (Hentry 8 ltac:(lia)).
Defined.

Lemma generated_frame_layout_witness :
  exists df,
    @generate_sequential_dataset cycling_numpy 2 3 2 (2 # 100) (1 # 2) 0 = (Done df, 20)
    /\ map sample df = [0%Z; 0%Z; 0%Z; 1%Z; 1%Z; 1%Z]
    /\ length df = 6.
Proof.
  exact (@generated_frame_layout cycling_numpy 2 3 2 (2 # 100) (1 # 2) 0 ltac:(lia)).
Defined.

Lemma generate_without_cluster_witness :
  @generate_sequential_dataset cycling_numpy 2 3 0 (2 # 100) (1 # 2) 7
  = (Thrown ValueError, 7)
  /\ @generate_sequential_dataset cycling_numpy 0 3 0 (2 # 100) (1 # 2) 7 = (Done [], 7).
Proof.
  split.
  - exact (@generate_without_cluster cycling_numpy 2 3 0 (2 # 100) (1 # 2) 7 ltac:(lia)).
  - exact (@generate_without_cluster cycling_numpy 0 3 0 (2 # 100) (1 # 2) 7 ltac:(lia)).
Defined.

Lemma normalize_scales_onto_unit_interval_witness :
  let df := [mkRow 0 2 5; mkRow 0 3 5; mkRow 1 6 5] in
  Forall (fun r => (0 <= x r <= 1)%Q) (normalize df)
  /\ Exists (fun r => (x r == 0)%Q) (normalize df)
  /\ Exists (fun r => (x r == 1)%Q) (normalize df).
Proof.
  intros df.
  apply (proj1 (proj2 (normalize_scales_onto_unit_interval df))).
  vm_compute. reflexivity.
Defined.

Lemma getitem_returns_leading_rows_witness :
  let self := {| dataframe := [mkRow 0 1 2; mkRow 1 3 4; mkRow 0 5 6; mkRow 0 7 8];
                 num_timesteps := 2 |} in
  SequentialDataset__getitem__ self 7 = Thrown KeyError
  /\ exists t, SequentialDataset__getitem__ self 0 = Done t
               /\ length t = 2
               /\ nth 0 t [] = [1%Q; 2%Q]
               /\ nth 1 t [] = [5%Q; 6%Q].
Proof.
  intros self. split.
  - apply (proj1 (getitem_returns_leading_rows self 7)). reflexivity.
  - destruct (proj2 (getitem_returns_leading_rows self 0) ltac:(discriminate))
      as (t & Hget & Hlen & _ & Hrow).
    exists t. split; [exact Hget|]. split; [exact Hlen|]. split.
    + apply (Hrow 0). vm_compute. lia.
    + apply (Hrow 1). vm_compute. lia.
Defined.

Lemma init_keeps_or_regenerates_witness :
  let files : Files := fun _ => None in
  let df0 := [mkRow 0 1 2] in
  @SequentialDataset__init__ cycling_numpy "train.csv"%string "test.csv"%string TRAIN df0 1 1 files 0
  = (Done {| dataframe := df0; num_timesteps := 1 |}, files, 0)
  /\ exists df,
       @SequentialDataset__init__ cycling_numpy "train.csv"%string "test.csv"%string TEST df0 2 1 files 0
       = (Done {| dataframe := df; num_timesteps := 2 |}, to_csv "test.csv"%string df files, 7)
       /\ map sample df = [0%Z; 0%Z]
       /\ to_csv "test.csv"%string df files "train.csv"%string = None.
Proof.
  intros files df0. split.
  - apply (proj1 (proj2 (proj2 (@init_keeps_or_regenerates cycling_numpy
                                  "train.csv"%string "test.csv"%string TRAIN df0 1 1 files 0))));
      [discriminate | lia | reflexivity | reflexivity].
  - destruct (proj2 (proj2 (proj2 (@init_keeps_or_regenerates cycling_numpy
                                     "train.csv"%string "test.csv"%string TEST df0 2 1 files 0)))
                ltac:(discriminate) ltac:(lia) ltac:(lia)
                ltac:(right; vm_compute; lia))
      as (df & Hmade & Hcol & _ & Hother).
    exists df. split; [exact Hmade|]. split; [exact Hcol|].
    apply (Hother "train.csv"%string). discriminate.
Defined.

Lemma generated_dataset_is_served_witness :
  let self := {| dataframe := [mkRow 0 1 2; mkRow 0 3 4; mkRow 1 5 6; mkRow 1 7 8];
                 num_timesteps := 2 |} in
  SequentialDataset__len__ self = 2%Z
  /\ (exists t, SequentialDataset__getitem__ self 1 = Done t /\ length t = 2)
  /\ SequentialDataset__getitem__ self 2 = Thrown KeyError
  /\ @SequentialDataset__init__ cycling_numpy "train.csv"%string "test.csv"%string TRAIN
       (dataframe self) 2 2 (fun _ => None) 0
     = (Done self, fun _ => None, 0).
Proof.
  intros self.
  destruct (@generated_dataset_is_served "train.csv"%string "test.csv"%string cycling_numpy self 2 2
              ltac:(lia) ltac:(lia) eq_refl eq_refl)
    as (Hlen & Hget & Hkey & Hinit).
  split; [exact Hlen|]. split.
  - destruct (Hget 1%Z ltac:(lia)) as (t & Ht & Hl & _). exists t. split; assumption.
  - split; [apply Hkey; lia | apply Hinit].
Defined.

End DatasetRuns.
